(** * SceneManager (Source/SceneManager.cpp)

    A shallow embedding of the scene resource and rendering-state layer:
    the texture registry, the material registry, the transform composer
    and the shader uniform binder, and above them the set-up of the scene
    and its draw sequences.

    Conventions of the embedding.
    - [int] is a mathematical integer; every [int] of the modelled code is an
      array index or a counter bounded by the capacity of [m_textureIDs] or
      by the size of [m_objectMaterials], so no signed overflow can occur
      before an out-of-bounds access does.  [GLuint] is an integer in
      [0, 2^32); its conversion to [int] wraps and is written out.
    - [float] is a real number.  The rounding of binary32 arithmetic and of
      the platform's [sinf] and [cosf] is outside the model: a matrix of the
      model is the one the code computes in exact arithmetic, and the
      statements made about float values are those that hold of values
      carried unchanged or computed without rounding.
    - Member functions are computations over [State]; dereferencing a NULL
      [m_pShaderManager] or indexing [m_textureIDs] outside the array is
      undefined behaviour and yields [Undefined].
    - OpenGL and stb_image are external: the calls made to them are recorded
      in order, and the shader manager records the uniforms written to it.
    - [ShapeMeshes] is external: the loads and the draws of meshes are
      recorded in order, a draw with the uniforms that the shader manager
      holds when it is made.
    - Console output ([std::cout]) is not modelled. *)

From Stdlib Require Import ZArith String List Lia Reals Bool.
From stdpp Require Import base list strings.

Local Open Scope string_scope.
Local Open Scope Z_scope.
Local Open Scope list_scope.

(** ** Scalars and vectors *)

Abbreviation float := R (only parsing).

Module vec2.
Record t : Type := mk { x : float; y : float }.
End vec2.

Module vec3.
Record t : Type := mk { x : float; y : float; z : float }.
End vec3.

Module vec4.
Record t : Type := mk { x : float; y : float; z : float; w : float }.
End vec4.

(** [glm::mat4] is column-major: [m[i]] is the i-th column. *)
Module mat4.
Record t : Type := mk { c0 : vec4.t; c1 : vec4.t; c2 : vec4.t; c3 : vec4.t }.
End mat4.

(** ** The registries' entries *)

(** Modelled from the spec: the declarations of [TEXTURE_INFO] and
    [OBJECT_MATERIAL] (SceneManager.h) are not among the sources.  The members
    are those the source reads and writes, which are those of the
    specification's TextureEntry (whose slot is the index in [m_textureIDs])
    and MaterialEntry.  The member [ID] is passed to [glGenTextures] by
    address in [DestroyGLTextures], so it is a [GLuint]. *)
Module TEXTURE_INFO.
Record t : Type := mk { ID : Z; tag : string }.
End TEXTURE_INFO.

Module OBJECT_MATERIAL.
Record t : Type := mk {
  ambientColor : vec3.t;
  ambientStrength : float;
  diffuseColor : vec3.t;
  specularColor : vec3.t;
  shininess : float;
  tag : string
}.
End OBJECT_MATERIAL.

(** ** The shader manager: a sink of named uniforms *)

(** Modelled from the spec: the class [ShaderManager] is not among the
    sources.  It is the specification's shader uniform sink, which accepts
    booleans, integers, floats, 2-, 3- and 4-vectors and 4x4 matrices by
    name; a value of it is the list of the uniforms written, oldest first. *)
Inductive UniformValue : Type :=
| UBool (b : bool)
| UInt (i : Z)
| UFloat (f : float)
| UVec2 (v : vec2.t)
| UVec3 (v : vec3.t)
| UVec4 (v : vec4.t)
| UMat4 (m : mat4.t)
| USampler2D (slot : Z).

Definition ShaderManager : Type := list (string * UniformValue).

(** ** OpenGL and stb_image *)

Inductive GLenum : Type :=
| GL_TEXTURE_2D
| GL_TEXTURE_WRAP_S | GL_TEXTURE_WRAP_T
| GL_TEXTURE_MIN_FILTER | GL_TEXTURE_MAG_FILTER
| GL_REPEAT | GL_LINEAR
| GL_RGB8 | GL_RGB | GL_RGBA8 | GL_RGBA
| GL_UNSIGNED_BYTE.

(** What [stbi_load] yields for a file it can decode. *)
Record Image : Type := mkImage { width : Z; height : Z; colorChannels : Z }.

(** The calls of the two libraries.  [glDeleteTextures] is the call of the
    OpenGL interface that releases a texture name. *)
Inductive ExternCall : Type :=
| stbi_set_flip_vertically_on_load (flag : bool)
| stbi_image_free (image : Image)
| glGenTextures (name : Z)
| glBindTexture (target : GLenum) (texture : Z)
| glTexParameteri (target pname param : GLenum)
| glTexImage2D (target : GLenum) (level : Z) (internalformat : GLenum)
               (w h border : Z) (format type : GLenum)
| glGenerateMipmap (target : GLenum)
| glActiveTexture (unit : Z)
| glDeleteTextures (name : Z).

(** The texture names in use after a sequence of calls: generated and not
    deleted since. *)
Definition live_step (live : list Z) (c : ExternCall) : list Z :=
  match c with
  | glGenTextures n => live ++ [n]
  | glDeleteTextures n => filter (fun m => m ≠ n) live
  | _ => live
  end.

Definition live_textures (calls : list ExternCall) : list Z :=
  fold_left live_step calls [].

(** [glGenTextures] returns a name that is not in use (OpenGL leaves open
    which): here the successor of the largest name in use, 1 when there is
    none; 0 is never a name. *)
Definition fresh_texture_name (calls : list ExternCall) : Z :=
  1 + foldr Z.max 0 (live_textures calls).

(** ** The state *)

(** Modelled from the spec: the declaration of the class [SceneManager]
    (SceneManager.h) is not among the sources.  The members are those the
    source uses: the pointer to the shader manager ([None] for NULL, else the
    state of the object pointed to), the slot counter, the array of texture
    entries, whose length is its declared size, and the vector of materials.
    The last two fields are the environment. *)
Record State : Type := mkState {
  m_pShaderManager : option ShaderManager;
  m_loadedTextures : Z;
  m_textureIDs : list TEXTURE_INFO.t;
  m_objectMaterials : list OBJECT_MATERIAL.t;
  (** the calls made to OpenGL and stb_image so far, oldest first *)
  calls : list ExternCall;
  (** the image files that can be decoded, by file name *)
  files : string -> option Image
}.

Definition with_shader (sm : option ShaderManager) (s : State) : State :=
  mkState sm (m_loadedTextures s) (m_textureIDs s) (m_objectMaterials s)
          (calls s) (files s).

Definition with_loadedTextures (n : Z) (s : State) : State :=
  mkState (m_pShaderManager s) n (m_textureIDs s) (m_objectMaterials s)
          (calls s) (files s).

Definition with_textureIDs (a : list TEXTURE_INFO.t) (s : State) : State :=
  mkState (m_pShaderManager s) (m_loadedTextures s) a (m_objectMaterials s)
          (calls s) (files s).

Definition with_objectMaterials (l : list OBJECT_MATERIAL.t) (s : State) : State :=
  mkState (m_pShaderManager s) (m_loadedTextures s) (m_textureIDs s) l
          (calls s) (files s).

Definition with_calls (c : list ExternCall) (s : State) : State :=
  mkState (m_pShaderManager s) (m_loadedTextures s) (m_textureIDs s)
          (m_objectMaterials s) c (files s).

(** ** Computations *)

Inductive outcome (A : Type) : Type :=
| Returns (a : A)
| Undefined
| OutOfFuel.
Arguments Returns {A} a.
Arguments Undefined {A}.
Arguments OutOfFuel {A}.

Definition M (A : Type) : Type := State -> outcome (A * State).

Definition ret {A} (a : A) : M A := fun s => Returns (a, s).

Definition bind {A B} (m : M A) (k : A -> M B) : M B :=
  fun s =>
    match m s with
    | Returns (a, s') => k a s'
    | Undefined => Undefined
    | OutOfFuel => OutOfFuel
    end.

Declare Scope scene_scope.
Delimit Scope scene_scope with scene.
Notation "x <- c1 ;; c2" := (bind c1 (fun x => c2))
  (at level 100, c1 at next level, right associativity) : scene_scope.
Notation "c1 ;;; c2" := (bind c1 (fun _ => c2))
  (at level 100, right associativity) : scene_scope.
Local Open Scope scene_scope.

Definition get {A} (f : State -> A) : M A := fun s => Returns (f s, s).
Definition modify (f : State -> State) : M unit := fun s => Returns (tt, f s).
Definition out_of_fuel {A} : M A := fun _ => OutOfFuel.

(** [while (cond) body], run for at most [fuel] iterations of the body. *)
Fixpoint while {V} (fuel : nat) (cond : V -> M bool) (body : V -> M V) (v : V)
  : M V :=
  b <- cond v ;;
  if b then
    match fuel with
    | O => out_of_fuel
    | S fuel' => v' <- body v ;; while fuel' cond body v'
    end
  else ret v.

(** [for (int i = 0; i < bound; i++) body(i)] *)
Definition for_loop (fuel : nat) (bound : M Z) (body : Z -> M unit) : M unit :=
  while fuel (fun i => n <- bound ;; ret (i <? n))
             (fun i => body i ;;; ret (i + 1)) 0 ;;;
  ret tt.

(** A call of an external library. *)
Definition call (c : ExternCall) : M unit :=
  modify (fun s => with_calls (calls s ++ [c]) s).

(** Modelled from the spec: the member functions [set...Value(name, v)] of
    [ShaderManager] are not among the sources; each writes the uniform of
    that name.  Calling one through a NULL [m_pShaderManager] is undefined. *)
Definition shader_set (name : string) (v : UniformValue) : M unit :=
  fun s =>
    match m_pShaderManager s with
    | None => Undefined
    | Some sm => Returns (tt, with_shader (Some (sm ++ [(name, v)])) s)
    end.

Definition setBoolValue (name : string) (b : bool) : M unit :=
  shader_set name (UBool b).
Definition setIntValue (name : string) (i : Z) : M unit :=
  shader_set name (UInt i).
Definition setFloatValue (name : string) (f : float) : M unit :=
  shader_set name (UFloat f).
Definition setVec2Value (name : string) (v : vec2.t) : M unit :=
  shader_set name (UVec2 v).
Definition setVec3Value (name : string) (v : vec3.t) : M unit :=
  shader_set name (UVec3 v).
Definition setVec4Value (name : string) (v : vec4.t) : M unit :=
  shader_set name (UVec4 v).
Definition setMat4Value (name : string) (m : mat4.t) : M unit :=
  shader_set name (UMat4 m).
Definition setSampler2DValue (name : string) (slot : Z) : M unit :=
  shader_set name (USampler2D slot).

(** [m_textureIDs[index]], read. *)
Definition textureIDs_at (index : Z) : M TEXTURE_INFO.t :=
  fun s =>
    if index <? 0 then Undefined
    else match m_textureIDs s !! Z.to_nat index with
         | Some e => Returns (e, s)
         | None => Undefined
         end.

(** [m_textureIDs[index] = e], write. *)
Definition textureIDs_store (index : Z) (e : TEXTURE_INFO.t) : M unit :=
  fun s =>
    if (0 <=? index) && (index <? Z.of_nat (length (m_textureIDs s))) then
      Returns (tt, with_textureIDs (<[Z.to_nat index := e]> (m_textureIDs s)) s)
    else Undefined.

(** [m_objectMaterials[index]]; the caller keeps [index], which it compares
    with [size()] as an unsigned number and which is never negative, below
    [size()]. *)
Definition objectMaterials_at (index : Z) : M OBJECT_MATERIAL.t :=
  fun s =>
    if index <? 0 then Undefined
    else match m_objectMaterials s !! Z.to_nat index with
         | Some e => Returns (e, s)
         | None => Undefined
         end.

(** [std::string::compare]: negative, zero or positive. *)
Definition compare (a b : string) : Z :=
  match String.compare a b with
  | Eq => 0
  | Lt => -1
  | Gt => 1
  end.

(** [GLuint] to [int]. *)
Definition int_of_GLuint (u : Z) : Z :=
  (u + 2 ^ 31) mod 2 ^ 32 - 2 ^ 31.

(** The global names of the uniforms. *)
Definition g_ModelName : string := "model".
Definition g_ColorValueName : string := "objectColor".
Definition g_TextureValueName : string := "objectTexture".
Definition g_UseTextureName : string := "bUseTexture".
Definition g_UseLightingName : string := "bUseLighting".

(** ** Texture registry *)

(** [CreateGLTexture(filename, tag)] *)
Definition CreateGLTexture (filename : string) (tag : string) : M bool :=
  call (stbi_set_flip_vertically_on_load true) ;;;
  image <- get (fun s => files s filename) ;;
  match image with
  | Some img =>
      textureID <- get (fun s => fresh_texture_name (calls s)) ;;
      call (glGenTextures textureID) ;;;
      call (glBindTexture GL_TEXTURE_2D textureID) ;;;
      call (glTexParameteri GL_TEXTURE_2D GL_TEXTURE_WRAP_S GL_REPEAT) ;;;
      call (glTexParameteri GL_TEXTURE_2D GL_TEXTURE_WRAP_T GL_REPEAT) ;;;
      call (glTexParameteri GL_TEXTURE_2D GL_TEXTURE_MIN_FILTER GL_LINEAR) ;;;
      call (glTexParameteri GL_TEXTURE_2D GL_TEXTURE_MAG_FILTER GL_LINEAR) ;;;
      uploaded <-
        (if colorChannels img =? 3 then
           call (glTexImage2D GL_TEXTURE_2D 0 GL_RGB8 (width img) (height img) 0
                              GL_RGB GL_UNSIGNED_BYTE) ;;;
           ret true
         else if colorChannels img =? 4 then
           call (glTexImage2D GL_TEXTURE_2D 0 GL_RGBA8 (width img) (height img) 0
                              GL_RGBA GL_UNSIGNED_BYTE) ;;;
           ret true
         else ret false) ;;
      if uploaded : bool then
        call (glGenerateMipmap GL_TEXTURE_2D) ;;;
        call (stbi_image_free img) ;;;
        call (glBindTexture GL_TEXTURE_2D 0) ;;;
        n <- get m_loadedTextures ;;
        textureIDs_store n (TEXTURE_INFO.mk textureID tag) ;;;
        modify (fun s => with_loadedTextures (m_loadedTextures s + 1) s) ;;;
        ret true
      else ret false
  | None => ret false
  end.

(** [BindGLTextures()]; [glActiveTexture i] stands for
    [glActiveTexture(GL_TEXTURE0 + i)]. *)
Definition BindGLTextures : M unit :=
  fuel <- get (fun s => Z.to_nat (m_loadedTextures s)) ;;
  for_loop fuel (get m_loadedTextures)
    (fun i =>
       call (glActiveTexture i) ;;;
       e <- textureIDs_at i ;;
       call (glBindTexture GL_TEXTURE_2D (TEXTURE_INFO.ID e))).

(** [DestroyGLTextures()]: [glGenTextures(1, &m_textureIDs[i].ID)] stores the
    generated name in the entry. *)
Definition DestroyGLTextures : M unit :=
  fuel <- get (fun s => Z.to_nat (m_loadedTextures s)) ;;
  for_loop fuel (get m_loadedTextures)
    (fun i =>
       e <- textureIDs_at i ;;
       name <- get (fun s => fresh_texture_name (calls s)) ;;
       call (glGenTextures name) ;;;
       textureIDs_store i (TEXTURE_INFO.mk name (TEXTURE_INFO.tag e))).

(** The locals of the two texture lookups: the result, [index], [bFound]. *)
Record find_locals : Type := mkLocals { result : Z; index : Z; bFound : bool }.

Definition find_cond (v : find_locals) : M bool :=
  n <- get m_loadedTextures ;;
  ret ((index v <? n) && eqb (bFound v) false).

(** [FindTextureID(tag)] *)
Definition FindTextureID (tag : string) : M Z :=
  fuel <- get (fun s => Z.to_nat (m_loadedTextures s)) ;;
  v <- while fuel find_cond
         (fun v =>
            e <- textureIDs_at (index v) ;;
            if compare (TEXTURE_INFO.tag e) tag =? 0
            then ret (mkLocals (int_of_GLuint (TEXTURE_INFO.ID e)) (index v) true)
            else ret (mkLocals (result v) (index v + 1) (bFound v)))
         (mkLocals (-1) 0 false) ;;
  ret (result v).

(** [FindTextureSlot(tag)] *)
Definition FindTextureSlot (tag : string) : M Z :=
  fuel <- get (fun s => Z.to_nat (m_loadedTextures s)) ;;
  v <- while fuel find_cond
         (fun v =>
            e <- textureIDs_at (index v) ;;
            if compare (TEXTURE_INFO.tag e) tag =? 0
            then ret (mkLocals (index v) (index v) true)
            else ret (mkLocals (result v) (index v + 1) (bFound v)))
         (mkLocals (-1) 0 false) ;;
  ret (result v).

(** ** Material registry *)

(** The locals of [FindMaterial], with the referenced [material]. *)
Record material_locals : Type := mkMaterialLocals {
  mindex : Z;
  mFound : bool;
  material : OBJECT_MATERIAL.t
}.

(** [FindMaterial(tag, material)]: the result and the contents of the object
    that [material] refers to, which is not an element of the registry. *)
Definition FindMaterial (tag : string) (material0 : OBJECT_MATERIAL.t)
  : M (bool * OBJECT_MATERIAL.t) :=
  size <- get (fun s => Z.of_nat (length (m_objectMaterials s))) ;;
  if size =? 0 then ret (false, material0)
  else
    v <- while (Z.to_nat size)
           (fun v =>
              n <- get (fun s => Z.of_nat (length (m_objectMaterials s))) ;;
              ret ((mindex v <? n) && eqb (mFound v) false))
           (fun v =>
              e <- objectMaterials_at (mindex v) ;;
              if compare (OBJECT_MATERIAL.tag e) tag =? 0
              then
                ret (mkMaterialLocals (mindex v) true
                       (OBJECT_MATERIAL.mk
                          (OBJECT_MATERIAL.ambientColor e)
                          (OBJECT_MATERIAL.ambientStrength e)
                          (OBJECT_MATERIAL.diffuseColor e)
                          (OBJECT_MATERIAL.specularColor e)
                          (OBJECT_MATERIAL.shininess e)
                          (OBJECT_MATERIAL.tag (material v))))
              else ret (mkMaterialLocals (mindex v + 1) (mFound v) (material v)))
           (mkMaterialLocals 0 false material0) ;;
    ret (true, material v).

(** [m_objectMaterials.push_back(m)] *)
Definition push_back (m : OBJECT_MATERIAL.t) : M unit :=
  modify (fun s => with_objectMaterials (m_objectMaterials s ++ [m]) s).

(** ** Transform composer *)

Module glm.
Local Open Scope R_scope.

Definition vec4_scale (v : vec4.t) (k : float) : vec4.t :=
  vec4.mk (vec4.x v * k) (vec4.y v * k) (vec4.z v * k) (vec4.w v * k).

Definition vec4_add (a b : vec4.t) : vec4.t :=
  vec4.mk (vec4.x a + vec4.x b) (vec4.y a + vec4.y b)
          (vec4.z a + vec4.z b) (vec4.w a + vec4.w b).

(** [mat4(1.0f)] *)
Definition identity : mat4.t :=
  mat4.mk (vec4.mk 1 0 0 0) (vec4.mk 0 1 0 0) (vec4.mk 0 0 1 0) (vec4.mk 0 0 0 1).

(** [operator*(mat4, mat4)]: column j of the product is [m1] applied to
    column j of [m2]. *)
Definition mul_col (m1 : mat4.t) (b : vec4.t) : vec4.t :=
  vec4_add
    (vec4_add
       (vec4_add (vec4_scale (mat4.c0 m1) (vec4.x b))
                 (vec4_scale (mat4.c1 m1) (vec4.y b)))
       (vec4_scale (mat4.c2 m1) (vec4.z b)))
    (vec4_scale (mat4.c3 m1) (vec4.w b)).

Definition mul (m1 m2 : mat4.t) : mat4.t :=
  mat4.mk (mul_col m1 (mat4.c0 m2)) (mul_col m1 (mat4.c1 m2))
          (mul_col m1 (mat4.c2 m2)) (mul_col m1 (mat4.c3 m2)).

(** [operator*(mat4, vec4)]: the matrix applied to a column vector. *)
Definition mul_vec (m : mat4.t) (v : vec4.t) : vec4.t :=
  vec4_add
    (vec4_add (vec4_scale (mat4.c0 m) (vec4.x v))
              (vec4_scale (mat4.c1 m) (vec4.y v)))
    (vec4_add (vec4_scale (mat4.c2 m) (vec4.z v))
              (vec4_scale (mat4.c3 m) (vec4.w v))).

(** [glm::radians(degrees)]: the product by the constant of GLM, here
    without the rounding of the constant and of the product to binary32. *)
Definition radians (degrees : float) : float :=
  degrees * 0.01745329251994329576923690768489.

(** [glm::normalize(v)]: [v * inversesqrt(dot(v, v))] *)
Definition dot (a b : vec3.t) : float :=
  vec3.x a * vec3.x b + vec3.y a * vec3.y b + vec3.z a * vec3.z b.

Definition inversesqrt (x : float) : float := 1 / sqrt x.

Definition normalize (v : vec3.t) : vec3.t :=
  let k := inversesqrt (dot v v) in
  vec3.mk (vec3.x v * k) (vec3.y v * k) (vec3.z v * k).

(** [glm::translate(m, v)] *)
Definition translate_m (m : mat4.t) (v : vec3.t) : mat4.t :=
  mat4.mk (mat4.c0 m) (mat4.c1 m) (mat4.c2 m)
    (vec4_add
       (vec4_add
          (vec4_add (vec4_scale (mat4.c0 m) (vec3.x v))
                    (vec4_scale (mat4.c1 m) (vec3.y v)))
          (vec4_scale (mat4.c2 m) (vec3.z v)))
       (mat4.c3 m)).

(** [glm::scale(m, v)] *)
Definition scale_m (m : mat4.t) (v : vec3.t) : mat4.t :=
  mat4.mk (vec4_scale (mat4.c0 m) (vec3.x v))
          (vec4_scale (mat4.c1 m) (vec3.y v))
          (vec4_scale (mat4.c2 m) (vec3.z v))
          (mat4.c3 m).

(** [glm::rotate(m, angle, v)] *)
Definition rotate_m (m : mat4.t) (angle : float) (v : vec3.t) : mat4.t :=
  let c := cos angle in
  let s := sin angle in
  let axis := normalize v in
  let temp := vec3.mk ((1 - c) * vec3.x axis) ((1 - c) * vec3.y axis)
                      ((1 - c) * vec3.z axis) in
  let r00 := c + vec3.x temp * vec3.x axis in
  let r01 := vec3.x temp * vec3.y axis + s * vec3.z axis in
  let r02 := vec3.x temp * vec3.z axis - s * vec3.y axis in
  let r10 := vec3.y temp * vec3.x axis - s * vec3.z axis in
  let r11 := c + vec3.y temp * vec3.y axis in
  let r12 := vec3.y temp * vec3.z axis + s * vec3.x axis in
  let r20 := vec3.z temp * vec3.x axis + s * vec3.y axis in
  let r21 := vec3.z temp * vec3.y axis - s * vec3.x axis in
  let r22 := c + vec3.z temp * vec3.z axis in
  mat4.mk
    (vec4_add (vec4_add (vec4_scale (mat4.c0 m) r00)
                        (vec4_scale (mat4.c1 m) r01))
              (vec4_scale (mat4.c2 m) r02))
    (vec4_add (vec4_add (vec4_scale (mat4.c0 m) r10)
                        (vec4_scale (mat4.c1 m) r11))
              (vec4_scale (mat4.c2 m) r12))
    (vec4_add (vec4_add (vec4_scale (mat4.c0 m) r20)
                        (vec4_scale (mat4.c1 m) r21))
              (vec4_scale (mat4.c2 m) r22))
    (mat4.c3 m).

(** The one-argument forms of [glm/gtx/transform.hpp]. *)
Definition translate (v : vec3.t) : mat4.t := translate_m identity v.
Definition rotate (angle : float) (v : vec3.t) : mat4.t :=
  rotate_m identity angle v.
Definition scale (v : vec3.t) : mat4.t := scale_m identity v.
End glm.

(** [SetTransformations(scaleXYZ, XrotationDegrees, YrotationDegrees,
    ZrotationDegrees, positionXYZ)] *)
Definition modelView (scaleXYZ : vec3.t)
    (XrotationDegrees YrotationDegrees ZrotationDegrees : float)
    (positionXYZ : vec3.t) : mat4.t :=
  let scale := glm.scale scaleXYZ in
  let rotationX := glm.rotate (glm.radians XrotationDegrees) (vec3.mk 1 0 0) in
  let rotationY := glm.rotate (glm.radians YrotationDegrees) (vec3.mk 0 1 0) in
  let rotationZ := glm.rotate (glm.radians ZrotationDegrees) (vec3.mk 0 0 1) in
  let translation := glm.translate positionXYZ in
  glm.mul (glm.mul (glm.mul (glm.mul translation rotationZ) rotationY) rotationX)
          scale.

Definition SetTransformations (scaleXYZ : vec3.t)
    (XrotationDegrees YrotationDegrees ZrotationDegrees : float)
    (positionXYZ : vec3.t) : M unit :=
  let m := modelView scaleXYZ XrotationDegrees YrotationDegrees ZrotationDegrees
                     positionXYZ in
  sm <- get m_pShaderManager ;;
  match sm with
  | Some _ => setMat4Value g_ModelName m
  | None => ret tt
  end.

(** ** Shader uniform binder *)

(** [SetShaderColor(red, green, blue, alpha)]; [false] converts to the
    [int] 0. *)
Definition SetShaderColor
    (redColorValue greenColorValue blueColorValue alphaValue : float) : M unit :=
  let currentColor :=
    vec4.mk redColorValue greenColorValue blueColorValue alphaValue in
  sm <- get m_pShaderManager ;;
  match sm with
  | Some _ =>
      setIntValue g_UseTextureName 0 ;;;
      setVec4Value g_ColorValueName currentColor
  | None => ret tt
  end.

(** [SetShaderTexture(textureTag)]; [true] converts to the [int] 1. *)
Definition SetShaderTexture (textureTag : string) : M unit :=
  sm <- get m_pShaderManager ;;
  match sm with
  | Some _ =>
      setIntValue g_UseTextureName 1 ;;;
      textureID <- FindTextureSlot textureTag ;;
      setSampler2DValue g_TextureValueName textureID
  | None => ret tt
  end.

(** [SetTextureUVScale(u, v)] *)
Definition SetTextureUVScale (u v : float) : M unit :=
  sm <- get m_pShaderManager ;;
  match sm with
  | Some _ => setVec2Value "UVscale" (vec2.mk u v)
  | None => ret tt
  end.

(** [SetShaderMaterial(materialTag)]; [material] holds the contents of the
    local of that name at its declaration, which does not initialise them. *)
Definition SetShaderMaterial (materialTag : string)
    (material : OBJECT_MATERIAL.t) : M unit :=
  size <- get (fun s => Z.of_nat (length (m_objectMaterials s))) ;;
  if 0 <? size then
    r <- FindMaterial materialTag material ;;
    let bReturn := fst r in
    let material := snd r in
    if eqb bReturn true then
      setVec3Value "material.ambientColor" (OBJECT_MATERIAL.ambientColor material) ;;;
      setFloatValue "material.ambientStrength"
                    (OBJECT_MATERIAL.ambientStrength material) ;;;
      setVec3Value "material.diffuseColor" (OBJECT_MATERIAL.diffuseColor material) ;;;
      setVec3Value "material.specularColor" (OBJECT_MATERIAL.specularColor material) ;;;
      setFloatValue "material.shininess" (OBJECT_MATERIAL.shininess material)
    else ret tt
  else ret tt.

(** ** Scene set-up *)

(** [LoadSceneTexture()]; the results of the loads are not inspected. *)
Definition LoadSceneTexture : M unit :=
  CreateGLTexture "textures/path.jpg" "path" ;;;
  CreateGLTexture "textures/grass.png" "grass" ;;;
  CreateGLTexture "textures/elephant-skin-texture.jpg" "skin" ;;;
  CreateGLTexture "textures/bark-texture.jpg" "bark" ;;;
  CreateGLTexture "textures/leaves.png" "leaves" ;;;
  CreateGLTexture "textures/water.jpg" "pond" ;;;
  CreateGLTexture "textures/giraffe-skin.jpg" "giraffe" ;;;
  CreateGLTexture "textures/cloud.jpg" "sky" ;;;
  CreateGLTexture "textures/rock.jpg" "rock" ;;;
  BindGLTextures.

(** [DefineObjectMaterials()].  The locals [grassMaterial] and [woodMaterial]
    are pushed with [ambientColor] and [ambientStrength] never assigned: the
    parameters hold the contents of the two locals at their declaration. *)
Definition DefineObjectMaterials (grassMaterial woodMaterial : OBJECT_MATERIAL.t)
  : M unit :=
  let shinyMaterial :=
    OBJECT_MATERIAL.mk (vec3.mk 0.2 0.2 0.2) 0.4 (vec3.mk 0.3 0.3 0.2)
                       (vec3.mk 0.3 0.3 0.3) 12.0 "shiny" in
  push_back shinyMaterial ;;;
  let grassMaterial :=
    OBJECT_MATERIAL.mk (OBJECT_MATERIAL.ambientColor grassMaterial)
                       (OBJECT_MATERIAL.ambientStrength grassMaterial)
                       (vec3.mk 0.3 0.3 0.1) (vec3.mk 0.0 0.0 0.0) 0.1 "grass" in
  push_back grassMaterial ;;;
  let woodMaterial :=
    OBJECT_MATERIAL.mk (OBJECT_MATERIAL.ambientColor woodMaterial)
                       (OBJECT_MATERIAL.ambientStrength woodMaterial)
                       (vec3.mk 0.3 0.3 0.3) (vec3.mk 0.1 0.1 0.1) 0.3 "wood" in
  push_back woodMaterial ;;;
  let sunMaterial :=
    OBJECT_MATERIAL.mk (vec3.mk 1.8 1.8 1.8) 15.0 (vec3.mk 1.0 1.0 1.0)
                       (vec3.mk 1.0 1.0 1.0) 15.0 "sun" in
  push_back sunMaterial ;;;
  let roughMaterial :=
    OBJECT_MATERIAL.mk (vec3.mk 0.8 0.8 0.8) 1.0 (vec3.mk 0.8 0.5 0.3)
                       (vec3.mk 0.2 0.2 0.2) 0.5 "rough" in
  push_back roughMaterial ;;;
  let shadeMaterial :=
    OBJECT_MATERIAL.mk (vec3.mk 0.02 0.0 0.0) 7.0 (vec3.mk 0.08 0.08 0.08)
                       (vec3.mk 0.02 0.02 0.02) 0.1 "shade" in
  push_back shadeMaterial.

(** [setVec3Value(name, x, y, z)] *)
Definition setVec3Value3 (name : string) (x y z : float) : M unit :=
  setVec3Value name (vec3.mk x y z).

(** [SetupSceneLights()] *)
Definition SetupSceneLights : M unit :=
  setBoolValue g_UseLightingName true ;;;
  setVec3Value3 "globalAmbientColor" 0.20 0.20 0.00 ;;;
  (* 1st light source *)
  setVec3Value3 "lightSources[0].position" 35.0 32.0 (-1.0) ;;;
  setVec3Value3 "lightSorces[0].ambientColor" 1.5 1.5 0.0 ;;;
  setVec3Value3 "lightSources[0].diffuseColor" 2.8 2.8 2.8 ;;;
  setVec3Value3 "lightSources[0].specularColor" 5.5 5.5 5.5 ;;;
  setFloatValue "lightSources[0].focalStrength" 10.0 ;;;
  setFloatValue "lightSources[0].specularIntensity" 2.5 ;;;
  (* 2nd light source *)
  setVec3Value3 "lightSources[1].position" 19.8 18.0 (-9.5) ;;;
  setVec3Value3 "lightSources[1].ambientColor" 0.1 0.1 0.1 ;;;
  setVec3Value3 "lightSources[1].diffuseColor" 0.0 0.0 0.0 ;;;
  setVec3Value3 "lightSources[1].specularColor" 0.1 0.1 0.1 ;;;
  setFloatValue "lightSources[1].focalStrength" 0.1 ;;;
  setFloatValue "lightSources[1].specularIntensity" 0.1 ;;;
  (* 3rd light source *)
  setVec3Value3 "lightSources[2].position" 0.0 10.0 0.0 ;;;
  setVec3Value3 "lightSources[2].diffuseColor" 0.6 0.6 0.6 ;;;
  setVec3Value3 "lightSources[2].specularColor" 0.0 0.0 0.0 ;;;
  setFloatValue "lightSources[2].focalStrength" 2.0 ;;;
  setFloatValue "lightSources[2].specularIntensity" 3.0 ;;;
  (* 4th light source *)
  setVec3Value3 "lightSources[3].position" (-4.0) 6.0 0.0 ;;;
  setVec3Value3 "lightSources[3].diffuseColor" 0.0 0.0 0.0 ;;;
  setVec3Value3 "lightSources[3].specularColor" 0.4 0.4 0.4 ;;;
  setFloatValue "lightSources[3].focalStrength" 5.0 ;;;
  setFloatValue "lightSources[3].specularIntensity" 1.8.

(** ** Sample states *)

(** A state with a shader manager that has received nothing, [capacity]
    texture entries of which none is in use, and no material. *)
Definition empty_entry : TEXTURE_INFO.t := TEXTURE_INFO.mk 0 "".

Definition initial (capacity : nat) (fs : string -> option Image) : State :=
  mkState (Some []) 0 (replicate capacity empty_entry) [] [] fs.

Definition sample_files (name : string) : option Image :=
  if (name =? "rgb.jpg")%string then Some (mkImage 64 32 3)
  else if (name =? "rgba.png")%string then Some (mkImage 16 16 4)
  else if (name =? "grey.png")%string then Some (mkImage 8 8 2)
  else None.

Definition run {A} (m : M A) (s : State) : option State :=
  match m s with
  | Returns (_, s') => Some s'
  | _ => None
  end.

Definition value {A} (m : M A) (s : State) : option A :=
  match m s with
  | Returns (a, _) => Some a
  | _ => None
  end.

(** Files in which all the images of the scene decode, with 3 channels for
    the JPEG files and 4 for the others. *)
Definition scene_files (name : string) : option Image :=
  if String.prefix "textures/" name then
    Some (mkImage 512 512
            (if (substring (String.length name - 4) 4 name =? ".jpg")%string
             then 3 else 4))
  else None.

(** The state reached from [initial 16 sample_files] by loading the RGB
    image as "a" and the RGBA image as "b". *)
Definition two_textures : State :=
  Eval vm_compute in
  default (initial 16 sample_files)
    (run (CreateGLTexture "rgb.jpg" "a" ;;; CreateGLTexture "rgba.png" "b")
         (initial 16 sample_files)).

(** * Vocabulary of the properties *)

(** ** Texture registry *)

(** Entry [e] is registered at slot [i]. *)
Definition registered (s : State) (i : Z) (e : TEXTURE_INFO.t) : Prop :=
  0 <= i < m_loadedTextures s /\ m_textureIDs s !! Z.to_nat i = Some e.

(** Entry [e] at slot [i] is the earliest registered entry bearing [tag]. *)
Definition first_match (s : State) (tag : string) (i : Z) (e : TEXTURE_INFO.t)
  : Prop :=
  registered s i e /\ TEXTURE_INFO.tag e = tag /\
  forall j e', registered s j e' -> j < i -> TEXTURE_INFO.tag e' <> tag.

(** No registered entry bears [tag]. *)
Definition unregistered (s : State) (tag : string) : Prop :=
  forall j e', registered s j e' -> TEXTURE_INFO.tag e' <> tag.

(** The slot counter does not exceed the capacity of [m_textureIDs]. *)
Definition registry_ok (s : State) : Prop :=
  m_loadedTextures s <= Z.of_nat (length (m_textureIDs s)).

(** The body shared by [FindTextureID] and [FindTextureSlot], which differ in
    the value [f index entry] they keep on a match. *)
Definition find_body (f : Z -> TEXTURE_INFO.t -> Z) (tag : string)
    (v : find_locals) : M find_locals :=
  e <- textureIDs_at (index v) ;;
  if compare (TEXTURE_INFO.tag e) tag =? 0
  then ret (mkLocals (f (index v) e) (index v) true)
  else ret (mkLocals (result v) (index v + 1) (bFound v)).

(** Every registered handle is representable as a non-negative [int]. *)
Definition handles_ok (s : State) : Prop :=
  forall i e, registered s i e -> 0 <= TEXTURE_INFO.ID e < 2 ^ 31.

(** No two registered entries hold the same handle, as is the case for
    names obtained from [glGenTextures]. *)
Definition handles_distinct (s : State) : Prop :=
  forall i j ei ej,
    registered s i ei -> registered s j ej ->
    TEXTURE_INFO.ID ei = TEXTURE_INFO.ID ej -> i = j.

(** ** Material registry *)

(** Material [e] is the [k]-th defined. *)
Definition defined (s : State) (k : nat) (e : OBJECT_MATERIAL.t) : Prop :=
  m_objectMaterials s !! k = Some e.

(** Material [e], the [k]-th defined, is the first one defined with [tag]. *)
Definition first_defined (s : State) (tag : string) (k : nat)
    (e : OBJECT_MATERIAL.t) : Prop :=
  defined s k e /\ OBJECT_MATERIAL.tag e = tag /\
  forall j e', (j < k)%nat -> defined s j e' -> OBJECT_MATERIAL.tag e' <> tag.

(** No material was defined with [tag]. *)
Definition never_defined (s : State) (tag : string) : Prop :=
  forall j e', defined s j e' -> OBJECT_MATERIAL.tag e' <> tag.

(** What the five assignments of [FindMaterial] make of [material] on a
    match with entry [e]. *)
Definition assign_fields (e material : OBJECT_MATERIAL.t) : OBJECT_MATERIAL.t :=
  OBJECT_MATERIAL.mk
    (OBJECT_MATERIAL.ambientColor e) (OBJECT_MATERIAL.ambientStrength e)
    (OBJECT_MATERIAL.diffuseColor e) (OBJECT_MATERIAL.specularColor e)
    (OBJECT_MATERIAL.shininess e) (OBJECT_MATERIAL.tag material).

(** The condition and the body of the loop of [FindMaterial]. *)
Definition material_cond (v : material_locals) : M bool :=
  n <- get (fun s => Z.of_nat (length (m_objectMaterials s))) ;;
  ret ((mindex v <? n) && eqb (mFound v) false).

Definition material_body (tag : string) (v : material_locals)
  : M material_locals :=
  e <- objectMaterials_at (mindex v) ;;
  if compare (OBJECT_MATERIAL.tag e) tag =? 0
  then ret (mkMaterialLocals (mindex v) true (assign_fields e (material v)))
  else ret (mkMaterialLocals (mindex v + 1) (mFound v) (material v)).

(** The first entry of a list of materials that bears [tag]. *)
Fixpoint first_with_tag (tag : string) (l : list OBJECT_MATERIAL.t)
  : option OBJECT_MATERIAL.t :=
  match l with
  | [] => None
  | e :: l' =>
      if String.eqb (OBJECT_MATERIAL.tag e) tag then Some e
      else first_with_tag tag l'
  end.

(** A material with all colours black, for examples. *)
Definition sample_material (tag : string) (shininess : float)
  : OBJECT_MATERIAL.t :=
  OBJECT_MATERIAL.mk (vec3.mk 0 0 0) 0 (vec3.mk 0 0 0) (vec3.mk 0 0 0)
                     shininess tag.

(** The registry after the two definitions of the tag "x", with shininess 1
    and then 2. *)
Definition defined_twice : State :=
  default (initial 16 sample_files)
    (run (push_back (sample_material "x" 1) ;;;
          push_back (sample_material "x" 2))
         (initial 16 sample_files)).

(** The five uniforms of a material, in the order [SetShaderMaterial] writes
    them. *)
Definition material_uniforms (m : OBJECT_MATERIAL.t)
  : list (string * UniformValue) :=
  [("material.ambientColor", UVec3 (OBJECT_MATERIAL.ambientColor m));
   ("material.ambientStrength", UFloat (OBJECT_MATERIAL.ambientStrength m));
   ("material.diffuseColor", UVec3 (OBJECT_MATERIAL.diffuseColor m));
   ("material.specularColor", UVec3 (OBJECT_MATERIAL.specularColor m));
   ("material.shininess", UFloat (OBJECT_MATERIAL.shininess m))].

(** ** Loading and releasing textures *)

(** The slot counter designates an entry of [m_textureIDs]. *)
Definition in_capacity (s : State) : Prop :=
  0 <= m_loadedTextures s < Z.of_nat (length (m_textureIDs s)).

(** The file decodes to an image with 3 or 4 colour channels. *)
Definition loadable (s : State) (filename : string) : Prop :=
  exists img, files s filename = Some img /\
              (colorChannels img = 3 \/ colorChannels img = 4).

(** The state after a successful load that made the calls [cs] and stored
    entry [e]. *)
Definition uploaded_state (s : State) (cs : list ExternCall)
    (e : TEXTURE_INFO.t) : State :=
  mkState (m_pShaderManager s) (m_loadedTextures s + 1)
          (<[Z.to_nat (m_loadedTextures s) := e]> (m_textureIDs s))
          (m_objectMaterials s) cs (files s).

(** Every registered handle is a texture name in use. *)
Definition handles_live (s : State) : Prop :=
  forall i e, registered s i e -> In (TEXTURE_INFO.ID e) (live_textures (calls s)).

(** The call releases a texture name. *)
Definition is_release (c : ExternCall) : bool :=
  match c with
  | glDeleteTextures _ => true
  | _ => false
  end.

(** ** Uniform names *)

(** The names of the uniforms written so far. *)
Definition uniform_names (s : State) : list string :=
  match m_pShaderManager s with
  | Some sm => map fst sm
  | None => []
  end.

(** The names of the contract: six fixed names, and the fields of [material]
    and of the elements of [lightSources]. *)
Definition is_contract_name (name : string) : bool :=
  existsb (String.eqb name)
          ["model"; "objectColor"; "objectTexture"; "bUseTexture";
           "bUseLighting"; "UVscale"]
  || String.prefix "material." name
  || String.prefix "lightSources[" name.

(** ** Transform composition *)

Module Transform.
Local Open Scope R_scope.

(** The five factors as the specification names them, written out as
    matrices (by columns), and what each does to a column vector. *)
Definition Translation (p : vec3.t) : mat4.t :=
  mat4.mk (vec4.mk 1 0 0 0) (vec4.mk 0 1 0 0) (vec4.mk 0 0 1 0)
          (vec4.mk (vec3.x p) (vec3.y p) (vec3.z p) 1).

Definition RotationX (a : float) : mat4.t :=
  mat4.mk (vec4.mk 1 0 0 0) (vec4.mk 0 (cos a) (sin a) 0)
          (vec4.mk 0 (- sin a) (cos a) 0) (vec4.mk 0 0 0 1).

Definition RotationY (a : float) : mat4.t :=
  mat4.mk (vec4.mk (cos a) 0 (- sin a) 0) (vec4.mk 0 1 0 0)
          (vec4.mk (sin a) 0 (cos a) 0) (vec4.mk 0 0 0 1).

Definition RotationZ (a : float) : mat4.t :=
  mat4.mk (vec4.mk (cos a) (sin a) 0 0) (vec4.mk (- sin a) (cos a) 0 0)
          (vec4.mk 0 0 1 0) (vec4.mk 0 0 0 1).

Definition Scale (k : vec3.t) : mat4.t :=
  mat4.mk (vec4.mk (vec3.x k) 0 0 0) (vec4.mk 0 (vec3.y k) 0 0)
          (vec4.mk 0 0 (vec3.z k) 0) (vec4.mk 0 0 0 1).

Definition scaled (k : vec3.t) (v : vec4.t) : vec4.t :=
  vec4.mk (vec3.x k * vec4.x v) (vec3.y k * vec4.y v) (vec3.z k * vec4.z v)
          (vec4.w v).

Definition rotatedX (a : float) (v : vec4.t) : vec4.t :=
  vec4.mk (vec4.x v)
          (cos a * vec4.y v - sin a * vec4.z v)
          (sin a * vec4.y v + cos a * vec4.z v)
          (vec4.w v).

Definition rotatedY (a : float) (v : vec4.t) : vec4.t :=
  vec4.mk (cos a * vec4.x v + sin a * vec4.z v)
          (vec4.y v)
          (cos a * vec4.z v - sin a * vec4.x v)
          (vec4.w v).

Definition rotatedZ (a : float) (v : vec4.t) : vec4.t :=
  vec4.mk (cos a * vec4.x v - sin a * vec4.y v)
          (sin a * vec4.x v + cos a * vec4.y v)
          (vec4.z v)
          (vec4.w v).

Definition translated (p : vec3.t) (v : vec4.t) : vec4.t :=
  vec4.mk (vec4.x v + vec3.x p * vec4.w v)
          (vec4.y v + vec3.y p * vec4.w v)
          (vec4.z v + vec3.z p * vec4.w v)
          (vec4.w v).
End Transform.

(** * Vocabulary of the further properties *)

(** The registered entries, in slot order. *)
Definition registry (s : State) : list TEXTURE_INFO.t :=
  take (Z.to_nat (m_loadedTextures s)) (m_textureIDs s).

(** The tags of the registered entries, in slot order. *)
Definition registry_tags (s : State) : list string :=
  map TEXTURE_INFO.tag (registry s).

(** The position, counted from [i], of the first of [tags] that is [tag],
    and -1 when none is. *)
Fixpoint position (tag : string) (tags : list string) (i : Z) : Z :=
  match tags with
  | [] => -1
  | t :: tags' => if String.eqb t tag then i else position tag tags' (i + 1)
  end.

(** The first entry of a list that bears [tag]. *)
Fixpoint first_entry (tag : string) (l : list TEXTURE_INFO.t)
  : option TEXTURE_INFO.t :=
  match l with
  | [] => None
  | e :: l' =>
      if String.eqb (TEXTURE_INFO.tag e) tag then Some e else first_entry tag l'
  end.

(** What [FindTextureID] makes of the first entry with the tag. *)
Definition handle_of (tag : string) (l : list TEXTURE_INFO.t) : Z :=
  match first_entry tag l with
  | Some e => int_of_GLuint (TEXTURE_INFO.ID e)
  | None => -1
  end.

(** The file decodes to an image with 3 or 4 colour channels, decided. *)
Definition is_loadable (fs : string -> option Image) (filename : string) : bool :=
  match fs filename with
  | Some img => (colorChannels img =? 3) || (colorChannels img =? 4)
  | None => false
  end.

(** The calls that bind the entries of [l] to the texture units from [i]. *)
Fixpoint bind_calls (i : Z) (l : list TEXTURE_INFO.t) : list ExternCall :=
  match l with
  | [] => []
  | e :: l' =>
      glActiveTexture i :: glBindTexture GL_TEXTURE_2D (TEXTURE_INFO.ID e)
      :: bind_calls (i + 1) l'
  end.

(** The value last written for the uniform [name]. *)
Definition last_write (name : string) (sm : ShaderManager) : option UniformValue :=
  fold_left (fun acc w => if String.eqb (fst w) name then Some (snd w) else acc)
            sm None.

Definition bound (name : string) (s : State) : option UniformValue :=
  match m_pShaderManager s with
  | Some sm => last_write name sm
  | None => None
  end.

(** The invariant of the texture registry: the slot counter is within the
    array, every registered handle is a texture name in use, and no two
    entries hold the same handle. *)
Definition registry_inv (s : State) : Prop :=
  0 <= m_loadedTextures s <= Z.of_nat (length (m_textureIDs s)) /\
  handles_live s /\ handles_distinct s.

(** The state [st] that the teardown of [s] has reached before its
    iteration [i]: counter, tags and the other members are those of [s]; the
    calls added generated the names that the entries below [i] now hold,
    which are new and different from one another. *)
Definition regenerated (s : State) (i : Z) (st : State) : Prop :=
  i <= Z.max 0 (m_loadedTextures s) /\
  m_loadedTextures st = m_loadedTextures s /\
  m_pShaderManager st = m_pShaderManager s /\
  m_objectMaterials st = m_objectMaterials s /\
  length (m_textureIDs st) = length (m_textureIDs s) /\
  map TEXTURE_INFO.tag (m_textureIDs st) = map TEXTURE_INFO.tag (m_textureIDs s) /\
  exists names,
    calls st = calls s ++ map glGenTextures names /\
    map TEXTURE_INFO.ID (take (Z.to_nat i) (m_textureIDs st)) = names /\
    NoDup names /\
    forall x, In x names -> ~ In x (live_textures (calls s)).

(** The loads of [LoadSceneTexture], as pairs of a file name and a tag, and
    the loads of a list of such pairs followed by [k]. *)
Definition scene_textures : list (string * string) :=
  [("textures/path.jpg", "path");
   ("textures/grass.png", "grass");
   ("textures/elephant-skin-texture.jpg", "skin");
   ("textures/bark-texture.jpg", "bark");
   ("textures/leaves.png", "leaves");
   ("textures/water.jpg", "pond");
   ("textures/giraffe-skin.jpg", "giraffe");
   ("textures/cloud.jpg", "sky");
   ("textures/rock.jpg", "rock")].

Fixpoint load_then (loads : list (string * string)) (k : M unit) : M unit :=
  match loads with
  | [] => k
  | (filename, tag) :: loads' =>
      CreateGLTexture filename tag ;;; load_then loads' k
  end.

(** Those of the loads whose file is loadable. *)
Definition loaded_of (fs : string -> option Image)
    (loads : list (string * string)) : list (string * string) :=
  List.filter (fun r => is_loadable fs (fst r)) loads.

(** The materials that [DefineObjectMaterials] appends, computed by running
    it on the state without materials. *)
Definition presets (grassMaterial woodMaterial : OBJECT_MATERIAL.t)
  : list OBJECT_MATERIAL.t :=
  match run (DefineObjectMaterials grassMaterial woodMaterial)
            (initial 0 (fun _ => None)) with
  | Some s => m_objectMaterials s
  | None => []
  end.

(** * The scene *)

(** ** The meshes and the scene monad *)

(** The meshes of [ShapeMeshes] that the scene manager loads and draws. *)
Inductive Mesh : Type :=
| PlaneMesh
| SphereMesh
| CylinderMesh
| ConeMesh
| TaperedCylinderMesh
| BoxMesh
| PrismMesh.

(** Modelled from the spec: the class [ShapeMeshes] is not among the sources.
    Its calls are recorded in order; a draw consumes only the state that is
    bound in the shader when it is made, so it is recorded with the uniforms
    that the shader manager holds at that moment. *)
Inductive MeshCall : Type :=
| LoadMesh (mesh : Mesh)
| DrawMesh (mesh : Mesh) (uniforms : option ShaderManager).

(** The scene manager with its meshes.  [stack] gives what the locals of
    type [OBJECT_MATERIAL] that are declared without a value will hold, in
    the order of their declarations. *)
Record Scene : Type := mkScene {
  manager : State;
  m_basicMeshes : list MeshCall;
  stack : nat -> OBJECT_MATERIAL.t
}.

Definition SM (A : Type) : Type := Scene -> outcome (A * Scene).

Definition sret {A} (a : A) : SM A := fun sc => Returns (a, sc).

Definition sbind {A B} (m : SM A) (k : A -> SM B) : SM B :=
  fun sc =>
    match m sc with
    | Returns (a, sc') => k a sc'
    | Undefined => Undefined
    | OutOfFuel => OutOfFuel
    end.

(** A member function of the model above, run on the manager of the scene. *)
Definition lift {A} (m : M A) : SM A :=
  fun sc =>
    match m (manager sc) with
    | Returns (a, s') => Returns (a, mkScene s' (m_basicMeshes sc) (stack sc))
    | Undefined => Undefined
    | OutOfFuel => OutOfFuel
    end.

(** The declaration of a local of type [OBJECT_MATERIAL] without a value. *)
Definition declare : SM OBJECT_MATERIAL.t :=
  fun sc =>
    Returns (stack sc 0%nat,
             mkScene (manager sc) (m_basicMeshes sc) (fun n => stack sc (S n))).

(** A member function that declares one such local. *)
Definition local_material {A} (f : OBJECT_MATERIAL.t -> M A) : SM A :=
  sbind declare (fun material => lift (f material)).

Definition mesh_call (c : Scene -> MeshCall) : SM unit :=
  fun sc =>
    Returns (tt, mkScene (manager sc) (m_basicMeshes sc ++ [c sc]) (stack sc)).

Definition load (mesh : Mesh) : SM unit := mesh_call (fun _ => LoadMesh mesh).

Definition draw (mesh : Mesh) : SM unit :=
  mesh_call (fun sc => DrawMesh mesh (m_pShaderManager (manager sc))).

Definition LoadPlaneMesh : SM unit := load PlaneMesh.
Definition LoadSphereMesh : SM unit := load SphereMesh.
Definition LoadCylinderMesh : SM unit := load CylinderMesh.
Definition LoadConeMesh : SM unit := load ConeMesh.
Definition LoadTaperedCylinderMesh : SM unit := load TaperedCylinderMesh.
Definition LoadBoxMesh : SM unit := load BoxMesh.
Definition LoadPrismMesh : SM unit := load PrismMesh.

Definition DrawPlaneMesh : SM unit := draw PlaneMesh.
Definition DrawSphereMesh : SM unit := draw SphereMesh.
Definition DrawCylinderMesh : SM unit := draw CylinderMesh.
Definition DrawConeMesh : SM unit := draw ConeMesh.
Definition DrawTaperedCylinderMesh : SM unit := draw TaperedCylinderMesh.
Definition DrawBoxMesh : SM unit := draw BoxMesh.
Definition DrawPrismMesh : SM unit := draw PrismMesh.

Declare Scope render_scope.
Delimit Scope render_scope with render.
Notation "x <- c1 ;; c2" := (sbind c1 (fun x => c2))
  (at level 100, c1 at next level, right associativity) : render_scope.
Notation "c1 ;;; c2" := (sbind c1 (fun _ => c2))
  (at level 100, right associativity) : render_scope.
Local Open Scope render_scope.

(** ** Scene set-up *)

(** [PrepareScene()]; [DefineObjectMaterials] is run with what its locals
    [grassMaterial] and [woodMaterial] hold at their declaration. *)
Definition PrepareScene : SM unit :=
  lift LoadSceneTexture ;;;
  (grassMaterial <- declare ;;
   woodMaterial <- declare ;;
   lift (DefineObjectMaterials grassMaterial woodMaterial)) ;;;
  lift SetupSceneLights ;;;
  LoadPlaneMesh ;;;
  LoadSphereMesh ;;;
  LoadCylinderMesh ;;;
  LoadConeMesh ;;;
  LoadTaperedCylinderMesh ;;;
  LoadBoxMesh ;;;
  LoadPrismMesh.

(** ** The objects of the scene *)

(** In the functions below the locals [scaleXYZ] and [positionXYZ] are
    declared without a value and assigned before each use. *)
Local Open Scope R_scope.

(** [RenderElephant()] *)
Definition RenderElephant : SM unit :=
  let XrotationDegrees : float := 0.0 in
  let YrotationDegrees : float := 0.0 in
  let ZrotationDegrees : float := 0.0 in
  let scaleXYZ : vec3.t := vec3.mk 1.0 3.0 0.7 in
  let XrotationDegrees : float := 0.0 in
  let YrotationDegrees : float := 0.0 in
  let ZrotationDegrees : float := 0.0 in
  let positionXYZ : vec3.t := vec3.mk 3.0 0.1 2.0 in
  lift (SetTransformations scaleXYZ XrotationDegrees YrotationDegrees
                           ZrotationDegrees positionXYZ) ;;;
  lift (SetShaderTexture "skin") ;;;
  local_material (SetShaderMaterial "rough") ;;;
  DrawCylinderMesh ;;;
  let scaleXYZ : vec3.t := vec3.mk 1.0 3.0 0.7 in
  let XrotationDegrees : float := 0.0 in
  let YrotationDegrees : float := 0.0 in
  let ZrotationDegrees : float := 0.0 in
  let positionXYZ : vec3.t := vec3.mk (-3.0) 0.1 2.0 in
  lift (SetTransformations scaleXYZ XrotationDegrees YrotationDegrees
                           ZrotationDegrees positionXYZ) ;;;
  lift (SetShaderTexture "skin") ;;;
  local_material (SetShaderMaterial "rough") ;;;
  DrawCylinderMesh ;;;
  let scaleXYZ : vec3.t := vec3.mk 1.0 3.0 0.7 in
  let XrotationDegrees : float := 0.0 in
  let YrotationDegrees : float := 0.0 in
  let ZrotationDegrees : float := 0.0 in
  let positionXYZ : vec3.t := vec3.mk 3.0 0.1 (-2.0) in
  lift (SetTransformations scaleXYZ XrotationDegrees YrotationDegrees
                           ZrotationDegrees positionXYZ) ;;;
  lift (SetShaderTexture "skin") ;;;
  local_material (SetShaderMaterial "rough") ;;;
  DrawCylinderMesh ;;;
  let scaleXYZ : vec3.t := vec3.mk 1.0 3.0 0.7 in
  let XrotationDegrees : float := 0.0 in
  let YrotationDegrees : float := 0.0 in
  let ZrotationDegrees : float := 0.0 in
  let positionXYZ : vec3.t := vec3.mk (-3.0) 0.1 (-2.0) in
  lift (SetTransformations scaleXYZ XrotationDegrees YrotationDegrees
                           ZrotationDegrees positionXYZ) ;;;
  lift (SetShaderTexture "skin") ;;;
  local_material (SetShaderMaterial "rough") ;;;
  DrawCylinderMesh ;;;
  let scaleXYZ : vec3.t := vec3.mk 6.0 3.5 4.8 in
  let XrotationDegrees : float := 0.0 in
  let YrotationDegrees : float := 0.0 in
  let ZrotationDegrees : float := 0.0 in
  let positionXYZ : vec3.t := vec3.mk 0.0 5.0 0.0 in
  lift (SetTransformations scaleXYZ XrotationDegrees YrotationDegrees
                           ZrotationDegrees positionXYZ) ;;;
  lift (SetShaderTexture "skin") ;;;
  local_material (SetShaderMaterial "rough") ;;;
  DrawSphereMesh ;;;
  let scaleXYZ : vec3.t := vec3.mk 2.2 2.6 2.7 in
  let XrotationDegrees : float := 0.0 in
  let YrotationDegrees : float := 0.0 in
  let ZrotationDegrees : float := 0.0 in
  let positionXYZ : vec3.t := vec3.mk 7.5 6.0 0.0 in
  lift (SetTransformations scaleXYZ XrotationDegrees YrotationDegrees
                           ZrotationDegrees positionXYZ) ;;;
  lift (SetShaderTexture "skin") ;;;
  local_material (SetShaderMaterial "rough") ;;;
  DrawSphereMesh ;;;
  let scaleXYZ : vec3.t := vec3.mk 1.0 5.8 1.0 in
  let XrotationDegrees : float := 0.0 in
  let YrotationDegrees : float := 10.0 in
  let ZrotationDegrees : float := 188.0 in
  let positionXYZ : vec3.t := vec3.mk 8.5 6.0 0.0 in
  lift (SetTransformations scaleXYZ XrotationDegrees YrotationDegrees
                           ZrotationDegrees positionXYZ) ;;;
  lift (SetShaderTexture "skin") ;;;
  local_material (SetShaderMaterial "rough") ;;;
  DrawTaperedCylinderMesh ;;;
  let scaleXYZ : vec3.t := vec3.mk 0.7 1.7 1.5 in
  let XrotationDegrees : float := 0.0 in
  let YrotationDegrees : float := 0.0 in
  let ZrotationDegrees : float := 0.0 in
  let positionXYZ : vec3.t := vec3.mk 7.4 6.5 3.0 in
  lift (SetTransformations scaleXYZ XrotationDegrees YrotationDegrees
                           ZrotationDegrees positionXYZ) ;;;
  lift (SetShaderTexture "skin") ;;;
  local_material (SetShaderMaterial "rough") ;;;
  DrawSphereMesh ;;;
  let scaleXYZ : vec3.t := vec3.mk 0.7 1.7 1.5 in
  let XrotationDegrees : float := 0.0 in
  let YrotationDegrees : float := 0.0 in
  let ZrotationDegrees : float := 0.0 in
  let positionXYZ : vec3.t := vec3.mk 7.4 6.5 (-3.0) in
  lift (SetTransformations scaleXYZ XrotationDegrees YrotationDegrees
                           ZrotationDegrees positionXYZ) ;;;
  lift (SetShaderTexture "skin") ;;;
  local_material (SetShaderMaterial "rough") ;;;
  DrawSphereMesh ;;;
  let scaleXYZ : vec3.t := vec3.mk 0.3 0.4 0.3 in
  let XrotationDegrees : float := 0.0 in
  let YrotationDegrees : float := 0.0 in
  let ZrotationDegrees : float := 0.0 in
  let positionXYZ : vec3.t := vec3.mk 9.0 7.0 1.5 in
  lift (SetTransformations scaleXYZ XrotationDegrees YrotationDegrees
                           ZrotationDegrees positionXYZ) ;;;
  lift (SetShaderColor 1 1 1 1) ;;;
  DrawSphereMesh ;;;
  let scaleXYZ : vec3.t := vec3.mk 0.3 0.4 0.3 in
  let XrotationDegrees : float := 0.0 in
  let YrotationDegrees : float := 0.0 in
  let ZrotationDegrees : float := 0.0 in
  let positionXYZ : vec3.t := vec3.mk 9.0 7.0 (-1.5) in
  lift (SetTransformations scaleXYZ XrotationDegrees YrotationDegrees
                           ZrotationDegrees positionXYZ) ;;;
  lift (SetShaderColor 1 1 1 1) ;;;
  DrawSphereMesh ;;;
  let scaleXYZ : vec3.t := vec3.mk 0.3 2.9 0.5 in
  let XrotationDegrees : float := 0.0 in
  let YrotationDegrees : float := 0.0 in
  let ZrotationDegrees : float := (-135.0) in
  let positionXYZ : vec3.t := vec3.mk 8.5 4.2 1.1 in
  lift (SetTransformations scaleXYZ XrotationDegrees YrotationDegrees
                           ZrotationDegrees positionXYZ) ;;;
  lift (SetShaderColor 1 1 1 1) ;;;
  DrawConeMesh ;;;
  let scaleXYZ : vec3.t := vec3.mk 0.3 2.9 0.5 in
  let XrotationDegrees : float := 0.0 in
  let YrotationDegrees : float := 0.0 in
  let ZrotationDegrees : float := (-135.0) in
  let positionXYZ : vec3.t := vec3.mk 8.5 4.2 (-1.1) in
  lift (SetTransformations scaleXYZ XrotationDegrees YrotationDegrees
                           ZrotationDegrees positionXYZ) ;;;
  lift (SetShaderColor 1 1 1 1) ;;;
  DrawConeMesh ;;;
  let scaleXYZ : vec3.t := vec3.mk 0.2 3.9 0.3 in
  let XrotationDegrees : float := 0.0 in
  let YrotationDegrees : float := 0.0 in
  let ZrotationDegrees : float := 168.0 in
  let positionXYZ : vec3.t := vec3.mk (-5.6) 6.0 0.0 in
  lift (SetTransformations scaleXYZ XrotationDegrees YrotationDegrees
                           ZrotationDegrees positionXYZ) ;;;
  lift (SetShaderTexture "skin") ;;;
  local_material (SetShaderMaterial "shade") ;;;
  DrawTaperedCylinderMesh ;;;
  let scaleXYZ : vec3.t := vec3.mk 0.2 0.4 0.2 in
  let XrotationDegrees : float := 0.0 in
  let YrotationDegrees : float := 0.0 in
  let ZrotationDegrees : float := 0.0 in
  let positionXYZ : vec3.t := vec3.mk 3.9 0.4 1.7 in
  lift (SetTransformations scaleXYZ XrotationDegrees YrotationDegrees
                           ZrotationDegrees positionXYZ) ;;;
  lift (SetShaderColor 1 1 1 1) ;;;
  DrawSphereMesh ;;;
  let scaleXYZ : vec3.t := vec3.mk 0.2 0.4 0.2 in
  let XrotationDegrees : float := 0.0 in
  let YrotationDegrees : float := 0.0 in
  let ZrotationDegrees : float := 0.0 in
  let positionXYZ : vec3.t := vec3.mk 3.9 0.4 2.2 in
  lift (SetTransformations scaleXYZ XrotationDegrees YrotationDegrees
                           ZrotationDegrees positionXYZ) ;;;
  lift (SetShaderColor 1 1 1 1) ;;;
  DrawSphereMesh ;;;
  let scaleXYZ : vec3.t := vec3.mk 0.2 0.4 0.2 in
  let XrotationDegrees : float := 0.0 in
  let YrotationDegrees : float := 0.0 in
  let ZrotationDegrees : float := 0.0 in
  let positionXYZ : vec3.t := vec3.mk 3.9 0.4 (-1.7) in
  lift (SetTransformations scaleXYZ XrotationDegrees YrotationDegrees
                           ZrotationDegrees positionXYZ) ;;;
  lift (SetShaderColor 1 1 1 1) ;;;
  DrawSphereMesh ;;;
  let scaleXYZ : vec3.t := vec3.mk 0.2 0.4 0.2 in
  let XrotationDegrees : float := 0.0 in
  let YrotationDegrees : float := 0.0 in
  let ZrotationDegrees : float := 0.0 in
  let positionXYZ : vec3.t := vec3.mk 3.9 0.4 (-2.2) in
  lift (SetTransformations scaleXYZ XrotationDegrees YrotationDegrees
                           ZrotationDegrees positionXYZ) ;;;
  lift (SetShaderColor 1 1 1 1) ;;;
  DrawSphereMesh ;;;
  let scaleXYZ : vec3.t := vec3.mk 0.2 0.4 0.2 in
  let XrotationDegrees : float := 0.0 in
  let YrotationDegrees : float := 0.0 in
  let ZrotationDegrees : float := 0.0 in
  let positionXYZ : vec3.t := vec3.mk (-2.1) 0.4 1.7 in
  lift (SetTransformations scaleXYZ XrotationDegrees YrotationDegrees
                           ZrotationDegrees positionXYZ) ;;;
  lift (SetShaderColor 1 1 1 1) ;;;
  DrawSphereMesh ;;;
  let scaleXYZ : vec3.t := vec3.mk 0.2 0.4 0.2 in
  let XrotationDegrees : float := 0.0 in
  let YrotationDegrees : float := 0.0 in
  let ZrotationDegrees : float := 0.0 in
  let positionXYZ : vec3.t := vec3.mk (-2.1) 0.4 2.2 in
  lift (SetTransformations scaleXYZ XrotationDegrees YrotationDegrees
                           ZrotationDegrees positionXYZ) ;;;
  lift (SetShaderColor 1 1 1 1) ;;;
  DrawSphereMesh ;;;
  let scaleXYZ : vec3.t := vec3.mk 0.2 0.4 0.2 in
  let XrotationDegrees : float := 0.0 in
  let YrotationDegrees : float := 0.0 in
  let ZrotationDegrees : float := 0.0 in
  let positionXYZ : vec3.t := vec3.mk (-2.1) 0.4 (-2.2) in
  lift (SetTransformations scaleXYZ XrotationDegrees YrotationDegrees
                           ZrotationDegrees positionXYZ) ;;;
  lift (SetShaderColor 1 1 1 1) ;;;
  DrawSphereMesh ;;;
  let scaleXYZ : vec3.t := vec3.mk 0.2 0.4 0.2 in
  let XrotationDegrees : float := 0.0 in
  let YrotationDegrees : float := 0.0 in
  let ZrotationDegrees : float := 0.0 in
  let positionXYZ : vec3.t := vec3.mk (-2.1) 0.4 (-1.7) in
  lift (SetTransformations scaleXYZ XrotationDegrees YrotationDegrees
                           ZrotationDegrees positionXYZ) ;;;
  lift (SetShaderColor 1 1 1 1) ;;;
  DrawSphereMesh.

(** [RenderBabyElephant()] *)
Definition RenderBabyElephant : SM unit :=
  let XrotationDegrees : float := 0.0 in
  let YrotationDegrees : float := 0.0 in
  let ZrotationDegrees : float := 0.0 in
  let scaleXYZ : vec3.t := vec3.mk 0.5 1.5 0.35 in
  let XrotationDegrees : float := 0.0 in
  let YrotationDegrees : float := 0.0 in
  let ZrotationDegrees : float := 0.0 in
  let positionXYZ : vec3.t := vec3.mk 17.0 0.1 7.0 in
  lift (SetTransformations scaleXYZ XrotationDegrees YrotationDegrees
                           ZrotationDegrees positionXYZ) ;;;
  lift (SetShaderTexture "skin") ;;;
  local_material (SetShaderMaterial "rough") ;;;
  DrawCylinderMesh ;;;
  let scaleXYZ : vec3.t := vec3.mk 0.5 1.5 0.35 in
  let XrotationDegrees : float := 0.0 in
  let YrotationDegrees : float := 0.0 in
  let ZrotationDegrees : float := 0.0 in
  let positionXYZ : vec3.t := vec3.mk 17.0 0.1 9.0 in
  lift (SetTransformations scaleXYZ XrotationDegrees YrotationDegrees
                           ZrotationDegrees positionXYZ) ;;;
  lift (SetShaderTexture "skin") ;;;
  local_material (SetShaderMaterial "rough") ;;;
  DrawCylinderMesh ;;;
  let scaleXYZ : vec3.t := vec3.mk 0.5 1.5 0.35 in
  let XrotationDegrees : float := 0.0 in
  let YrotationDegrees : float := 0.0 in
  let ZrotationDegrees : float := 0.0 in
  let positionXYZ : vec3.t := vec3.mk 15.0 0.1 7.0 in
  lift (SetTransformations scaleXYZ XrotationDegrees YrotationDegrees
                           ZrotationDegrees positionXYZ) ;;;
  lift (SetShaderTexture "skin") ;;;
  local_material (SetShaderMaterial "rough") ;;;
  DrawCylinderMesh ;;;
  let scaleXYZ : vec3.t := vec3.mk 0.5 1.5 0.35 in
  let XrotationDegrees : float := 0.0 in
  let YrotationDegrees : float := 0.0 in
  let ZrotationDegrees : float := 0.0 in
  let positionXYZ : vec3.t := vec3.mk 15.0 0.1 9.0 in
  lift (SetTransformations scaleXYZ XrotationDegrees YrotationDegrees
                           ZrotationDegrees positionXYZ) ;;;
  lift (SetShaderTexture "skin") ;;;
  local_material (SetShaderMaterial "rough") ;;;
  DrawCylinderMesh ;;;
  let scaleXYZ : vec3.t := vec3.mk 2.8 1.75 2.4 in
  let XrotationDegrees : float := 0.0 in
  let YrotationDegrees : float := (-90.0) in
  let ZrotationDegrees : float := 0.0 in
  let positionXYZ : vec3.t := vec3.mk 16.2 2.1 8.2 in
  lift (SetTransformations scaleXYZ XrotationDegrees YrotationDegrees
                           ZrotationDegrees positionXYZ) ;;;
  lift (SetShaderTexture "skin") ;;;
  local_material (SetShaderMaterial "shade") ;;;
  DrawSphereMesh ;;;
  let scaleXYZ : vec3.t := vec3.mk 1.1 1.3 1.35 in
  let XrotationDegrees : float := 0.0 in
  let YrotationDegrees : float := 0.0 in
  let ZrotationDegrees : float := 0.0 in
  let positionXYZ : vec3.t := vec3.mk 16.2 2.6 4.45 in
  lift (SetTransformations scaleXYZ XrotationDegrees YrotationDegrees
                           ZrotationDegrees positionXYZ) ;;;
  lift (SetShaderTexture "skin") ;;;
  local_material (SetShaderMaterial "rough") ;;;
  DrawSphereMesh ;;;
  let scaleXYZ : vec3.t := vec3.mk 0.5 2.9 0.5 in
  let XrotationDegrees : float := 0.0 in
  let YrotationDegrees : float := 90.0 in
  let ZrotationDegrees : float := 188.0 in
  let positionXYZ : vec3.t := vec3.mk 16.2 2.6 4.2 in
  lift (SetTransformations scaleXYZ XrotationDegrees YrotationDegrees
                           ZrotationDegrees positionXYZ) ;;;
  lift (SetShaderTexture "skin") ;;;
  local_material (SetShaderMaterial "rough") ;;;
  DrawTaperedCylinderMesh ;;;
  let scaleXYZ : vec3.t := vec3.mk 0.35 0.85 0.75 in
  let XrotationDegrees : float := 0.0 in
  let YrotationDegrees : float := 0.0 in
  let ZrotationDegrees : float := (-90.0) in
  let positionXYZ : vec3.t := vec3.mk 17.6 2.7 4.4 in
  lift (SetTransformations scaleXYZ XrotationDegrees YrotationDegrees
                           ZrotationDegrees positionXYZ) ;;;
  lift (SetShaderTexture "skin") ;;;
  local_material (SetShaderMaterial "rough") ;;;
  DrawSphereMesh ;;;
  let scaleXYZ : vec3.t := vec3.mk 0.35 0.85 0.75 in
  let XrotationDegrees : float := 0.0 in
  let YrotationDegrees : float := 0.0 in
  let ZrotationDegrees : float := (-90.0) in
  let positionXYZ : vec3.t := vec3.mk 14.6 2.7 4.4 in
  lift (SetTransformations scaleXYZ XrotationDegrees YrotationDegrees
                           ZrotationDegrees positionXYZ) ;;;
  lift (SetShaderTexture "skin") ;;;
  local_material (SetShaderMaterial "rough") ;;;
  DrawSphereMesh ;;;
  let scaleXYZ : vec3.t := vec3.mk 0.13 0.2 0.13 in
  let XrotationDegrees : float := 0.0 in
  let YrotationDegrees : float := 0.0 in
  let ZrotationDegrees : float := 0.0 in
  let positionXYZ : vec3.t := vec3.mk 15.7 2.2 3.2 in
  lift (SetTransformations scaleXYZ XrotationDegrees YrotationDegrees
                           ZrotationDegrees positionXYZ) ;;;
  lift (SetShaderColor 1 1 1 1) ;;;
  DrawSphereMesh ;;;
  let scaleXYZ : vec3.t := vec3.mk 0.13 0.2 0.13 in
  let XrotationDegrees : float := 0.0 in
  let YrotationDegrees : float := 0.0 in
  let ZrotationDegrees : float := 0.0 in
  let positionXYZ : vec3.t := vec3.mk 16.7 2.2 3.2 in
  lift (SetTransformations scaleXYZ XrotationDegrees YrotationDegrees
                           ZrotationDegrees positionXYZ) ;;;
  lift (SetShaderColor 1 1 1 1) ;;;
  DrawSphereMesh ;;;
  let scaleXYZ : vec3.t := vec3.mk 0.1 1.95 0.13 in
  let XrotationDegrees : float := 40.0 in
  let YrotationDegrees : float := 0.0 in
  let ZrotationDegrees : float := 180.0 in
  let positionXYZ : vec3.t := vec3.mk 16.2 2.5 10.8 in
  lift (SetTransformations scaleXYZ XrotationDegrees YrotationDegrees
                           ZrotationDegrees positionXYZ) ;;;
  lift (SetShaderTexture "skin") ;;;
  local_material (SetShaderMaterial "shade") ;;;
  DrawTaperedCylinderMesh ;;;
  let scaleXYZ : vec3.t := vec3.mk 0.1 0.2 0.1 in
  let XrotationDegrees : float := 0.0 in
  let YrotationDegrees : float := 0.0 in
  let ZrotationDegrees : float := 0.0 in
  let positionXYZ : vec3.t := vec3.mk 16.8 0.2 6.7 in
  lift (SetTransformations scaleXYZ XrotationDegrees YrotationDegrees
                           ZrotationDegrees positionXYZ) ;;;
  lift (SetShaderColor 1 1 1 1) ;;;
  DrawSphereMesh ;;;
  let scaleXYZ : vec3.t := vec3.mk 0.1 0.2 0.1 in
  let XrotationDegrees : float := 0.0 in
  let YrotationDegrees : float := 0.0 in
  let ZrotationDegrees : float := 0.0 in
  let positionXYZ : vec3.t := vec3.mk 17.2 0.2 6.7 in
  lift (SetTransformations scaleXYZ XrotationDegrees YrotationDegrees
                           ZrotationDegrees positionXYZ) ;;;
  lift (SetShaderColor 1 1 1 1) ;;;
  DrawSphereMesh ;;;
  let scaleXYZ : vec3.t := vec3.mk 0.1 0.2 0.1 in
  let XrotationDegrees : float := 0.0 in
  let YrotationDegrees : float := 0.0 in
  let ZrotationDegrees : float := 0.0 in
  let positionXYZ : vec3.t := vec3.mk 14.8 0.2 6.7 in
  lift (SetTransformations scaleXYZ XrotationDegrees YrotationDegrees
                           ZrotationDegrees positionXYZ) ;;;
  lift (SetShaderColor 1 1 1 1) ;;;
  DrawSphereMesh ;;;
  let scaleXYZ : vec3.t := vec3.mk 0.1 0.2 0.1 in
  let XrotationDegrees : float := 0.0 in
  let YrotationDegrees : float := 0.0 in
  let ZrotationDegrees : float := 0.0 in
  let positionXYZ : vec3.t := vec3.mk 15.2 0.2 6.7 in
  lift (SetTransformations scaleXYZ XrotationDegrees YrotationDegrees
                           ZrotationDegrees positionXYZ) ;;;
  lift (SetShaderColor 1 1 1 1) ;;;
  DrawSphereMesh ;;;
  let scaleXYZ : vec3.t := vec3.mk 0.1 0.2 0.1 in
  let XrotationDegrees : float := 0.0 in
  let YrotationDegrees : float := 0.0 in
  let ZrotationDegrees : float := 0.0 in
  let positionXYZ : vec3.t := vec3.mk 16.8 0.2 8.7 in
  lift (SetTransformations scaleXYZ XrotationDegrees YrotationDegrees
                           ZrotationDegrees positionXYZ) ;;;
  lift (SetShaderColor 1 1 1 1) ;;;
  DrawSphereMesh ;;;
  let scaleXYZ : vec3.t := vec3.mk 0.1 0.2 0.1 in
  let XrotationDegrees : float := 0.0 in
  let YrotationDegrees : float := 0.0 in
  let ZrotationDegrees : float := 0.0 in
  let positionXYZ : vec3.t := vec3.mk 17.2 0.2 8.7 in
  lift (SetTransformations scaleXYZ XrotationDegrees YrotationDegrees
                           ZrotationDegrees positionXYZ) ;;;
  lift (SetShaderColor 1 1 1 1) ;;;
  DrawSphereMesh ;;;
  let scaleXYZ : vec3.t := vec3.mk 0.1 0.2 0.1 in
  let XrotationDegrees : float := 0.0 in
  let YrotationDegrees : float := 0.0 in
  let ZrotationDegrees : float := 0.0 in
  let positionXYZ : vec3.t := vec3.mk 14.8 0.2 8.7 in
  lift (SetTransformations scaleXYZ XrotationDegrees YrotationDegrees
                           ZrotationDegrees positionXYZ) ;;;
  lift (SetShaderColor 1 1 1 1) ;;;
  DrawSphereMesh ;;;
  let scaleXYZ : vec3.t := vec3.mk 0.1 0.2 0.1 in
  let XrotationDegrees : float := 0.0 in
  let YrotationDegrees : float := 0.0 in
  let ZrotationDegrees : float := 0.0 in
  let positionXYZ : vec3.t := vec3.mk 15.2 0.2 8.7 in
  lift (SetTransformations scaleXYZ XrotationDegrees YrotationDegrees
                           ZrotationDegrees positionXYZ) ;;;
  lift (SetShaderColor 1 1 1 1) ;;;
  DrawSphereMesh.

(** [RenderTree()] *)
Definition RenderTree : SM unit :=
  let XrotationDegrees : float := 0.0 in
  let YrotationDegrees : float := 0.0 in
  let ZrotationDegrees : float := 0.0 in
  let scaleXYZ : vec3.t := vec3.mk 2.0 15.0 1.6 in
  let XrotationDegrees : float := 0.0 in
  let YrotationDegrees : float := 0.0 in
  let ZrotationDegrees : float := 0.0 in
  let positionXYZ : vec3.t := vec3.mk (-20.0) 7.6 (-10.0) in
  lift (SetTransformations scaleXYZ XrotationDegrees YrotationDegrees
                           ZrotationDegrees positionXYZ) ;;;
  lift (SetShaderTexture "bark") ;;;
  local_material (SetShaderMaterial "wood") ;;;
  DrawBoxMesh ;;;
  let scaleXYZ : vec3.t := vec3.mk 3.5 3.5 3.5 in
  let XrotationDegrees : float := 0.0 in
  let YrotationDegrees : float := 0.0 in
  let ZrotationDegrees : float := 0.0 in
  let positionXYZ : vec3.t := vec3.mk (-19.8) 18.0 (-9.5) in
  lift (SetTransformations scaleXYZ XrotationDegrees YrotationDegrees
                           ZrotationDegrees positionXYZ) ;;;
  lift (SetShaderTexture "leaves") ;;;
  DrawSphereMesh ;;;
  let scaleXYZ : vec3.t := vec3.mk 1.0 6.5 1.0 in
  let XrotationDegrees : float := 60.0 in
  let YrotationDegrees : float := 0.0 in
  let ZrotationDegrees : float := 0.0 in
  let positionXYZ : vec3.t := vec3.mk (-19.8) 11.0 (-9.5) in
  lift (SetTransformations scaleXYZ XrotationDegrees YrotationDegrees
                           ZrotationDegrees positionXYZ) ;;;
  lift (SetShaderTexture "bark") ;;;
  DrawTaperedCylinderMesh ;;;
  let scaleXYZ : vec3.t := vec3.mk 3.5 3.5 3.5 in
  let XrotationDegrees : float := 0.0 in
  let YrotationDegrees : float := 0.0 in
  let ZrotationDegrees : float := 0.0 in
  let positionXYZ : vec3.t := vec3.mk (-19.8) 16.0 (-3.5) in
  lift (SetTransformations scaleXYZ XrotationDegrees YrotationDegrees
                           ZrotationDegrees positionXYZ) ;;;
  lift (SetShaderTexture "leaves") ;;;
  DrawSphereMesh ;;;
  let scaleXYZ : vec3.t := vec3.mk 1.0 6.5 1.0 in
  let XrotationDegrees : float := 60.0 in
  let YrotationDegrees : float := (-95.0) in
  let ZrotationDegrees : float := 0.0 in
  let positionXYZ : vec3.t := vec3.mk (-20.7) 11.8 (-10.1) in
  lift (SetTransformations scaleXYZ XrotationDegrees YrotationDegrees
                           ZrotationDegrees positionXYZ) ;;;
  lift (SetShaderTexture "bark") ;;;
  local_material (SetShaderMaterial "shade") ;;;
  DrawTaperedCylinderMesh ;;;
  let scaleXYZ : vec3.t := vec3.mk 3.5 3.5 3.5 in
  let XrotationDegrees : float := 0.0 in
  let YrotationDegrees : float := 0.0 in
  let ZrotationDegrees : float := 0.0 in
  let positionXYZ : vec3.t := vec3.mk (-25.0) 16.0 (-9.5) in
  lift (SetTransformations scaleXYZ XrotationDegrees YrotationDegrees
                           ZrotationDegrees positionXYZ) ;;;
  lift (SetShaderTexture "leaves") ;;;
  local_material (SetShaderMaterial "shade") ;;;
  DrawSphereMesh ;;;
  let scaleXYZ : vec3.t := vec3.mk 1.0 6.5 1.0 in
  let XrotationDegrees : float := (-60.0) in
  let YrotationDegrees : float := (-95.0) in
  let ZrotationDegrees : float := 0.0 in
  let positionXYZ : vec3.t := vec3.mk (-19.5) 11.8 (-10.1) in
  lift (SetTransformations scaleXYZ XrotationDegrees YrotationDegrees
                           ZrotationDegrees positionXYZ) ;;;
  lift (SetShaderTexture "bark") ;;;
  DrawTaperedCylinderMesh ;;;
  let scaleXYZ : vec3.t := vec3.mk 3.5 3.5 3.5 in
  let XrotationDegrees : float := 0.0 in
  let YrotationDegrees : float := 0.0 in
  let ZrotationDegrees : float := 0.0 in
  let positionXYZ : vec3.t := vec3.mk (-15.0) 16.0 (-9.5) in
  lift (SetTransformations scaleXYZ XrotationDegrees YrotationDegrees
                           ZrotationDegrees positionXYZ) ;;;
  lift (SetShaderTexture "leaves") ;;;
  DrawSphereMesh ;;;
  let scaleXYZ : vec3.t := vec3.mk 1.0 6.5 1.0 in
  let XrotationDegrees : float := (-60.0) in
  let YrotationDegrees : float := 0.0 in
  let ZrotationDegrees : float := 0.0 in
  let positionXYZ : vec3.t := vec3.mk (-19.8) 11.0 (-10.5) in
  lift (SetTransformations scaleXYZ XrotationDegrees YrotationDegrees
                           ZrotationDegrees positionXYZ) ;;;
  lift (SetShaderTexture "bark") ;;;
  DrawTaperedCylinderMesh ;;;
  let scaleXYZ : vec3.t := vec3.mk 3.5 3.5 3.5 in
  let XrotationDegrees : float := 0.0 in
  let YrotationDegrees : float := 0.0 in
  let ZrotationDegrees : float := 0.0 in
  let positionXYZ : vec3.t := vec3.mk (-19.8) 16.0 (-16.5) in
  lift (SetTransformations scaleXYZ XrotationDegrees YrotationDegrees
                           ZrotationDegrees positionXYZ) ;;;
  lift (SetShaderTexture "leaves") ;;;
  DrawSphereMesh ;;;
  let scaleXYZ : vec3.t := vec3.mk 2.0 15.0 1.6 in
  let XrotationDegrees : float := 0.0 in
  let YrotationDegrees : float := 0.0 in
  let ZrotationDegrees : float := 0.0 in
  let positionXYZ : vec3.t := vec3.mk 20.0 7.6 (-10.0) in
  lift (SetTransformations scaleXYZ XrotationDegrees YrotationDegrees
                           ZrotationDegrees positionXYZ) ;;;
  lift (SetShaderTexture "bark") ;;;
  local_material (SetShaderMaterial "wood") ;;;
  DrawBoxMesh ;;;
  let scaleXYZ : vec3.t := vec3.mk 3.5 3.5 3.5 in
  let XrotationDegrees : float := 0.0 in
  let YrotationDegrees : float := 0.0 in
  let ZrotationDegrees : float := 0.0 in
  let positionXYZ : vec3.t := vec3.mk 19.8 18.0 (-9.5) in
  lift (SetTransformations scaleXYZ XrotationDegrees YrotationDegrees
                           ZrotationDegrees positionXYZ) ;;;
  lift (SetShaderTexture "leaves") ;;;
  DrawSphereMesh ;;;
  let scaleXYZ : vec3.t := vec3.mk 1.0 6.5 1.0 in
  let XrotationDegrees : float := 60.0 in
  let YrotationDegrees : float := 0.0 in
  let ZrotationDegrees : float := 0.0 in
  let positionXYZ : vec3.t := vec3.mk 19.8 11.0 (-9.5) in
  lift (SetTransformations scaleXYZ XrotationDegrees YrotationDegrees
                           ZrotationDegrees positionXYZ) ;;;
  lift (SetShaderTexture "bark") ;;;
  DrawTaperedCylinderMesh ;;;
  let scaleXYZ : vec3.t := vec3.mk 3.5 3.5 3.5 in
  let XrotationDegrees : float := 0.0 in
  let YrotationDegrees : float := 0.0 in
  let ZrotationDegrees : float := 0.0 in
  let positionXYZ : vec3.t := vec3.mk 19.8 16.0 (-3.5) in
  lift (SetTransformations scaleXYZ XrotationDegrees YrotationDegrees
                           ZrotationDegrees positionXYZ) ;;;
  lift (SetShaderTexture "leaves") ;;;
  DrawSphereMesh ;;;
  let scaleXYZ : vec3.t := vec3.mk 1.0 6.5 1.0 in
  let XrotationDegrees : float := 60.0 in
  let YrotationDegrees : float := (-95.0) in
  let ZrotationDegrees : float := 0.0 in
  let positionXYZ : vec3.t := vec3.mk 19.2 11.8 (-10.1) in
  lift (SetTransformations scaleXYZ XrotationDegrees YrotationDegrees
                           ZrotationDegrees positionXYZ) ;;;
  lift (SetShaderTexture "bark") ;;;
  DrawTaperedCylinderMesh ;;;
  let scaleXYZ : vec3.t := vec3.mk 3.5 3.5 3.5 in
  let XrotationDegrees : float := 0.0 in
  let YrotationDegrees : float := 0.0 in
  let ZrotationDegrees : float := 0.0 in
  let positionXYZ : vec3.t := vec3.mk 15.0 16.0 (-9.5) in
  lift (SetTransformations scaleXYZ XrotationDegrees YrotationDegrees
                           ZrotationDegrees positionXYZ) ;;;
  lift (SetShaderTexture "leaves") ;;;
  DrawSphereMesh ;;;
  let scaleXYZ : vec3.t := vec3.mk 1.0 6.5 1.0 in
  let XrotationDegrees : float := (-60.0) in
  let YrotationDegrees : float := (-95.0) in
  let ZrotationDegrees : float := 0.0 in
  let positionXYZ : vec3.t := vec3.mk 19.5 11.8 (-10.1) in
  lift (SetTransformations scaleXYZ XrotationDegrees YrotationDegrees
                           ZrotationDegrees positionXYZ) ;;;
  lift (SetShaderTexture "bark") ;;;
  DrawTaperedCylinderMesh ;;;
  let scaleXYZ : vec3.t := vec3.mk 3.5 3.5 3.5 in
  let XrotationDegrees : float := 0.0 in
  let YrotationDegrees : float := 0.0 in
  let ZrotationDegrees : float := 0.0 in
  let positionXYZ : vec3.t := vec3.mk 25.0 16.0 (-9.5) in
  lift (SetTransformations scaleXYZ XrotationDegrees YrotationDegrees
                           ZrotationDegrees positionXYZ) ;;;
  lift (SetShaderTexture "leaves") ;;;
  DrawSphereMesh ;;;
  let scaleXYZ : vec3.t := vec3.mk 1.0 6.5 1.0 in
  let XrotationDegrees : float := (-60.0) in
  let YrotationDegrees : float := 0.0 in
  let ZrotationDegrees : float := 0.0 in
  let positionXYZ : vec3.t := vec3.mk 19.8 11.0 (-10.5) in
  lift (SetTransformations scaleXYZ XrotationDegrees YrotationDegrees
                           ZrotationDegrees positionXYZ) ;;;
  lift (SetShaderTexture "bark") ;;;
  DrawTaperedCylinderMesh ;;;
  let scaleXYZ : vec3.t := vec3.mk 3.5 3.5 3.5 in
  let XrotationDegrees : float := 0.0 in
  let YrotationDegrees : float := 0.0 in
  let ZrotationDegrees : float := 0.0 in
  let positionXYZ : vec3.t := vec3.mk 19.8 16.0 (-16.5) in
  lift (SetTransformations scaleXYZ XrotationDegrees YrotationDegrees
                           ZrotationDegrees positionXYZ) ;;;
  lift (SetShaderTexture "leaves") ;;;
  DrawSphereMesh ;;;
  let scaleXYZ : vec3.t := vec3.mk 2.0 15.0 1.6 in
  let XrotationDegrees : float := 0.0 in
  let YrotationDegrees : float := 0.0 in
  let ZrotationDegrees : float := 0.0 in
  let positionXYZ : vec3.t := vec3.mk (-20.0) 7.6 10.0 in
  lift (SetTransformations scaleXYZ XrotationDegrees YrotationDegrees
                           ZrotationDegrees positionXYZ) ;;;
  lift (SetShaderTexture "bark") ;;;
  local_material (SetShaderMaterial "wood") ;;;
  DrawBoxMesh ;;;
  let scaleXYZ : vec3.t := vec3.mk 3.5 3.5 3.5 in
  let XrotationDegrees : float := 0.0 in
  let YrotationDegrees : float := 0.0 in
  let ZrotationDegrees : float := 0.0 in
  let positionXYZ : vec3.t := vec3.mk (-19.8) 18.0 9.8 in
  lift (SetTransformations scaleXYZ XrotationDegrees YrotationDegrees
                           ZrotationDegrees positionXYZ) ;;;
  lift (SetShaderTexture "leaves") ;;;
  DrawSphereMesh ;;;
  let scaleXYZ : vec3.t := vec3.mk 1.0 6.5 1.0 in
  let XrotationDegrees : float := 60.0 in
  let YrotationDegrees : float := 0.0 in
  let ZrotationDegrees : float := 0.0 in
  let positionXYZ : vec3.t := vec3.mk (-19.8) 11.0 10.4 in
  lift (SetTransformations scaleXYZ XrotationDegrees YrotationDegrees
                           ZrotationDegrees positionXYZ) ;;;
  lift (SetShaderTexture "bark") ;;;
  DrawTaperedCylinderMesh ;;;
  let scaleXYZ : vec3.t := vec3.mk 3.5 3.5 3.5 in
  let XrotationDegrees : float := 0.0 in
  let YrotationDegrees : float := 0.0 in
  let ZrotationDegrees : float := 0.0 in
  let positionXYZ : vec3.t := vec3.mk (-19.8) 16.0 16.5 in
  lift (SetTransformations scaleXYZ XrotationDegrees YrotationDegrees
                           ZrotationDegrees positionXYZ) ;;;
  lift (SetShaderTexture "leaves") ;;;
  DrawSphereMesh ;;;
  let scaleXYZ : vec3.t := vec3.mk 1.0 6.5 1.0 in
  let XrotationDegrees : float := 60.0 in
  let YrotationDegrees : float := (-95.0) in
  let ZrotationDegrees : float := 0.0 in
  let positionXYZ : vec3.t := vec3.mk (-20.7) 11.8 10.1 in
  lift (SetTransformations scaleXYZ XrotationDegrees YrotationDegrees
                           ZrotationDegrees positionXYZ) ;;;
  lift (SetShaderTexture "bark") ;;;
  local_material (SetShaderMaterial "shade") ;;;
  DrawTaperedCylinderMesh ;;;
  let scaleXYZ : vec3.t := vec3.mk 3.5 3.5 3.5 in
  let XrotationDegrees : float := 0.0 in
  let YrotationDegrees : float := 0.0 in
  let ZrotationDegrees : float := 0.0 in
  let positionXYZ : vec3.t := vec3.mk (-25.0) 16.0 9.5 in
  lift (SetTransformations scaleXYZ XrotationDegrees YrotationDegrees
                           ZrotationDegrees positionXYZ) ;;;
  lift (SetShaderTexture "leaves") ;;;
  local_material (SetShaderMaterial "shade") ;;;
  DrawSphereMesh ;;;
  let scaleXYZ : vec3.t := vec3.mk 1.0 6.5 1.0 in
  let XrotationDegrees : float := (-60.0) in
  let YrotationDegrees : float := (-95.0) in
  let ZrotationDegrees : float := 0.0 in
  let positionXYZ : vec3.t := vec3.mk (-19.5) 11.8 10.1 in
  lift (SetTransformations scaleXYZ XrotationDegrees YrotationDegrees
                           ZrotationDegrees positionXYZ) ;;;
  lift (SetShaderTexture "bark") ;;;
  DrawTaperedCylinderMesh ;;;
  let scaleXYZ : vec3.t := vec3.mk 3.5 3.5 3.5 in
  let XrotationDegrees : float := 0.0 in
  let YrotationDegrees : float := 0.0 in
  let ZrotationDegrees : float := 0.0 in
  let positionXYZ : vec3.t := vec3.mk (-15.0) 16.0 9.5 in
  lift (SetTransformations scaleXYZ XrotationDegrees YrotationDegrees
                           ZrotationDegrees positionXYZ) ;;;
  lift (SetShaderTexture "leaves") ;;;
  DrawSphereMesh ;;;
  let scaleXYZ : vec3.t := vec3.mk 1.0 6.5 1.0 in
  let XrotationDegrees : float := (-60.0) in
  let YrotationDegrees : float := 0.0 in
  let ZrotationDegrees : float := 0.0 in
  let positionXYZ : vec3.t := vec3.mk (-19.8) 11.0 10.5 in
  lift (SetTransformations scaleXYZ XrotationDegrees YrotationDegrees
                           ZrotationDegrees positionXYZ) ;;;
  lift (SetShaderTexture "bark") ;;;
  DrawTaperedCylinderMesh ;;;
  let scaleXYZ : vec3.t := vec3.mk 3.5 3.5 3.5 in
  let XrotationDegrees : float := 0.0 in
  let YrotationDegrees : float := 0.0 in
  let ZrotationDegrees : float := 0.0 in
  let positionXYZ : vec3.t := vec3.mk (-19.8) 16.0 3.5 in
  lift (SetTransformations scaleXYZ XrotationDegrees YrotationDegrees
                           ZrotationDegrees positionXYZ) ;;;
  lift (SetShaderTexture "leaves") ;;;
  DrawSphereMesh ;;;
  let scaleXYZ : vec3.t := vec3.mk 2.0 15.0 1.6 in
  let XrotationDegrees : float := 0.0 in
  let YrotationDegrees : float := 0.0 in
  let ZrotationDegrees : float := 0.0 in
  let positionXYZ : vec3.t := vec3.mk 20.0 7.6 10.0 in
  lift (SetTransformations scaleXYZ XrotationDegrees YrotationDegrees
                           ZrotationDegrees positionXYZ) ;;;
  lift (SetShaderTexture "bark") ;;;
  local_material (SetShaderMaterial "wood") ;;;
  DrawBoxMesh ;;;
  let scaleXYZ : vec3.t := vec3.mk 3.5 3.5 3.5 in
  let XrotationDegrees : float := 0.0 in
  let YrotationDegrees : float := 0.0 in
  let ZrotationDegrees : float := 0.0 in
  let positionXYZ : vec3.t := vec3.mk 19.8 18.0 10.0 in
  lift (SetTransformations scaleXYZ XrotationDegrees YrotationDegrees
                           ZrotationDegrees positionXYZ) ;;;
  lift (SetShaderTexture "leaves") ;;;
  DrawSphereMesh ;;;
  let scaleXYZ : vec3.t := vec3.mk 1.0 6.5 1.0 in
  let XrotationDegrees : float := 60.0 in
  let YrotationDegrees : float := 0.0 in
  let ZrotationDegrees : float := 0.0 in
  let positionXYZ : vec3.t := vec3.mk 20.0 11.0 9.8 in
  lift (SetTransformations scaleXYZ XrotationDegrees YrotationDegrees
                           ZrotationDegrees positionXYZ) ;;;
  lift (SetShaderTexture "bark") ;;;
  DrawTaperedCylinderMesh ;;;
  let scaleXYZ : vec3.t := vec3.mk 3.5 3.5 3.5 in
  let XrotationDegrees : float := 0.0 in
  let YrotationDegrees : float := 0.0 in
  let ZrotationDegrees : float := 0.0 in
  let positionXYZ : vec3.t := vec3.mk 19.8 16.0 16.5 in
  lift (SetTransformations scaleXYZ XrotationDegrees YrotationDegrees
                           ZrotationDegrees positionXYZ) ;;;
  lift (SetShaderTexture "leaves") ;;;
  DrawSphereMesh ;;;
  let scaleXYZ : vec3.t := vec3.mk 1.0 6.5 1.0 in
  let XrotationDegrees : float := 60.0 in
  let YrotationDegrees : float := (-95.0) in
  let ZrotationDegrees : float := 0.0 in
  let positionXYZ : vec3.t := vec3.mk 19.2 11.8 10.1 in
  lift (SetTransformations scaleXYZ XrotationDegrees YrotationDegrees
                           ZrotationDegrees positionXYZ) ;;;
  lift (SetShaderTexture "bark") ;;;
  DrawTaperedCylinderMesh ;;;
  let scaleXYZ : vec3.t := vec3.mk 3.5 3.5 3.5 in
  let XrotationDegrees : float := 0.0 in
  let YrotationDegrees : float := 0.0 in
  let ZrotationDegrees : float := 0.0 in
  let positionXYZ : vec3.t := vec3.mk 15.0 16.0 9.5 in
  lift (SetTransformations scaleXYZ XrotationDegrees YrotationDegrees
                           ZrotationDegrees positionXYZ) ;;;
  lift (SetShaderTexture "leaves") ;;;
  DrawSphereMesh ;;;
  let scaleXYZ : vec3.t := vec3.mk 1.0 6.5 1.0 in
  let XrotationDegrees : float := (-60.0) in
  let YrotationDegrees : float := (-95.0) in
  let ZrotationDegrees : float := 0.0 in
  let positionXYZ : vec3.t := vec3.mk 20.8 11.8 10.1 in
  lift (SetTransformations scaleXYZ XrotationDegrees YrotationDegrees
                           ZrotationDegrees positionXYZ) ;;;
  lift (SetShaderTexture "bark") ;;;
  DrawTaperedCylinderMesh ;;;
  let scaleXYZ : vec3.t := vec3.mk 3.5 3.5 3.5 in
  let XrotationDegrees : float := 0.0 in
  let YrotationDegrees : float := 0.0 in
  let ZrotationDegrees : float := 0.0 in
  let positionXYZ : vec3.t := vec3.mk 25.0 16.0 9.5 in
  lift (SetTransformations scaleXYZ XrotationDegrees YrotationDegrees
                           ZrotationDegrees positionXYZ) ;;;
  lift (SetShaderTexture "leaves") ;;;
  DrawSphereMesh ;;;
  let scaleXYZ : vec3.t := vec3.mk 1.0 6.5 1.0 in
  let XrotationDegrees : float := (-60.0) in
  let YrotationDegrees : float := 0.0 in
  let ZrotationDegrees : float := 0.0 in
  let positionXYZ : vec3.t := vec3.mk 19.8 11.0 9.4 in
  lift (SetTransformations scaleXYZ XrotationDegrees YrotationDegrees
                           ZrotationDegrees positionXYZ) ;;;
  lift (SetShaderTexture "bark") ;;;
  DrawTaperedCylinderMesh ;;;
  let scaleXYZ : vec3.t := vec3.mk 3.5 3.5 3.5 in
  let XrotationDegrees : float := 0.0 in
  let YrotationDegrees : float := 0.0 in
  let ZrotationDegrees : float := 0.0 in
  let positionXYZ : vec3.t := vec3.mk 19.8 16.0 3.5 in
  lift (SetTransformations scaleXYZ XrotationDegrees YrotationDegrees
                           ZrotationDegrees positionXYZ) ;;;
  lift (SetShaderTexture "leaves") ;;;
  DrawSphereMesh.

(** [RenderSun()] *)
Definition RenderSun : SM unit :=
  let XrotationDegrees : float := 0.0 in
  let YrotationDegrees : float := 0.0 in
  let ZrotationDegrees : float := 0.0 in
  let scaleXYZ : vec3.t := vec3.mk 6.5 6.5 6.5 in
  let XrotationDegrees : float := 0.0 in
  let YrotationDegrees : float := 0.0 in
  let ZrotationDegrees : float := 0.0 in
  let positionXYZ : vec3.t := vec3.mk 35.0 32.0 (-1.0) in
  lift (SetTransformations scaleXYZ XrotationDegrees YrotationDegrees
                           ZrotationDegrees positionXYZ) ;;;
  lift (SetShaderColor 5 5 0 1) ;;;
  local_material (SetShaderMaterial "sun") ;;;
  DrawSphereMesh.

(** [RenderPond()] *)
Definition RenderPond : SM unit :=
  let XrotationDegrees : float := 0.0 in
  let YrotationDegrees : float := 0.0 in
  let ZrotationDegrees : float := 0.0 in
  let scaleXYZ : vec3.t := vec3.mk 8.5 0.2 4.8 in
  let XrotationDegrees : float := 0.0 in
  let YrotationDegrees : float := 0.0 in
  let ZrotationDegrees : float := 0.0 in
  let positionXYZ : vec3.t := vec3.mk 19.7 0.3 0.0 in
  lift (SetTransformations scaleXYZ XrotationDegrees YrotationDegrees
                           ZrotationDegrees positionXYZ) ;;;
  lift (SetShaderTexture "pond") ;;;
  local_material (SetShaderMaterial "shiny") ;;;
  DrawSphereMesh.

(** [RenderGiraffe()] *)
Definition RenderGiraffe : SM unit :=
  let XrotationDegrees : float := 0.0 in
  let YrotationDegrees : float := 0.0 in
  let ZrotationDegrees : float := 0.0 in
  let scaleXYZ : vec3.t := vec3.mk 1.0 0.8 0.8 in
  let XrotationDegrees : float := 0.0 in
  let YrotationDegrees : float := 0.0 in
  let ZrotationDegrees : float := 0.0 in
  let positionXYZ : vec3.t := vec3.mk (-24.1) 0.45 0.0 in
  lift (SetTransformations scaleXYZ XrotationDegrees YrotationDegrees
                           ZrotationDegrees positionXYZ) ;;;
  lift (SetShaderColor 5 0 0 1) ;;;
  DrawBoxMesh ;;;
  let scaleXYZ : vec3.t := vec3.mk 1.0 0.8 0.8 in
  let XrotationDegrees : float := 0.0 in
  let YrotationDegrees : float := 0.0 in
  let ZrotationDegrees : float := 0.0 in
  let positionXYZ : vec3.t := vec3.mk (-24.1) 0.45 2.4 in
  lift (SetTransformations scaleXYZ XrotationDegrees YrotationDegrees
                           ZrotationDegrees positionXYZ) ;;;
  lift (SetShaderColor 5 0 0 1) ;;;
  DrawBoxMesh ;;;
  let scaleXYZ : vec3.t := vec3.mk 1.0 0.8 0.8 in
  let XrotationDegrees : float := 0.0 in
  let YrotationDegrees : float := 0.0 in
  let ZrotationDegrees : float := 0.0 in
  let positionXYZ : vec3.t := vec3.mk (-27.0) 0.45 0.0 in
  lift (SetTransformations scaleXYZ XrotationDegrees YrotationDegrees
                           ZrotationDegrees positionXYZ) ;;;
  lift (SetShaderColor 5 0 0 1) ;;;
  DrawBoxMesh ;;;
  let scaleXYZ : vec3.t := vec3.mk 1.0 0.8 0.8 in
  let XrotationDegrees : float := 0.0 in
  let YrotationDegrees : float := 0.0 in
  let ZrotationDegrees : float := 0.0 in
  let positionXYZ : vec3.t := vec3.mk (-27.0) 0.45 2.4 in
  lift (SetTransformations scaleXYZ XrotationDegrees YrotationDegrees
                           ZrotationDegrees positionXYZ) ;;;
  lift (SetShaderColor 5 0 0 1) ;;;
  DrawBoxMesh ;;;
  let scaleXYZ : vec3.t := vec3.mk 1.0 2.6 0.8 in
  let XrotationDegrees : float := 0.0 in
  let YrotationDegrees : float := 0.0 in
  let ZrotationDegrees : float := 0.0 in
  let positionXYZ : vec3.t := vec3.mk (-24.1) 2.1 0.0 in
  lift (SetTransformations scaleXYZ XrotationDegrees YrotationDegrees
                           ZrotationDegrees positionXYZ) ;;;
  lift (SetShaderTexture "giraffe") ;;;
  local_material (SetShaderMaterial "shade") ;;;
  DrawBoxMesh ;;;
  let scaleXYZ : vec3.t := vec3.mk 1.0 2.6 0.8 in
  let XrotationDegrees : float := 0.0 in
  let YrotationDegrees : float := 0.0 in
  let ZrotationDegrees : float := 0.0 in
  let positionXYZ : vec3.t := vec3.mk (-24.1) 2.1 2.4 in
  lift (SetTransformations scaleXYZ XrotationDegrees YrotationDegrees
                           ZrotationDegrees positionXYZ) ;;;
  lift (SetShaderTexture "giraffe") ;;;
  local_material (SetShaderMaterial "shade") ;;;
  DrawBoxMesh ;;;
  let scaleXYZ : vec3.t := vec3.mk 1.0 2.6 0.8 in
  let XrotationDegrees : float := 0.0 in
  let YrotationDegrees : float := 0.0 in
  let ZrotationDegrees : float := 0.0 in
  let positionXYZ : vec3.t := vec3.mk (-27.0) 2.1 0.0 in
  lift (SetTransformations scaleXYZ XrotationDegrees YrotationDegrees
                           ZrotationDegrees positionXYZ) ;;;
  lift (SetShaderTexture "giraffe") ;;;
  local_material (SetShaderMaterial "shade") ;;;
  DrawBoxMesh ;;;
  let scaleXYZ : vec3.t := vec3.mk 1.0 2.6 0.8 in
  let XrotationDegrees : float := 0.0 in
  let YrotationDegrees : float := 0.0 in
  let ZrotationDegrees : float := 0.0 in
  let positionXYZ : vec3.t := vec3.mk (-27.0) 2.1 2.4 in
  lift (SetTransformations scaleXYZ XrotationDegrees YrotationDegrees
                           ZrotationDegrees positionXYZ) ;;;
  lift (SetShaderTexture "giraffe") ;;;
  local_material (SetShaderMaterial "shade") ;;;
  DrawBoxMesh ;;;
  let scaleXYZ : vec3.t := vec3.mk 1.2 2.0 1.0 in
  let XrotationDegrees : float := 0.0 in
  let YrotationDegrees : float := 0.0 in
  let ZrotationDegrees : float := 180.0 in
  let positionXYZ : vec3.t := vec3.mk (-24.1) 5.4 0.0 in
  lift (SetTransformations scaleXYZ XrotationDegrees YrotationDegrees
                           ZrotationDegrees positionXYZ) ;;;
  lift (SetShaderTexture "giraffe") ;;;
  local_material (SetShaderMaterial "shade") ;;;
  DrawTaperedCylinderMesh ;;;
  let scaleXYZ : vec3.t := vec3.mk 1.2 2.0 1.0 in
  let XrotationDegrees : float := 0.0 in
  let YrotationDegrees : float := 0.0 in
  let ZrotationDegrees : float := 180.0 in
  let positionXYZ : vec3.t := vec3.mk (-24.1) 5.4 2.4 in
  lift (SetTransformations scaleXYZ XrotationDegrees YrotationDegrees
                           ZrotationDegrees positionXYZ) ;;;
  lift (SetShaderTexture "giraffe") ;;;
  local_material (SetShaderMaterial "shade") ;;;
  DrawTaperedCylinderMesh ;;;
  let scaleXYZ : vec3.t := vec3.mk 1.2 2.0 1.0 in
  let XrotationDegrees : float := 0.0 in
  let YrotationDegrees : float := 0.0 in
  let ZrotationDegrees : float := 175.0 in
  let positionXYZ : vec3.t := vec3.mk (-27.0) 5.4 0.0 in
  lift (SetTransformations scaleXYZ XrotationDegrees YrotationDegrees
                           ZrotationDegrees positionXYZ) ;;;
  lift (SetShaderTexture "giraffe") ;;;
  local_material (SetShaderMaterial "shade") ;;;
  DrawTaperedCylinderMesh ;;;
  let scaleXYZ : vec3.t := vec3.mk 1.2 2.0 1.0 in
  let XrotationDegrees : float := 0.0 in
  let YrotationDegrees : float := 0.0 in
  let ZrotationDegrees : float := 175.0 in
  let positionXYZ : vec3.t := vec3.mk (-27.0) 5.4 2.4 in
  lift (SetTransformations scaleXYZ XrotationDegrees YrotationDegrees
                           ZrotationDegrees positionXYZ) ;;;
  lift (SetShaderTexture "giraffe") ;;;
  local_material (SetShaderMaterial "shade") ;;;
  DrawTaperedCylinderMesh ;;;
  let scaleXYZ : vec3.t := vec3.mk 2.0 5.6 3.0 in
  let XrotationDegrees : float := 0.0 in
  let YrotationDegrees : float := 0.0 in
  let ZrotationDegrees : float := 90.0 in
  let positionXYZ : vec3.t := vec3.mk (-22.7) 6.8 1.1 in
  lift (SetTransformations scaleXYZ XrotationDegrees YrotationDegrees
                           ZrotationDegrees positionXYZ) ;;;
  lift (SetShaderTexture "giraffe") ;;;
  local_material (SetShaderMaterial "shade") ;;;
  DrawCylinderMesh ;;;
  let scaleXYZ : vec3.t := vec3.mk 2.2 6.6 1.6 in
  let XrotationDegrees : float := 0.0 in
  let YrotationDegrees : float := 0.0 in
  let ZrotationDegrees : float := (-55.0) in
  let positionXYZ : vec3.t := vec3.mk (-24.0) 6.8 0.8 in
  lift (SetTransformations scaleXYZ XrotationDegrees YrotationDegrees
                           ZrotationDegrees positionXYZ) ;;;
  lift (SetShaderTexture "giraffe") ;;;
  local_material (SetShaderMaterial "shade") ;;;
  DrawTaperedCylinderMesh ;;;
  let scaleXYZ : vec3.t := vec3.mk 2.2 2.0 4.4 in
  let XrotationDegrees : float := 0.0 in
  let YrotationDegrees : float := 90.0 in
  let ZrotationDegrees : float := 40.0 in
  let positionXYZ : vec3.t := vec3.mk (-17.4) 11.8 0.8 in
  lift (SetTransformations scaleXYZ XrotationDegrees YrotationDegrees
                           ZrotationDegrees positionXYZ) ;;;
  lift (SetShaderTexture "giraffe") ;;;
  local_material (SetShaderMaterial "shade") ;;;
  DrawPrismMesh ;;;
  let scaleXYZ : vec3.t := vec3.mk 0.4 1.4 0.2 in
  let XrotationDegrees : float := 0.0 in
  let YrotationDegrees : float := 0.0 in
  let ZrotationDegrees : float := 40.0 in
  let positionXYZ : vec3.t := vec3.mk (-19.2) 11.6 0.5 in
  lift (SetTransformations scaleXYZ XrotationDegrees YrotationDegrees
                           ZrotationDegrees positionXYZ) ;;;
  lift (SetShaderTexture "giraffe") ;;;
  DrawTaperedCylinderMesh ;;;
  let scaleXYZ : vec3.t := vec3.mk 0.4 1.4 0.2 in
  let XrotationDegrees : float := 0.0 in
  let YrotationDegrees : float := 0.0 in
  let ZrotationDegrees : float := 40.0 in
  let positionXYZ : vec3.t := vec3.mk (-19.2) 11.6 1.1 in
  lift (SetTransformations scaleXYZ XrotationDegrees YrotationDegrees
                           ZrotationDegrees positionXYZ) ;;;
  lift (SetShaderTexture "giraffe") ;;;
  DrawTaperedCylinderMesh ;;;
  let scaleXYZ : vec3.t := vec3.mk 3.6 0.4 1.2 in
  let XrotationDegrees : float := 0.0 in
  let YrotationDegrees : float := 170.0 in
  let ZrotationDegrees : float := 40.0 in
  let positionXYZ : vec3.t := vec3.mk (-17.9) 11.9 (-0.3) in
  lift (SetTransformations scaleXYZ XrotationDegrees YrotationDegrees
                           ZrotationDegrees positionXYZ) ;;;
  lift (SetShaderTexture "giraffe") ;;;
  DrawPrismMesh ;;;
  let scaleXYZ : vec3.t := vec3.mk 3.6 0.4 1.2 in
  let XrotationDegrees : float := 0.0 in
  let YrotationDegrees : float := 14.0 in
  let ZrotationDegrees : float := 40.0 in
  let positionXYZ : vec3.t := vec3.mk (-17.9) 11.9 2.0 in
  lift (SetTransformations scaleXYZ XrotationDegrees YrotationDegrees
                           ZrotationDegrees positionXYZ) ;;;
  lift (SetShaderTexture "giraffe") ;;;
  DrawPrismMesh ;;;
  let scaleXYZ : vec3.t := vec3.mk 0.4 5.0 0.4 in
  let XrotationDegrees : float := 0.0 in
  let YrotationDegrees : float := 0.0 in
  let ZrotationDegrees : float := 118.0 in
  let positionXYZ : vec3.t := vec3.mk (-27.8) 7.5 0.9 in
  lift (SetTransformations scaleXYZ XrotationDegrees YrotationDegrees
                           ZrotationDegrees positionXYZ) ;;;
  lift (SetShaderTexture "giraffe") ;;;
  DrawTaperedCylinderMesh ;;;
  let scaleXYZ : vec3.t := vec3.mk 0.19 0.19 0.19 in
  let XrotationDegrees : float := 0.0 in
  let YrotationDegrees : float := 0.0 in
  let ZrotationDegrees : float := 0.0 in
  let positionXYZ : vec3.t := vec3.mk (-17.9) 12.8 0.5 in
  lift (SetTransformations scaleXYZ XrotationDegrees YrotationDegrees
                           ZrotationDegrees positionXYZ) ;;;
  lift (SetShaderColor 1 1 1 1) ;;;
  DrawSphereMesh ;;;
  let scaleXYZ : vec3.t := vec3.mk 0.19 0.19 0.19 in
  let XrotationDegrees : float := 0.0 in
  let YrotationDegrees : float := 0.0 in
  let ZrotationDegrees : float := 0.0 in
  let positionXYZ : vec3.t := vec3.mk (-17.9) 12.8 1.1 in
  lift (SetTransformations scaleXYZ XrotationDegrees YrotationDegrees
                           ZrotationDegrees positionXYZ) ;;;
  lift (SetShaderColor 1 1 1 1) ;;;
  DrawSphereMesh.

(** [RenderRocks()] *)
Definition RenderRocks : SM unit :=
  let XrotationDegrees : float := 0.0 in
  let YrotationDegrees : float := 0.0 in
  let ZrotationDegrees : float := 0.0 in
  let scaleXYZ : vec3.t := vec3.mk 1.3 0.7 1.5 in
  let XrotationDegrees : float := 0.0 in
  let YrotationDegrees : float := 0.0 in
  let ZrotationDegrees : float := 0.0 in
  let positionXYZ : vec3.t := vec3.mk 20.0 0.7 14.7 in
  lift (SetTransformations scaleXYZ XrotationDegrees YrotationDegrees
                           ZrotationDegrees positionXYZ) ;;;
  lift (SetShaderTexture "rock") ;;;
  local_material (SetShaderMaterial "shade") ;;;
  DrawSphereMesh ;;;
  let scaleXYZ : vec3.t := vec3.mk 1.3 0.7 1.5 in
  let XrotationDegrees : float := 0.0 in
  let YrotationDegrees : float := 0.0 in
  let ZrotationDegrees : float := 0.0 in
  let positionXYZ : vec3.t := vec3.mk 15.0 0.7 (-6.7) in
  lift (SetTransformations scaleXYZ XrotationDegrees YrotationDegrees
                           ZrotationDegrees positionXYZ) ;;;
  lift (SetShaderTexture "rock") ;;;
  local_material (SetShaderMaterial "rough") ;;;
  DrawSphereMesh ;;;
  let scaleXYZ : vec3.t := vec3.mk 1.3 0.7 1.5 in
  let XrotationDegrees : float := 0.0 in
  let YrotationDegrees : float := 0.0 in
  let ZrotationDegrees : float := 0.0 in
  let positionXYZ : vec3.t := vec3.mk (-16.0) 0.7 0.7 in
  lift (SetTransformations scaleXYZ XrotationDegrees YrotationDegrees
                           ZrotationDegrees positionXYZ) ;;;
  lift (SetShaderTexture "rock") ;;;
  local_material (SetShaderMaterial "shade") ;;;
  DrawSphereMesh ;;;
  let scaleXYZ : vec3.t := vec3.mk 1.3 0.7 1.5 in
  let XrotationDegrees : float := 0.0 in
  let YrotationDegrees : float := 0.0 in
  let ZrotationDegrees : float := 0.0 in
  let positionXYZ : vec3.t := vec3.mk (-23.0) 0.7 (-15.7) in
  lift (SetTransformations scaleXYZ XrotationDegrees YrotationDegrees
                           ZrotationDegrees positionXYZ) ;;;
  lift (SetShaderTexture "rock") ;;;
  local_material (SetShaderMaterial "shade") ;;;
  DrawSphereMesh ;;;
  let scaleXYZ : vec3.t := vec3.mk 1.3 0.7 1.5 in
  let XrotationDegrees : float := 0.0 in
  let YrotationDegrees : float := 0.0 in
  let ZrotationDegrees : float := 0.0 in
  let positionXYZ : vec3.t := vec3.mk 0.0 0.7 12.9 in
  lift (SetTransformations scaleXYZ XrotationDegrees YrotationDegrees
                           ZrotationDegrees positionXYZ) ;;;
  lift (SetShaderTexture "rock") ;;;
  local_material (SetShaderMaterial "grass") ;;;
  DrawSphereMesh.

(** [RenderScene()] *)
Definition RenderScene : SM unit :=
  let XrotationDegrees : float := 0.0 in
  let YrotationDegrees : float := 0.0 in
  let ZrotationDegrees : float := 0.0 in
  let scaleXYZ : vec3.t := vec3.mk 20.0 1.0 10.0 in
  let XrotationDegrees : float := 0.0 in
  let YrotationDegrees : float := 90.0 in
  let ZrotationDegrees : float := 0.0 in
  let positionXYZ : vec3.t := vec3.mk 0.0 0.0 0.0 in
  lift (SetTransformations scaleXYZ XrotationDegrees YrotationDegrees
                           ZrotationDegrees positionXYZ) ;;;
  lift (SetShaderTexture "path") ;;;
  local_material (SetShaderMaterial "grass") ;;;
  DrawPlaneMesh ;;;
  let scaleXYZ : vec3.t := vec3.mk 20.0 1.0 10.0 in
  let XrotationDegrees : float := 0.0 in
  let YrotationDegrees : float := 90.0 in
  let ZrotationDegrees : float := 0.0 in
  let positionXYZ : vec3.t := vec3.mk 20.0 0.0 0.0 in
  lift (SetTransformations scaleXYZ XrotationDegrees YrotationDegrees
                           ZrotationDegrees positionXYZ) ;;;
  lift (SetShaderTexture "grass") ;;;
  local_material (SetShaderMaterial "grass") ;;;
  DrawPlaneMesh ;;;
  let scaleXYZ : vec3.t := vec3.mk 20.0 1.0 10.0 in
  let XrotationDegrees : float := 0.0 in
  let YrotationDegrees : float := 90.0 in
  let ZrotationDegrees : float := 0.0 in
  let positionXYZ : vec3.t := vec3.mk (-20.0) 0.0 0.0 in
  lift (SetTransformations scaleXYZ XrotationDegrees YrotationDegrees
                           ZrotationDegrees positionXYZ) ;;;
  lift (SetShaderTexture "grass") ;;;
  local_material (SetShaderMaterial "shade") ;;;
  DrawPlaneMesh ;;;
  let scaleXYZ : vec3.t := vec3.mk 30.0 1.0 20.0 in
  let XrotationDegrees : float := 90.0 in
  let YrotationDegrees : float := 0.0 in
  let ZrotationDegrees : float := 0.0 in
  let positionXYZ : vec3.t := vec3.mk 0.0 20.0 (-20.0) in
  lift (SetTransformations scaleXYZ XrotationDegrees YrotationDegrees
                           ZrotationDegrees positionXYZ) ;;;
  lift (SetShaderTexture "sky") ;;;
  local_material (SetShaderMaterial "grass") ;;;
  DrawPlaneMesh ;;;
  RenderElephant ;;;
  RenderBabyElephant ;;;
  RenderTree ;;;
  RenderSun ;;;
  RenderPond ;;;
  RenderGiraffe ;;;
  RenderRocks.

Local Close Scope R_scope.
Local Close Scope render_scope.

(** ** Vocabulary of the scene *)

(** From a scene that satisfies [P], the command returns with a scene that
    satisfies [Q]. *)
Definition hoare (P : Scene -> Prop) (c : SM unit) (Q : Scene -> Prop) : Prop :=
  forall sc, P sc -> exists sc', c sc = Returns (tt, sc') /\ Q sc'.

(** The tags that [LoadSceneTexture] registers and the tags of the materials
    that [DefineObjectMaterials] defines. *)
Definition scene_tags : list string := map snd scene_textures.

Definition preset_tags : list string :=
  map OBJECT_MATERIAL.tag
      (presets (sample_material "" 0) (sample_material "" 0)).

Definition is_scene_tag (tag : string) : bool :=
  existsb (String.eqb tag) scene_tags.

Definition is_preset_tag (tag : string) : bool :=
  existsb (String.eqb tag) preset_tags.

(** The names of the uniforms of one draw: the model matrix, the surface
    (colour or texture) and the material. *)
Definition material_names : list string :=
  ["material.ambientColor"; "material.ambientStrength";
   "material.diffuseColor"; "material.specularColor"; "material.shininess"].

Definition render_names : list string :=
  [g_ModelName; g_UseTextureName; g_ColorValueName; g_TextureValueName]
  ++ material_names.

Definition is_render_name (name : string) : bool :=
  existsb (String.eqb name) render_names.

(** The number of writes of the uniform [name] among [ws]. *)
Definition count_writes (name : string) (ws : ShaderManager) : nat :=
  length (List.filter (fun w => String.eqb (fst w) name) ws).

(** What [SetShaderMaterial] writes for [tag] when some material is defined:
    the fields of the first material with the tag, or those of its local. *)
Definition resolved (s : State) (tag : string) (material : OBJECT_MATERIAL.t)
  : OBJECT_MATERIAL.t :=
  match first_with_tag tag (m_objectMaterials s) with
  | Some e => assign_fields e material
  | None => material
  end.

(** The uniforms [log] bind a model matrix. *)
Definition model_bound (log : ShaderManager) : Prop :=
  exists m, last_write g_ModelName log = Some (UMat4 m).

(** The uniforms [log] bind a surface: the texture mode with the slot that
    [FindTextureSlot] gives in [s] for a tag of the scene, or the colour mode
    with a colour. *)
Definition surface_bound (s : State) (log : ShaderManager) : Prop :=
  (last_write g_UseTextureName log = Some (UInt 1) /\
   exists tag, is_scene_tag tag = true /\
     last_write g_TextureValueName log
     = Some (USampler2D (position tag (registry_tags s) 0)))
  \/
  (last_write g_UseTextureName log = Some (UInt 0) /\
   exists c, last_write g_ColorValueName log = Some (UVec4 c)).

(** The uniforms [log] bind the five fields of a material, which
    [SetShaderMaterial] wrote in [s] for a tag that [DefineObjectMaterials]
    defines; nothing is asked when [s] has no material, where
    [SetShaderMaterial] writes nothing. *)
Definition material_bound (s : State) (log : ShaderManager) : Prop :=
  m_objectMaterials s <> [] ->
  exists tag material,
    is_preset_tag tag = true /\
    Forall (fun w => last_write (fst w) log = Some (snd w))
           (material_uniforms (resolved s tag material)).

(** The call is a draw made with the uniforms [sm] followed by writes of
    uniforms of a draw; these writes alone bind a model matrix, a surface
    and a material, so that nothing the draw uses is left from [sm]. *)
Definition specified (s : State) (sm : ShaderManager) (c : MeshCall) : Prop :=
  match c with
  | DrawMesh _ (Some log) =>
      exists ws,
        log = sm ++ ws /\
        Forall (fun w => is_render_name (fst w) = true) ws /\
        model_bound ws /\ surface_bound s ws /\ material_bound s ws
  | _ => False
  end.

(** The scenes that the draw sequences go through from a manager [s] with
    the uniforms [sm] and the mesh calls [ms]: [n] draws have been made, each
    of them specified; only uniforms of a draw were written, the model
    matrix and the texture mode once for each draw made, and once more when
    [tr], respectively [mo], is set; [ma] is set once a material is bound. *)
Definition rendering (s : State) (sm : ShaderManager) (ms : list MeshCall)
    (n : nat) (tr mo ma : bool) (sc : Scene) : Prop :=
  exists ws ds,
    manager sc = with_shader (Some (sm ++ ws)) s /\
    m_basicMeshes sc = ms ++ ds /\
    length ds = n /\
    Forall (specified s sm) ds /\
    count_writes g_ModelName ws = (n + Nat.b2n tr)%nat /\
    count_writes g_UseTextureName ws = (n + Nat.b2n mo)%nat /\
    Forall (fun w => is_render_name (fst w) = true) ws /\
    (tr = true -> model_bound ws) /\
    (mo = true -> surface_bound s ws) /\
    (ma = true -> material_bound s ws).

(** The draw was made in the texture mode with a registered slot, or in the
    colour mode. *)
Definition surface_resolved (s : State) (log : ShaderManager) : Prop :=
  (last_write g_UseTextureName log = Some (UInt 1) /\
   exists slot, last_write g_TextureValueName log = Some (USampler2D slot) /\
                0 <= slot < m_loadedTextures s)
  \/
  (last_write g_UseTextureName log = Some (UInt 0) /\
   exists c, last_write g_ColorValueName log = Some (UVec4 c)).

(** The draw was made with the fields of a defined material. *)
Definition material_resolved (s : State) (log : ShaderManager) : Prop :=
  exists tag k e,
    first_defined s tag k e /\
    Forall (fun w => last_write (fst w) log = Some (snd w))
           (material_uniforms e).

(** The meshes that [PrepareScene] loads, in order. *)
Definition scene_meshes : list Mesh :=
  [PlaneMesh; SphereMesh; CylinderMesh; ConeMesh; TaperedCylinderMesh;
   BoxMesh; PrismMesh].

(** The uniforms that [SetupSceneLights] writes, computed by running it on a
    shader manager that has received nothing. *)
Definition scene_lights : ShaderManager :=
  match run SetupSceneLights (initial 0 (fun _ => None)) with
  | Some s => default [] (m_pShaderManager s)
  | None => []
  end.

(** All the files of the scene decode to an image with 3 or 4 channels. *)
Definition all_loadable (fs : string -> option Image) : bool :=
  forallb (fun r => is_loadable fs (fst r)) scene_textures.

(** A scene before [PrepareScene], with room for sixteen textures, in which
    all the images of the scene decode. *)
Definition fresh_scene : Scene :=
  mkScene (initial 16 scene_files) [] (fun n => sample_material "" (INR n)).

(** The scene that [PrepareScene] makes of it. *)
Definition prepared_scene : Scene :=
  match PrepareScene fresh_scene with
  | Returns (_, sc) => sc
  | _ => fresh_scene
  end.

(** A scene whose manager has one material and no shader manager. *)
Definition unattached_scene : Scene :=
  mkScene (with_shader None
             (with_objectMaterials [sample_material "x" 1]
                                   (initial 16 scene_files)))
          [] (fun _ => sample_material "" 0).

(** A registry whose one entry holds the largest [GLuint] as its handle. *)
Definition wrapped_handle : State :=
  mkState None 1 [TEXTURE_INFO.mk (2 ^ 32 - 1) "a"] [] [] (fun _ => None).

(** The six materials of the scene, written out: tag, then ambient colour,
    ambient strength, diffuse colour, specular colour and shininess.  The
    ambient fields of "grass" and "wood" are those of [grass] and [wood]. *)
Definition scene_materials (grass wood : OBJECT_MATERIAL.t)
  : list OBJECT_MATERIAL.t :=
  [ OBJECT_MATERIAL.mk (vec3.mk 0.2 0.2 0.2) 0.4 (vec3.mk 0.3 0.3 0.2)
                       (vec3.mk 0.3 0.3 0.3) 12.0 "shiny";
    OBJECT_MATERIAL.mk (OBJECT_MATERIAL.ambientColor grass)
                       (OBJECT_MATERIAL.ambientStrength grass)
                       (vec3.mk 0.3 0.3 0.1) (vec3.mk 0.0 0.0 0.0) 0.1 "grass";
    OBJECT_MATERIAL.mk (OBJECT_MATERIAL.ambientColor wood)
                       (OBJECT_MATERIAL.ambientStrength wood)
                       (vec3.mk 0.3 0.3 0.3) (vec3.mk 0.1 0.1 0.1) 0.3 "wood";
    OBJECT_MATERIAL.mk (vec3.mk 1.8 1.8 1.8) 15.0 (vec3.mk 1.0 1.0 1.0)
                       (vec3.mk 1.0 1.0 1.0) 15.0 "sun";
    OBJECT_MATERIAL.mk (vec3.mk 0.8 0.8 0.8) 1.0 (vec3.mk 0.8 0.5 0.3)
                       (vec3.mk 0.2 0.2 0.2) 0.5 "rough";
    OBJECT_MATERIAL.mk (vec3.mk 0.02 0.0 0.0) 7.0 (vec3.mk 0.08 0.08 0.08)
                       (vec3.mk 0.02 0.02 0.02) 0.1 "shade" ].

(** The uniforms of the four lights of the scene, written out in the order
    in which they are set; the ambient colour of the first light goes to the
    name "lightSorces[0].ambientColor". *)
Definition scene_light_uniforms : ShaderManager :=
  [ ("bUseLighting", UBool true);
    ("globalAmbientColor", UVec3 (vec3.mk 0.20 0.20 0.00));
    ("lightSources[0].position", UVec3 (vec3.mk 35.0 32.0 (-1.0)));
    ("lightSorces[0].ambientColor", UVec3 (vec3.mk 1.5 1.5 0.0));
    ("lightSources[0].diffuseColor", UVec3 (vec3.mk 2.8 2.8 2.8));
    ("lightSources[0].specularColor", UVec3 (vec3.mk 5.5 5.5 5.5));
    ("lightSources[0].focalStrength", UFloat 10.0);
    ("lightSources[0].specularIntensity", UFloat 2.5);
    ("lightSources[1].position", UVec3 (vec3.mk 19.8 18.0 (-9.5)));
    ("lightSources[1].ambientColor", UVec3 (vec3.mk 0.1 0.1 0.1));
    ("lightSources[1].diffuseColor", UVec3 (vec3.mk 0.0 0.0 0.0));
    ("lightSources[1].specularColor", UVec3 (vec3.mk 0.1 0.1 0.1));
    ("lightSources[1].focalStrength", UFloat 0.1);
    ("lightSources[1].specularIntensity", UFloat 0.1);
    ("lightSources[2].position", UVec3 (vec3.mk 0.0 10.0 0.0));
    ("lightSources[2].diffuseColor", UVec3 (vec3.mk 0.6 0.6 0.6));
    ("lightSources[2].specularColor", UVec3 (vec3.mk 0.0 0.0 0.0));
    ("lightSources[2].focalStrength", UFloat 2.0);
    ("lightSources[2].specularIntensity", UFloat 3.0);
    ("lightSources[3].position", UVec3 (vec3.mk (-4.0) 6.0 0.0));
    ("lightSources[3].diffuseColor", UVec3 (vec3.mk 0.0 0.0 0.0));
    ("lightSources[3].specularColor", UVec3 (vec3.mk 0.4 0.4 0.4));
    ("lightSources[3].focalStrength", UFloat 5.0);
    ("lightSources[3].specularIntensity", UFloat 1.8) ].

(** Files in which the images of the scene decode, but for the image of the
    rocks, which is missing. *)
Definition scene_files_without_rock (name : string) : option Image :=
  if (name =? "textures/rock.jpg")%string then None else scene_files name.

(** * Properties *)

(** ** Basic facts *)

Lemma string_compare_refl (a : string) : String.compare a a = Eq.
Proof.
  pose proof (String.compare_antisym a a) as H.
  destruct (String.compare a a); simpl in H; congruence.
Qed.

Lemma compare_zero (a b : string) : (compare a b =? 0) = true <-> a = b.
Proof.
  unfold compare. split.
  - destruct (String.compare a b) eqn:E; try discriminate.
    intros _. now apply String.compare_eq_iff.
  - intros ->. now rewrite string_compare_refl.
Qed.

Lemma compare_nonzero (a b : string) : (compare a b =? 0) = false <-> a <> b.
Proof.
  rewrite <- compare_zero. destruct (compare a b =? 0); split; congruence.
Qed.

Lemma first_match_unique s tag i e j e' :
  first_match s tag i e -> first_match s tag j e' -> i = j /\ e = e'.
Proof.
  intros (Ri & Ti & Mi) (Rj & Tj & Mj).
  assert (i = j) as ->.
  { destruct (Z.lt_trichotomy i j) as [H | [H | H]]; [| assumption |].
    - exfalso. exact (Mj _ _ Ri H Ti).
    - exfalso. exact (Mi _ _ Rj H Tj). }
  split; [reflexivity |].
  destruct Ri as [_ Ri], Rj as [_ Rj]. congruence.
Qed.

Lemma first_match_not_unregistered s tag i e :
  first_match s tag i e -> unregistered s tag -> False.
Proof. intros (R & T & _) U. exact (U _ _ R T). Qed.

Lemma registered_lookup s i :
  registry_ok s -> 0 <= i < m_loadedTextures s ->
  exists e, m_textureIDs s !! Z.to_nat i = Some e.
Proof.
  intros Hok Hi. apply lookup_lt_is_Some_2. unfold registry_ok in Hok. lia.
Qed.

(** ** The lookup loop *)

Lemma while_exit {V} fuel (cond : V -> M bool) body (v : V) s :
  cond v s = Returns (false, s) -> while fuel cond body v s = Returns (v, s).
Proof. intros H. destruct fuel; simpl; unfold bind; rewrite H; reflexivity. Qed.

Lemma while_step {V} fuel (cond : V -> M bool) body (v v' : V) s :
  cond v s = Returns (true, s) ->
  body v s = Returns (v', s) ->
  while (S fuel) cond body v s = while fuel cond body v' s.
Proof. intros Hc Hb. cbn [while]. unfold bind. rewrite Hc, Hb. reflexivity. Qed.

Lemma find_cond_continue s r i :
  i < m_loadedTextures s -> find_cond (mkLocals r i false) s = Returns (true, s).
Proof.
  intros H. unfold find_cond, bind, get, ret. cbn.
  apply Z.ltb_lt in H. now rewrite H.
Qed.

Lemma find_cond_found s r i : find_cond (mkLocals r i true) s = Returns (false, s).
Proof. unfold find_cond, bind, get, ret. cbn. now rewrite andb_false_r. Qed.

Lemma find_cond_end s r i b :
  m_loadedTextures s <= i -> find_cond (mkLocals r i b) s = Returns (false, s).
Proof.
  intros H. unfold find_cond, bind, get, ret. cbn.
  apply Z.ltb_ge in H. now rewrite H.
Qed.

Lemma textureIDs_at_registered s i e :
  registered s i e -> textureIDs_at i s = Returns (e, s).
Proof.
  intros [Hi He]. unfold textureIDs_at.
  replace (i <? 0) with false by (symmetry; apply Z.ltb_ge; lia).
  now rewrite He.
Qed.

Lemma find_body_hit f tag s r i b e :
  registered s i e -> TEXTURE_INFO.tag e = tag ->
  find_body f tag (mkLocals r i b) s = Returns (mkLocals (f i e) i true, s).
Proof.
  intros R T. unfold find_body, bind. cbn [index].
  rewrite (textureIDs_at_registered _ _ _ R).
  apply compare_zero in T. now rewrite T.
Qed.

Lemma find_body_miss f tag s r i b e :
  registered s i e -> TEXTURE_INFO.tag e <> tag ->
  find_body f tag (mkLocals r i b) s = Returns (mkLocals r (i + 1) b, s).
Proof.
  intros R T. unfold find_body, bind. cbn [index].
  rewrite (textureIDs_at_registered _ _ _ R).
  apply compare_nonzero in T. now rewrite T.
Qed.

Lemma find_loop f tag s :
  registry_ok s ->
  forall fuel i,
    0 <= i ->
    m_loadedTextures s - i <= Z.of_nat fuel ->
    (forall j e', registered s j e' -> j < i -> TEXTURE_INFO.tag e' <> tag) ->
    (exists k e, first_match s tag k e /\
       while fuel find_cond (find_body f tag) (mkLocals (-1) i false) s
       = Returns (mkLocals (f k e) k true, s))
    \/
    (unregistered s tag /\
     exists i',
       while fuel find_cond (find_body f tag) (mkLocals (-1) i false) s
       = Returns (mkLocals (-1) i' false, s)).
Proof.
  intros Hok fuel. induction fuel as [| fuel IH]; intros i Hi Hfuel Hbefore.
  - right. split.
    + intros j e' R. apply (Hbefore j e' R). destruct R as [R _]. lia.
    + exists i. apply while_exit, find_cond_end. lia.
  - destruct (Z.lt_ge_cases i (m_loadedTextures s)) as [Hlt | Hge].
    + destruct (registered_lookup s i Hok (conj Hi Hlt)) as [e He].
      assert (R : registered s i e) by (split; [lia | exact He]).
      destruct (String.string_dec (TEXTURE_INFO.tag e) tag) as [Heq | Hne].
      * left. exists i, e. split.
        { split; [exact R |]. split; assumption. }
        rewrite (while_step _ _ _ _ _ _ (find_cond_continue s _ i Hlt)
                            (find_body_hit f tag s _ i _ e R Heq)).
        apply while_exit, find_cond_found.
      * rewrite (while_step _ _ _ _ _ _ (find_cond_continue s _ i Hlt)
                            (find_body_miss f tag s _ i _ e R Hne)).
        apply IH; [lia | lia |].
        intros j e' Rj Hj. destruct (Z.eq_dec j i) as [-> | Hji].
        { destruct R as [_ R], Rj as [_ Rj]. congruence. }
        { apply (Hbefore j e' Rj). lia. }
    + right. split.
      * intros j e' R. apply (Hbefore j e' R). destruct R as [R _]. lia.
      * exists i. apply while_exit, find_cond_end. lia.
Qed.

(** Both lookups return, leave the state as it is, and agree on the entry
    they select. *)
Lemma FindTextureSlot_cases tag s :
  registry_ok s ->
  (exists k e, first_match s tag k e /\ FindTextureSlot tag s = Returns (k, s))
  \/ (unregistered s tag /\ FindTextureSlot tag s = Returns (-1, s)).
Proof.
  intros Hok.
  change (FindTextureSlot tag s) with
    (match while (Z.to_nat (m_loadedTextures s)) find_cond
             (find_body (fun i _ => i) tag) (mkLocals (-1) 0 false) s with
     | Returns (v, s') => Returns (result v, s')
     | Undefined => Undefined
     | OutOfFuel => OutOfFuel
     end).
  destruct (find_loop (fun i _ => i) tag s Hok (Z.to_nat (m_loadedTextures s)) 0)
    as [(k & e & Hfm & Hrun) | (Hun & i' & Hrun)].
  - lia.
  - lia.
  - intros j e' [R _] Hj. lia.
  - left. exists k, e. now rewrite Hrun.
  - right. now rewrite Hrun.
Qed.

Lemma FindTextureID_cases tag s :
  registry_ok s ->
  (exists k e, first_match s tag k e /\
     FindTextureID tag s = Returns (int_of_GLuint (TEXTURE_INFO.ID e), s))
  \/ (unregistered s tag /\ FindTextureID tag s = Returns (-1, s)).
Proof.
  intros Hok.
  change (FindTextureID tag s) with
    (match while (Z.to_nat (m_loadedTextures s)) find_cond
             (find_body (fun _ e => int_of_GLuint (TEXTURE_INFO.ID e)) tag)
             (mkLocals (-1) 0 false) s with
     | Returns (v, s') => Returns (result v, s')
     | Undefined => Undefined
     | OutOfFuel => OutOfFuel
     end).
  destruct (find_loop (fun _ e => int_of_GLuint (TEXTURE_INFO.ID e)) tag s Hok
              (Z.to_nat (m_loadedTextures s)) 0)
    as [(k & e & Hfm & Hrun) | (Hun & i' & Hrun)].
  - lia.
  - lia.
  - intros j e' [R _] Hj. lia.
  - left. exists k, e. now rewrite Hrun.
  - right. now rewrite Hrun.
Qed.

(** The fuel the two lookups take is enough in every state: they return or
    read outside the array, and never stop for lack of fuel. *)
Lemma textureIDs_at_state i s e s' :
  textureIDs_at i s = Returns (e, s') -> s' = s.
Proof.
  unfold textureIDs_at. destruct (i <? 0); [discriminate |].
  destruct (m_textureIDs s !! Z.to_nat i); [| discriminate].
  now intros [= _ <-].
Qed.

Lemma find_loop_fuel f tag s :
  forall fuel r i,
    m_loadedTextures s - i <= Z.of_nat fuel ->
    while fuel find_cond (find_body f tag) (mkLocals r i false) s <> OutOfFuel.
Proof.
  intros fuel. induction fuel as [| fuel IH]; intros r i Hfuel.
  - rewrite while_exit; [discriminate |]. apply find_cond_end. lia.
  - destruct (Z.lt_ge_cases i (m_loadedTextures s)) as [Hlt | Hge].
    + cbn [while]. unfold bind at 1. rewrite (find_cond_continue s r i Hlt).
      unfold bind at 1, find_body, bind at 1. cbn [index result bFound].
      unfold textureIDs_at. destruct (i <? 0); [discriminate |].
      destruct (m_textureIDs s !! Z.to_nat i) as [e |]; [| discriminate].
      destruct (compare (TEXTURE_INFO.tag e) tag =? 0).
      * unfold ret at 1. rewrite while_exit; [discriminate |].
        apply find_cond_found.
      * unfold ret at 1. apply IH. lia.
    + rewrite while_exit; [discriminate |]. apply find_cond_end. lia.
Qed.

Lemma FindTextureSlot_fuel tag s : FindTextureSlot tag s <> OutOfFuel.
Proof.
  change (FindTextureSlot tag s) with
    (match while (Z.to_nat (m_loadedTextures s)) find_cond
             (find_body (fun i _ => i) tag) (mkLocals (-1) 0 false) s with
     | Returns (v, s') => Returns (result v, s')
     | Undefined => Undefined
     | OutOfFuel => OutOfFuel
     end).
  pose proof (find_loop_fuel (fun i _ => i) tag s
                (Z.to_nat (m_loadedTextures s)) (-1) 0) as H.
  destruct (while _ _ _ _ s) as [[v s'] | |]; try discriminate.
  exfalso. apply H; [lia | reflexivity].
Qed.

Lemma FindTextureID_fuel tag s : FindTextureID tag s <> OutOfFuel.
Proof.
  change (FindTextureID tag s) with
    (match while (Z.to_nat (m_loadedTextures s)) find_cond
             (find_body (fun _ e => int_of_GLuint (TEXTURE_INFO.ID e)) tag)
             (mkLocals (-1) 0 false) s with
     | Returns (v, s') => Returns (result v, s')
     | Undefined => Undefined
     | OutOfFuel => OutOfFuel
     end).
  pose proof (find_loop_fuel (fun _ e => int_of_GLuint (TEXTURE_INFO.ID e)) tag s
                (Z.to_nat (m_loadedTextures s)) (-1) 0) as H.
  destruct (while _ _ _ _ s) as [[v s'] | |]; try discriminate.
  exfalso. apply H; [lia | reflexivity].
Qed.

(** ** Texture lookups *)

(** C4. On a registry whose slot counter is within the array, for every tag
    borne by a registered entry [FindTextureSlot] returns the slot of the
    earliest registered entry bearing it; for every tag borne by none it
    returns -1, which is no registered slot; and the state it returns is the
    one it was called in. *)
Theorem FindTextureSlot_first_match_or_sentinel (s : State) (tag : string) :
  registry_ok s ->
  (forall j e', registered s j e' -> TEXTURE_INFO.tag e' = tag ->
     exists i e, first_match s tag i e /\
                 FindTextureSlot tag s = Returns (i, s)) /\
  (unregistered s tag -> FindTextureSlot tag s = Returns (-1, s)) /\
  (forall i e, registered s i e -> i <> -1).
Proof.
  intros Hok. split; [| split].
  - intros j e' R T.
    destruct (FindTextureSlot_cases tag s Hok) as [(k & e & Hfm & Hrun) | (Hun & _)].
    + exists k, e. split; assumption.
    + exfalso. exact (Hun j e' R T).
  - intros Hun.
    destruct (FindTextureSlot_cases tag s Hok) as [(k & e & Hfm & _) | (_ & Hrun)].
    + exfalso. exact (first_match_not_unregistered _ _ _ _ Hfm Hun).
    + exact Hrun.
  - intros i e [Hi _]. lia.
Qed.

Lemma two_textures_ok : registry_ok two_textures.
Proof. unfold registry_ok. cbn. lia. Defined.

Lemma FindTextureSlot_first_match_or_sentinel_witness :
  registry_ok two_textures /\
  ((forall j e', registered two_textures j e' -> TEXTURE_INFO.tag e' = "b" ->
      exists i e, first_match two_textures "b" i e /\
                  FindTextureSlot "b" two_textures = Returns (i, two_textures)) /\
   (unregistered two_textures "b" ->
      FindTextureSlot "b" two_textures = Returns (-1, two_textures)) /\
   (forall i e, registered two_textures i e -> i <> -1)).
Proof.
  split.
  - exact two_textures_ok.
  - apply (FindTextureSlot_first_match_or_sentinel two_textures "b").
    exact two_textures_ok.
Defined.

(** The lookups read only the slot counter and the entries. *)
Lemma registered_with_shader sm s i e :
  registered (with_shader sm s) i e <-> registered s i e.
Proof. reflexivity. Qed.

Lemma FindTextureSlot_with_shader sm tag s slot :
  registry_ok s ->
  FindTextureSlot tag s = Returns (slot, s) ->
  FindTextureSlot tag (with_shader sm s) = Returns (slot, with_shader sm s).
Proof.
  intros Hok Hrun.
  assert (Hok' : registry_ok (with_shader sm s)) by exact Hok.
  destruct (FindTextureSlot_cases tag s Hok) as [(k & e & Hfm & Hk) | (Hun & Hk)];
    destruct (FindTextureSlot_cases tag _ Hok')
      as [(k' & e' & Hfm' & Hk') | (Hun' & Hk')];
    rewrite Hk in Hrun; injection Hrun as <-; rewrite Hk'.
  - destruct (first_match_unique _ _ _ _ _ _ Hfm Hfm') as [-> _]. reflexivity.
  - exfalso. exact (first_match_not_unregistered _ _ _ _ Hfm Hun').
  - exfalso. exact (first_match_not_unregistered _ _ _ _ Hfm' Hun).
  - reflexivity.
Qed.

(** C9. On a registry whose slot counter is within the array,
    [SetShaderTexture] returns for every tag; with a shader manager attached
    it writes bUseTexture = 1 and then the slot that [FindTextureSlot] gives
    for the tag as objectTexture, which is -1 when no registered entry bears
    the tag; without one it writes nothing. *)
Theorem SetShaderTexture_writes_resolved_slot (s : State) (textureTag : string) :
  registry_ok s ->
  exists slot,
    FindTextureSlot textureTag s = Returns (slot, s) /\
    (unregistered s textureTag -> slot = -1) /\
    SetShaderTexture textureTag s =
      Returns (tt,
        match m_pShaderManager s with
        | Some sm =>
            with_shader (Some (sm ++ [("bUseTexture", UInt 1);
                                      ("objectTexture", USampler2D slot)])) s
        | None => s
        end).
Proof.
  intros Hok.
  assert (exists slot, FindTextureSlot textureTag s = Returns (slot, s) /\
                       (unregistered s textureTag -> slot = -1))
    as (slot & Hslot & Hsentinel).
  { destruct (FindTextureSlot_cases textureTag s Hok)
      as [(k & e & Hfm & Hk) | (Hun & Hk)].
    - exists k. split; [exact Hk |]. intros Hun. exfalso.
      exact (first_match_not_unregistered _ _ _ _ Hfm Hun).
    - exists (-1). split; [exact Hk | reflexivity]. }
  exists slot. split; [exact Hslot |]. split; [exact Hsentinel |].
  unfold SetShaderTexture, bind, get. destruct (m_pShaderManager s) as [sm |] eqn:Hsm.
  - unfold setIntValue, shader_set at 1. rewrite Hsm.
    rewrite (FindTextureSlot_with_shader _ _ _ _ Hok Hslot).
    unfold setSampler2DValue, shader_set. cbn.
    unfold with_shader. cbn. rewrite <- app_assoc. reflexivity.
  - reflexivity.
Qed.

Lemma SetShaderTexture_writes_resolved_slot_witness :
  registry_ok two_textures /\
  exists slot,
    FindTextureSlot "b" two_textures = Returns (slot, two_textures) /\
    (unregistered two_textures "b" -> slot = -1) /\
    SetShaderTexture "b" two_textures =
      Returns (tt,
        match m_pShaderManager two_textures with
        | Some sm =>
            with_shader (Some (sm ++ [("bUseTexture", UInt 1);
                                      ("objectTexture", USampler2D slot)]))
                        two_textures
        | None => two_textures
        end).
Proof.
  split.
  - exact two_textures_ok.
  - apply (SetShaderTexture_writes_resolved_slot two_textures "b").
    exact two_textures_ok.
Defined.

Lemma int_of_GLuint_small (u : Z) : 0 <= u < 2 ^ 31 -> int_of_GLuint u = u.
Proof. intros H. unfold int_of_GLuint. rewrite Z.mod_small; lia. Qed.

(** C10. On a registry whose slot counter is within the array and whose
    handles are distinct non-negative [int]s, both lookups return and select
    the same entry: for every registered slot [k], [FindTextureSlot] returns
    [k] exactly when [FindTextureID] returns the handle stored at [k]; the
    earliest entry bearing the tag gives both results; and each of them is -1
    exactly when no registered entry bears the tag. *)
Theorem FindTextureID_agrees_with_FindTextureSlot (s : State) (tag : string) :
  registry_ok s -> handles_ok s -> handles_distinct s ->
  exists slot id,
    FindTextureSlot tag s = Returns (slot, s) /\
    FindTextureID tag s = Returns (id, s) /\
    (forall k e, registered s k e -> (slot = k <-> id = TEXTURE_INFO.ID e)) /\
    (forall k e, first_match s tag k e -> slot = k /\ id = TEXTURE_INFO.ID e) /\
    (slot = -1 <-> unregistered s tag) /\
    (id = -1 <-> unregistered s tag).
Proof.
  intros Hok Hh Hd.
  destruct (FindTextureSlot_cases tag s Hok) as [(k & e & Hfm & Hk) | (Hun & Hk)];
    destruct (FindTextureID_cases tag s Hok)
      as [(k' & e' & Hfm' & Hk') | (Hun' & Hk')];
    try (exfalso; eapply first_match_not_unregistered; eassumption).
  - destruct (first_match_unique _ _ _ _ _ _ Hfm Hfm') as [<- <-].
    pose proof Hfm as (R & T & _).
    rewrite (int_of_GLuint_small _ (Hh _ _ R)) in Hk'.
    exists k, (TEXTURE_INFO.ID e).
    split; [exact Hk |]. split; [exact Hk' |].
    split; [| split; [| split]].
    + intros j ej Rj. split.
      * intros <-. destruct R as [_ R], Rj as [_ Rj]. congruence.
      * intros Heq. exact (Hd _ _ _ _ R Rj Heq).
    + intros j ej Hj.
      destruct (first_match_unique _ _ _ _ _ _ Hfm Hj) as [<- <-].
      split; reflexivity.
    + split.
      * intros ->. destruct R as [R _]. lia.
      * intros Hun. exfalso.
        exact (first_match_not_unregistered _ _ _ _ Hfm Hun).
    + split.
      * intros Hid. pose proof (Hh _ _ R). lia.
      * intros Hun. exfalso.
        exact (first_match_not_unregistered _ _ _ _ Hfm Hun).
  - exists (-1), (-1).
    split; [exact Hk |]. split; [exact Hk' |].
    split; [| split; [| split]].
    + intros j ej Rj. split.
      * intros <-. destruct Rj as [Rj _]. lia.
      * intros Hid. pose proof (Hh _ _ Rj). lia.
    + intros j ej Hj. exfalso.
      exact (first_match_not_unregistered _ _ _ _ Hj Hun).
    + split; [intros _; exact Hun | reflexivity].
    + split; [intros _; exact Hun | reflexivity].
Qed.

Lemma two_textures_registered i e :
  registered two_textures i e ->
  (i = 0 /\ e = TEXTURE_INFO.mk 1 "a") \/ (i = 1 /\ e = TEXTURE_INFO.mk 2 "b").
Proof.
  intros [Hi He]. cbn in Hi.
  assert (i = 0 \/ i = 1) as [-> | ->] by lia; cbn in He;
    injection He as <-; [left | right]; split; reflexivity.
Defined.

Lemma two_textures_handles_ok : handles_ok two_textures.
Proof.
  intros i e R.
  destruct (two_textures_registered i e R) as [[_ ->] | [_ ->]]; cbn; lia.
Defined.

Lemma two_textures_handles_distinct : handles_distinct two_textures.
Proof.
  intros i j ei ej Ri Rj.
  destruct (two_textures_registered i ei Ri) as [[-> ->] | [-> ->]];
    destruct (two_textures_registered j ej Rj) as [[-> ->] | [-> ->]];
    cbn; intros H; try reflexivity; discriminate H.
Defined.

Lemma FindTextureID_agrees_with_FindTextureSlot_witness :
  registry_ok two_textures /\ handles_ok two_textures /\
  handles_distinct two_textures /\
  exists slot id,
    FindTextureSlot "b" two_textures = Returns (slot, two_textures) /\
    FindTextureID "b" two_textures = Returns (id, two_textures) /\
    (forall k e, registered two_textures k e ->
                 (slot = k <-> id = TEXTURE_INFO.ID e)) /\
    (forall k e, first_match two_textures "b" k e ->
                 slot = k /\ id = TEXTURE_INFO.ID e) /\
    (slot = -1 <-> unregistered two_textures "b") /\
    (id = -1 <-> unregistered two_textures "b").
Proof.
  split; [exact two_textures_ok |].
  split; [exact two_textures_handles_ok |].
  split; [exact two_textures_handles_distinct |].
  apply (FindTextureID_agrees_with_FindTextureSlot two_textures "b").
  - exact two_textures_ok.
  - exact two_textures_handles_ok.
  - exact two_textures_handles_distinct.
Defined.

(** Why the handles are required to be representable as [int]: the handle
    [2^32 - 1], which no load of this model generates, reads as the sentinel
    once [FindTextureID] has converted it. *)
Example FindTextureID_largest_handle :
  FindTextureID "a"
    (mkState None 1 [TEXTURE_INFO.mk (2 ^ 32 - 1) "a"] [] [] (fun _ => None))
  = Returns (-1, mkState None 1 [TEXTURE_INFO.mk (2 ^ 32 - 1) "a"] [] []
                         (fun _ => None)).
Proof. reflexivity. Qed.

(** C10 as stated, without the bound on the handles: at [wrapped_handle] the
    slot counter is within the array and the one handle is distinct, the tag
    "a" is registered at slot 0 and [FindTextureSlot] returns 0, while
    [FindTextureID] returns -1, which is not the handle stored at slot 0 and
    is the result for a tag that no entry bears. *)
Lemma FindTextureID_agrees_with_FindTextureSlot_counterexample :
  registry_ok wrapped_handle /\ handles_distinct wrapped_handle /\
  ~ exists slot id,
      FindTextureSlot "a" wrapped_handle = Returns (slot, wrapped_handle) /\
      FindTextureID "a" wrapped_handle = Returns (id, wrapped_handle) /\
      (forall k e, registered wrapped_handle k e ->
                   (slot = k <-> id = TEXTURE_INFO.ID e)) /\
      (forall k e, first_match wrapped_handle "a" k e ->
                   slot = k /\ id = TEXTURE_INFO.ID e) /\
      (slot = -1 <-> unregistered wrapped_handle "a") /\
      (id = -1 <-> unregistered wrapped_handle "a").
Proof.
  assert (R : registered wrapped_handle 0 (TEXTURE_INFO.mk (2 ^ 32 - 1) "a")).
  { split; [cbn; lia | reflexivity]. }
  split; [unfold registry_ok; cbn; lia |]. split.
  - intros i j ei ej [Hi _] [Hj _] _. cbn in Hi, Hj. lia.
  - intros (slot & id & _ & Hid & _ & _ & _ & Hun).
    assert (Hrun : FindTextureID "a" wrapped_handle
                   = Returns (-1, wrapped_handle)) by reflexivity.
    rewrite Hrun in Hid. injection Hid as <-.
    apply (proj1 Hun eq_refl 0 _ R). reflexivity.
Qed.

(** ** Material lookups *)

Lemma first_defined_unique s tag i e j e' :
  first_defined s tag i e -> first_defined s tag j e' -> i = j /\ e = e'.
Proof.
  intros (Ri & Ti & Mi) (Rj & Tj & Mj).
  assert (i = j) as ->.
  { destruct (Nat.lt_trichotomy i j) as [H | [H | H]]; [| assumption |].
    - exfalso. exact (Mj _ _ H Ri Ti).
    - exfalso. exact (Mi _ _ H Rj Tj). }
  split; [reflexivity |]. unfold defined in *. congruence.
Qed.

Lemma first_defined_not_never s tag i e :
  first_defined s tag i e -> never_defined s tag -> False.
Proof. intros (R & T & _) U. exact (U _ _ R T). Qed.

Lemma objectMaterials_at_defined s k e :
  defined s k e -> objectMaterials_at (Z.of_nat k) s = Returns (e, s).
Proof.
  intros He. unfold objectMaterials_at.
  replace (Z.of_nat k <? 0) with false by (symmetry; apply Z.ltb_ge; lia).
  rewrite Nat2Z.id. unfold defined in He. now rewrite He.
Qed.

Lemma material_cond_continue s k m :
  (k < length (m_objectMaterials s))%nat ->
  material_cond (mkMaterialLocals (Z.of_nat k) false m) s = Returns (true, s).
Proof.
  intros H. unfold material_cond, bind, get, ret. cbn.
  replace (Z.of_nat k <? Z.of_nat (length (m_objectMaterials s))) with true
    by (symmetry; apply Z.ltb_lt; lia).
  reflexivity.
Qed.

Lemma material_cond_found s i m :
  material_cond (mkMaterialLocals i true m) s = Returns (false, s).
Proof. unfold material_cond, bind, get, ret. cbn. now rewrite andb_false_r. Qed.

Lemma material_cond_end s i b m :
  Z.of_nat (length (m_objectMaterials s)) <= i ->
  material_cond (mkMaterialLocals i b m) s = Returns (false, s).
Proof.
  intros H. unfold material_cond, bind, get, ret. cbn.
  apply Z.ltb_ge in H. now rewrite H.
Qed.

Lemma material_body_hit tag s k b m e :
  defined s k e -> OBJECT_MATERIAL.tag e = tag ->
  material_body tag (mkMaterialLocals (Z.of_nat k) b m) s
  = Returns (mkMaterialLocals (Z.of_nat k) true (assign_fields e m), s).
Proof.
  intros R T. unfold material_body, bind. cbn [mindex].
  rewrite (objectMaterials_at_defined _ _ _ R).
  apply compare_zero in T. now rewrite T.
Qed.

Lemma material_body_miss tag s k b m e :
  defined s k e -> OBJECT_MATERIAL.tag e <> tag ->
  material_body tag (mkMaterialLocals (Z.of_nat k) b m) s
  = Returns (mkMaterialLocals (Z.of_nat (S k)) b m, s).
Proof.
  intros R T. unfold material_body, bind. cbn [mindex].
  rewrite (objectMaterials_at_defined _ _ _ R).
  apply compare_nonzero in T. rewrite T. unfold ret. cbn [mFound material].
  now rewrite Nat2Z.inj_succ.
Qed.

Lemma material_loop tag s m :
  forall fuel k,
    (length (m_objectMaterials s) - k <= fuel)%nat ->
    (forall j e', (j < k)%nat -> defined s j e' -> OBJECT_MATERIAL.tag e' <> tag) ->
    (exists i e, first_defined s tag i e /\
       while fuel material_cond (material_body tag)
             (mkMaterialLocals (Z.of_nat k) false m) s
       = Returns (mkMaterialLocals (Z.of_nat i) true (assign_fields e m), s))
    \/
    (never_defined s tag /\
     exists i',
       while fuel material_cond (material_body tag)
             (mkMaterialLocals (Z.of_nat k) false m) s
       = Returns (mkMaterialLocals i' false m, s)).
Proof.
  intros fuel. induction fuel as [| fuel IH]; intros k Hfuel Hbefore.
  - right. split.
    + intros j e' R. apply (Hbefore j e'); [| exact R].
      apply lookup_lt_Some in R. lia.
    + eexists. apply while_exit, material_cond_end. lia.
  - destruct (Nat.lt_ge_cases k (length (m_objectMaterials s))) as [Hlt | Hge].
    + destruct (lookup_lt_is_Some_2 _ _ Hlt) as [e He].
      destruct (String.string_dec (OBJECT_MATERIAL.tag e) tag) as [Heq | Hne].
      * left. exists k, e. split.
        { split; [exact He |]. split; assumption. }
        rewrite (while_step _ _ _ _ _ _ (material_cond_continue s k m Hlt)
                            (material_body_hit tag s k _ m e He Heq)).
        apply while_exit, material_cond_found.
      * rewrite (while_step _ _ _ _ _ _ (material_cond_continue s k m Hlt)
                            (material_body_miss tag s k _ m e He Hne)).
        apply IH; [lia |].
        intros j e' Hj Rj. destruct (Nat.eq_dec j k) as [-> | Hjk].
        { unfold defined in Rj. congruence. }
        { apply (Hbefore j e'); [lia | exact Rj]. }
    + right. split.
      * intros j e' R. apply (Hbefore j e'); [| exact R].
        apply lookup_lt_Some in R. lia.
      * eexists. apply while_exit, material_cond_end. lia.
Qed.

(** What [FindMaterial] returns, in every state: the state is unchanged, the
    result is [false] only for the empty registry, and the referenced
    material is assigned from the first entry with the tag, if any. *)
Lemma FindMaterial_cases tag m s :
  (m_objectMaterials s = [] /\ FindMaterial tag m s = Returns ((false, m), s))
  \/ (m_objectMaterials s <> [] /\
      exists i e, first_defined s tag i e /\
        FindMaterial tag m s = Returns ((true, assign_fields e m), s))
  \/ (m_objectMaterials s <> [] /\ never_defined s tag /\
      FindMaterial tag m s = Returns ((true, m), s)).
Proof.
  destruct (m_objectMaterials s) as [| e0 l] eqn:Hl.
  - left. split; [reflexivity |]. unfold FindMaterial, bind, get. now rewrite Hl.
  - right.
    assert (Hrun : FindMaterial tag m s =
      match while (length (m_objectMaterials s)) material_cond
                  (material_body tag) (mkMaterialLocals 0 false m) s with
      | Returns (v, s') => Returns ((true, material v), s')
      | Undefined => Undefined
      | OutOfFuel => OutOfFuel
      end).
    { unfold FindMaterial, bind at 1, get. rewrite Hl.
      cbn [length]. rewrite Nat2Z.id.
      replace (Z.of_nat (S (length l)) =? 0) with false
        by (symmetry; apply Z.eqb_neq; lia).
      reflexivity. }
    destruct (material_loop tag s m (length (m_objectMaterials s)) 0)
      as [(i & e & Hfd & Hw) | (Hnd & i' & Hw)].
    + lia.
    + intros j e' Hj. lia.
    + left. split; [discriminate |]. exists i, e.
      split; [exact Hfd |]. rewrite Hrun.
      change (Z.of_nat 0) with 0 in Hw. now rewrite Hw.
    + right. split; [discriminate |]. split; [exact Hnd |].
      rewrite Hrun. change (Z.of_nat 0) with 0 in Hw. now rewrite Hw.
Qed.

Lemma first_with_tag_Some tag l e :
  first_with_tag tag l = Some e ->
  exists k, l !! k = Some e /\ OBJECT_MATERIAL.tag e = tag /\
    forall j e', (j < k)%nat -> l !! j = Some e' -> OBJECT_MATERIAL.tag e' <> tag.
Proof.
  induction l as [| a l IH]; cbn [first_with_tag]; [discriminate |].
  destruct (String.eqb_spec (OBJECT_MATERIAL.tag a) tag) as [Heq | Hne].
  - intros [= ->]. exists 0%nat. split; [reflexivity |]. split; [exact Heq |].
    intros j e' Hj. lia.
  - intros H. destruct (IH H) as (k & Hk & Ht & Hm).
    exists (S k). split; [exact Hk |]. split; [exact Ht |].
    intros [| j] e' Hj Hl.
    + cbn in Hl. injection Hl as <-. exact Hne.
    + apply (Hm j e'); [lia | exact Hl].
Qed.

Lemma first_with_tag_None tag l :
  first_with_tag tag l = None ->
  forall j e', l !! j = Some e' -> OBJECT_MATERIAL.tag e' <> tag.
Proof.
  induction l as [| a l IH]; cbn [first_with_tag]; intros H j e' Hl.
  - discriminate Hl.
  - destruct (String.eqb_spec (OBJECT_MATERIAL.tag a) tag) as [Heq | Hne];
      [discriminate H |].
    destruct j as [| j].
    + cbn in Hl. injection Hl as <-. exact Hne.
    + exact (IH H j e' Hl).
Qed.

Lemma first_with_tag_app tag l1 l2 :
  first_with_tag tag (l1 ++ l2) =
  match first_with_tag tag l1 with
  | Some e => Some e
  | None => first_with_tag tag l2
  end.
Proof.
  induction l1 as [| a l1 IH]; cbn [first_with_tag app]; [reflexivity |].
  destruct (String.eqb (OBJECT_MATERIAL.tag a) tag); [reflexivity | exact IH].
Qed.

Lemma first_with_tag_absent tag l :
  (forall e, e ∈ l -> OBJECT_MATERIAL.tag e <> tag) ->
  first_with_tag tag l = None.
Proof.
  induction l as [| a l IH]; intros H; cbn [first_with_tag]; [reflexivity |].
  destruct (String.eqb_spec (OBJECT_MATERIAL.tag a) tag) as [Heq | Hne].
  - exfalso. apply (H a); [left | exact Heq].
  - apply IH. intros e He. apply H. now right.
Qed.

(** [FindMaterial] as a function of the list of definitions. *)
Lemma FindMaterial_value tag m s :
  FindMaterial tag m s =
  Returns ((match m_objectMaterials s with [] => false | _ => true end,
            match first_with_tag tag (m_objectMaterials s) with
            | Some e => assign_fields e m
            | None => m
            end), s).
Proof.
  destruct (FindMaterial_cases tag m s)
    as [(Hl & Hrun) | [(Hl & i & e & Hfd & Hrun) | (Hl & Hnd & Hrun)]];
    rewrite Hrun.
  - rewrite Hl. reflexivity.
  - destruct (m_objectMaterials s) as [| a l] eqn:El; [congruence |].
    destruct (first_with_tag tag (a :: l)) as [e' |] eqn:Ef.
    + apply first_with_tag_Some in Ef as (k & Hk & Ht & Hm).
      assert (Hfd' : first_defined s tag k e').
      { unfold first_defined, defined. rewrite El. repeat split; assumption. }
      destruct (first_defined_unique _ _ _ _ _ _ Hfd Hfd') as [_ <-].
      reflexivity.
    + exfalso. destruct Hfd as (Hd & Ht & _). unfold defined in Hd.
      rewrite El in Hd. exact (first_with_tag_None _ _ Ef _ _ Hd Ht).
  - destruct (m_objectMaterials s) as [| a l] eqn:El; [congruence |].
    destruct (first_with_tag tag (a :: l)) as [e' |] eqn:Ef; [| reflexivity].
    exfalso. apply first_with_tag_Some in Ef as (k & Hk & Ht & _).
    apply (Hnd k e'); [| exact Ht]. unfold defined. now rewrite El.
Qed.

(** C1. Evaluation at a registry that holds the one material "x": the lookup
    of the tag "y", which was never defined, leaves the referenced material
    and the state as they were and returns [true]. *)
Theorem FindMaterial_unregistered_tag_returns_true :
  let s := with_objectMaterials [sample_material "x" 1]
                                (initial 16 sample_files) in
  let material := sample_material "" 7 in
  FindMaterial "y" material s = Returns ((true, material), s).
Proof. intros s material. rewrite FindMaterial_value. reflexivity. Qed.

(** For a tag that was never defined the result is [false] exactly on the
    empty registry; material and state are never changed. *)
Lemma FindMaterial_never_defined tag m s :
  never_defined s tag ->
  FindMaterial tag m s =
  Returns ((match m_objectMaterials s with [] => false | _ => true end, m), s).
Proof.
  intros Hnd. rewrite FindMaterial_value.
  destruct (first_with_tag tag (m_objectMaterials s)) as [e |] eqn:Ef;
    [| reflexivity].
  exfalso. apply first_with_tag_Some in Ef as (k & Hk & Ht & _).
  exact (Hnd k e Hk Ht).
Qed.

(** C6. When a material [m1] with a tag not defined before, and later a
    material [m2] with the same tag, have been appended to the registry,
    every lookup of the tag assigns the fields of [m1]; and no lookup of any
    tag depends on [m2]: putting any other material of that tag in its place
    changes no result. *)
Theorem FindMaterial_first_definition_wins
    (s : State) (tag : string) (pre mid post : list OBJECT_MATERIAL.t)
    (m1 m2 : OBJECT_MATERIAL.t) :
  m_objectMaterials s = pre ++ m1 :: mid ++ m2 :: post ->
  (forall e, e ∈ pre -> OBJECT_MATERIAL.tag e <> tag) ->
  OBJECT_MATERIAL.tag m1 = tag ->
  OBJECT_MATERIAL.tag m2 = tag ->
  (forall material,
     FindMaterial tag material s = Returns ((true, assign_fields m1 material), s))
  /\
  (forall tag' material m2',
     OBJECT_MATERIAL.tag m2' = tag ->
     value (FindMaterial tag' material)
           (with_objectMaterials (pre ++ m1 :: mid ++ m2' :: post) s)
     = value (FindMaterial tag' material) s).
Proof.
  intros Hl Hpre H1 H2. split.
  - intros material. rewrite FindMaterial_value, Hl.
    rewrite first_with_tag_app, (first_with_tag_absent _ _ Hpre).
    cbn [first_with_tag]. apply String.eqb_eq in H1. rewrite H1.
    destruct pre; reflexivity.
  - intros tag' material m2' H2'.
    unfold value. rewrite !FindMaterial_value.
    cbn [m_objectMaterials with_objectMaterials]. rewrite Hl.
    replace (first_with_tag tag' (pre ++ m1 :: mid ++ m2' :: post))
      with (first_with_tag tag' (pre ++ m1 :: mid ++ m2 :: post)).
    { destruct pre; reflexivity. }
    rewrite !first_with_tag_app. destruct (first_with_tag tag' pre); [reflexivity |].
    cbn [first_with_tag].
    destruct (String.eqb_spec (OBJECT_MATERIAL.tag m1) tag') as [E1 | N1];
      [reflexivity |].
    rewrite !first_with_tag_app.
    destruct (first_with_tag tag' mid); [reflexivity |].
    cbn [first_with_tag].
    replace (String.eqb (OBJECT_MATERIAL.tag m2) tag') with false
      by (symmetry; apply String.eqb_neq; congruence).
    replace (String.eqb (OBJECT_MATERIAL.tag m2') tag') with false
      by (symmetry; apply String.eqb_neq; congruence).
    reflexivity.
Qed.

Lemma FindMaterial_first_definition_wins_witness :
  (forall material,
     FindMaterial "x" material defined_twice
     = Returns ((true, assign_fields (sample_material "x" 1) material),
                defined_twice))
  /\
  (forall tag' material m2',
     OBJECT_MATERIAL.tag m2' = "x" ->
     value (FindMaterial tag' material)
           (with_objectMaterials
              ([] ++ sample_material "x" 1 :: [] ++ m2' :: []) defined_twice)
     = value (FindMaterial tag' material) defined_twice).
Proof.
  apply (FindMaterial_first_definition_wins defined_twice "x" [] [] []
           (sample_material "x" 1) (sample_material "x" 2)).
  - reflexivity.
  - intros e He. inversion He.
  - reflexivity.
  - reflexivity.
Defined.

(** [DefineObjectMaterials] defines six materials with six different tags,
    so that none of them hides another. *)
Example DefineObjectMaterials_tags (grassMaterial woodMaterial : OBJECT_MATERIAL.t) :
  option_map (fun s => map OBJECT_MATERIAL.tag (m_objectMaterials s))
             (run (DefineObjectMaterials grassMaterial woodMaterial)
                  (initial 16 sample_files))
  = Some ["shiny"; "grass"; "wood"; "sun"; "rough"; "shade"].
Proof. reflexivity. Qed.

(** The example of the specification: "x" with shininess 1, then "x" with
    shininess 2; the lookup of "x" gives shininess 1. *)
Example FindMaterial_duplicate_example :
  option_map (fun r => OBJECT_MATERIAL.shininess (snd r))
             (value (FindMaterial "x" (sample_material "" 0)) defined_twice)
  = Some 1%R.
Proof. reflexivity. Qed.

(** ** Pushing a material *)

(** [SetShaderMaterial] as a function of the registry: nothing happens on the
    empty registry; otherwise five uniforms are written, from the first
    entry with the tag or, when there is none, from the local [material] as
    it was declared. *)
Lemma SetShaderMaterial_value tag material s :
  SetShaderMaterial tag material s =
  match m_objectMaterials s with
  | [] => Returns (tt, s)
  | _ :: _ =>
      match m_pShaderManager s with
      | Some sm =>
          Returns (tt,
            with_shader
              (Some (sm ++ material_uniforms
                             match first_with_tag tag (m_objectMaterials s) with
                             | Some e => assign_fields e material
                             | None => material
                             end)) s)
      | None => Undefined
      end
  end.
Proof.
  unfold SetShaderMaterial, bind at 1, get.
  destruct (m_objectMaterials s) as [| a l] eqn:El; [reflexivity |].
  replace (0 <? Z.of_nat (length (a :: l))) with true
    by (symmetry; apply Z.ltb_lt; cbn [length]; lia).
  unfold bind at 1. rewrite FindMaterial_value, El. cbn [fst snd eqb].
  set (m := match first_with_tag tag (a :: l) with
            | Some e => assign_fields e material
            | None => material
            end).
  unfold setVec3Value, setFloatValue, bind, shader_set.
  destruct (m_pShaderManager s) as [sm |] eqn:Hsm; [| reflexivity].
  cbn. unfold with_shader. cbn. unfold material_uniforms.
  repeat rewrite <- app_assoc. reflexivity.
Qed.

(** C2. Evaluation at a registry that holds the one material "x", with a
    shader manager that has received nothing: pushing the tag "y", which
    does not resolve, writes the five material uniforms, with the contents
    of the uninitialised local. *)
Theorem SetShaderMaterial_unresolved_tag_writes_uniforms :
  let s := with_objectMaterials [sample_material "x" 1]
                                (initial 16 sample_files) in
  let material := sample_material "" 7 in
  SetShaderMaterial "y" material s =
  Returns (tt, with_shader (Some (material_uniforms material)) s).
Proof. intros s material. rewrite SetShaderMaterial_value. reflexivity. Qed.

(** For a tag that resolves, the five fields of the first entry with the tag
    are written, and nothing else. *)
Lemma SetShaderMaterial_resolved tag material s sm k e :
  m_pShaderManager s = Some sm ->
  first_defined s tag k e ->
  SetShaderMaterial tag material s =
  Returns (tt, with_shader (Some (sm ++ material_uniforms e)) s).
Proof.
  intros Hsm Hfd. rewrite SetShaderMaterial_value, Hsm.
  destruct (m_objectMaterials s) as [| a l] eqn:El.
  - destruct Hfd as (Hd & _). unfold defined in Hd. rewrite El in Hd.
    discriminate Hd.
  - destruct (first_with_tag tag (a :: l)) as [e' |] eqn:Ef.
    + apply first_with_tag_Some in Ef as (k' & Hk & Ht & Hm).
      assert (Hfd' : first_defined s tag k' e').
      { unfold first_defined, defined. rewrite El. repeat split; assumption. }
      destruct (first_defined_unique _ _ _ _ _ _ Hfd Hfd') as [_ <-].
      reflexivity.
    + exfalso. destruct Hfd as (Hd & Ht & _). unfold defined in Hd.
      rewrite El in Hd. exact (first_with_tag_None _ _ Ef _ _ Hd Ht).
Qed.

(** On the empty registry nothing is written. *)
Lemma SetShaderMaterial_empty tag material s :
  m_objectMaterials s = [] -> SetShaderMaterial tag material s = Returns (tt, s).
Proof. intros H. rewrite SetShaderMaterial_value, H. reflexivity. Qed.

(** ** Loading a texture *)

Lemma bind_ret {A B} (a : A) (k : A -> M B) s : bind (ret a) k s = k a s.
Proof. reflexivity. Qed.

Lemma bind_get {A B} (f : State -> A) (k : A -> M B) s :
  bind (get f) k s = k (f s) s.
Proof. reflexivity. Qed.

Lemma bind_modify {B} (f : State -> State) (k : unit -> M B) s :
  bind (modify f) k s = k tt (f s).
Proof. reflexivity. Qed.

Lemma bind_call {B} (c : ExternCall) (k : unit -> M B) s :
  bind (call c) k s = k tt (with_calls (calls s ++ [c]) s).
Proof. reflexivity. Qed.

Lemma bind_bind {A B C} (m : M A) (f : A -> M B) (g : B -> M C) s :
  bind (bind m f) g s = bind m (fun x => bind (f x) g) s.
Proof. unfold bind. destruct (m s) as [[a s'] | |]; reflexivity. Qed.

Lemma with_calls_twice c c' s : with_calls c (with_calls c' s) = with_calls c s.
Proof. reflexivity. Qed.

Lemma calls_with_calls c s : calls (with_calls c s) = c.
Proof. reflexivity. Qed.

Lemma files_with_calls c s : files (with_calls c s) = files s.
Proof. reflexivity. Qed.

Lemma loadedTextures_with_calls c s :
  m_loadedTextures (with_calls c s) = m_loadedTextures s.
Proof. reflexivity. Qed.

Ltac step_calls :=
  repeat (rewrite bind_call, ?with_calls_twice, ?calls_with_calls).

Lemma CreateGLTexture_undecodable s filename tag :
  files s filename = None ->
  CreateGLTexture filename tag s =
  Returns (false,
           with_calls (calls s ++ [stbi_set_flip_vertically_on_load true]) s).
Proof.
  intros Hf. unfold CreateGLTexture.
  rewrite bind_call, bind_get, files_with_calls, Hf. reflexivity.
Qed.

Lemma live_textures_snoc c x :
  live_textures (c ++ [x]) = live_step (live_textures c) x.
Proof. unfold live_textures. now rewrite fold_left_app. Qed.

Lemma CreateGLTexture_unsupported s filename tag img :
  files s filename = Some img ->
  colorChannels img <> 3 -> colorChannels img <> 4 ->
  exists cs,
    CreateGLTexture filename tag s = Returns (false, with_calls cs s) /\
    live_textures cs =
    live_textures (calls s) ++
      [fresh_texture_name (calls s ++ [stbi_set_flip_vertically_on_load true])].
Proof.
  intros Hf H3 H4. apply Z.eqb_neq in H3, H4.
  unfold CreateGLTexture.
  rewrite bind_call, bind_get, files_with_calls, Hf.
  rewrite bind_get, calls_with_calls. step_calls.
  rewrite H3, H4, bind_ret. eexists. split; [reflexivity |].
  now rewrite !live_textures_snoc.
Qed.

Lemma register_loaded s cs e :
  in_capacity s ->
  bind (get m_loadedTextures)
    (fun n => bind (textureIDs_store n e)
    (fun _ => bind (modify (fun s => with_loadedTextures
                                       (m_loadedTextures s + 1) s))
    (fun _ => ret true))) (with_calls cs s)
  = Returns (true, uploaded_state s cs e).
Proof.
  intros [H0 H1]. apply Z.leb_le in H0. apply Z.ltb_lt in H1.
  rewrite bind_get, loadedTextures_with_calls.
  unfold bind at 1, textureIDs_store.
  change (m_textureIDs (with_calls cs s)) with (m_textureIDs s).
  rewrite H0, H1. reflexivity.
Qed.

Lemma CreateGLTexture_loaded s filename tag img :
  in_capacity s ->
  files s filename = Some img ->
  colorChannels img = 3 \/ colorChannels img = 4 ->
  let id :=
    fresh_texture_name (calls s ++ [stbi_set_flip_vertically_on_load true]) in
  exists cs,
    CreateGLTexture filename tag s =
    Returns (true, uploaded_state s cs (TEXTURE_INFO.mk id tag)) /\
    live_textures cs = live_textures (calls s) ++ [id].
Proof.
  intros Hcap Hf Hc id.
  unfold CreateGLTexture.
  rewrite bind_call, bind_get, files_with_calls, Hf.
  rewrite bind_get, calls_with_calls. step_calls.
  destruct Hc as [Hc | Hc]; rewrite Hc;
    lazymatch goal with
    | |- context [if ?a =? ?b then _ else _] =>
        change (a =? b) with true + change (a =? b) with false
    end; cbv iota.
  - rewrite bind_bind. step_calls. rewrite bind_ret. step_calls.
    eexists. split; [apply register_loaded; exact Hcap |].
    now rewrite !live_textures_snoc.
  - lazymatch goal with
    | |- context [if ?a =? ?b then _ else _] => change (a =? b) with true
    end; cbv iota.
    rewrite bind_bind. step_calls. rewrite bind_ret. step_calls.
    eexists. split; [apply register_loaded; exact Hcap |].
    now rewrite !live_textures_snoc.
Qed.

Lemma uploaded_state_registered s cs e :
  in_capacity s -> registered (uploaded_state s cs e) (m_loadedTextures s) e.
Proof.
  intros [H0 H1]. split; cbn; [lia |]. apply list_lookup_insert_eq. lia.
Qed.

Lemma uploaded_state_keeps s cs e i e' :
  registered s i e' -> registered (uploaded_state s cs e) i e'.
Proof.
  intros [Hi He]. split; cbn; [lia |].
  rewrite list_lookup_insert_ne; [exact He | lia].
Qed.

(** C5. With the slot counter designating an entry of [m_textureIDs],
    [CreateGLTexture] returns [true] exactly when the file decodes to an image
    with 3 or 4 colour channels.  It then stores the tag, with the generated
    texture name, at the slot the counter gave, keeps the entries registered
    before, and increments the counter by one.  Otherwise it returns [false]
    and the counter, the entries and the materials are as before. *)
Theorem CreateGLTexture_outcome (s : State) (filename tag : string) :
  in_capacity s ->
  exists ok s',
    CreateGLTexture filename tag s = Returns (ok, s') /\
    (ok = true <-> loadable s filename) /\
    (ok = true ->
       m_loadedTextures s' = m_loadedTextures s + 1 /\
       (exists id, registered s' (m_loadedTextures s) (TEXTURE_INFO.mk id tag)) /\
       (forall i e, registered s i e -> registered s' i e)) /\
    (ok = false ->
       m_loadedTextures s' = m_loadedTextures s /\
       m_textureIDs s' = m_textureIDs s /\
       m_objectMaterials s' = m_objectMaterials s).
Proof.
  intros Hcap. unfold loadable.
  destruct (files s filename) as [img |] eqn:Hf.
  - destruct (Z.eq_dec (colorChannels img) 3) as [H3 | H3];
      [| destruct (Z.eq_dec (colorChannels img) 4) as [H4 | H4]].
    + destruct (CreateGLTexture_loaded s filename tag img Hcap Hf (or_introl H3))
        as (cs & Hrun & _).
      exists true. eexists. split; [exact Hrun |]. split; [| split].
      * split; [| reflexivity]. intros _. exists img. split; [reflexivity | now left].
      * intros _. split; [reflexivity |]. split.
        { eexists. now apply uploaded_state_registered. }
        { intros i e. apply uploaded_state_keeps. }
      * discriminate.
    + destruct (CreateGLTexture_loaded s filename tag img Hcap Hf (or_intror H4))
        as (cs & Hrun & _).
      exists true. eexists. split; [exact Hrun |]. split; [| split].
      * split; [| reflexivity]. intros _. exists img. split; [reflexivity | now right].
      * intros _. split; [reflexivity |]. split.
        { eexists. now apply uploaded_state_registered. }
        { intros i e. apply uploaded_state_keeps. }
      * discriminate.
    + destruct (CreateGLTexture_unsupported s filename tag img Hf H3 H4)
        as (cs & Hrun & _).
      exists false. eexists. split; [exact Hrun |]. split; [| split].
      * split; [discriminate |].
        intros (img' & Himg & [Hc | Hc]); injection Himg as <-; contradiction.
      * discriminate.
      * intros _. repeat split.
  - exists false. eexists.
    split; [exact (CreateGLTexture_undecodable s filename tag Hf) |].
    split; [| split].
    + split; [discriminate |]. intros (img & Himg & _). discriminate Himg.
    + discriminate.
    + intros _. repeat split.
Qed.

(** Loading keeps the slot counter within the array. *)
Lemma CreateGLTexture_keeps_registry_ok s filename tag ok s' :
  in_capacity s ->
  CreateGLTexture filename tag s = Returns (ok, s') ->
  0 <= m_loadedTextures s' /\ registry_ok s'.
Proof.
  intros Hcap Hrun. pose proof Hcap as [H0 H1]. unfold registry_ok.
  destruct (files s filename) as [img |] eqn:Hf.
  - destruct (Z.eq_dec (colorChannels img) 3) as [H3 | H3];
      [| destruct (Z.eq_dec (colorChannels img) 4) as [H4 | H4]].
    + destruct (CreateGLTexture_loaded s filename tag img Hcap Hf (or_introl H3))
        as (cs & Hrun' & _).
      rewrite Hrun' in Hrun. injection Hrun as <- <-.
      cbn [m_loadedTextures m_textureIDs uploaded_state].
      rewrite length_insert. lia.
    + destruct (CreateGLTexture_loaded s filename tag img Hcap Hf (or_intror H4))
        as (cs & Hrun' & _).
      rewrite Hrun' in Hrun. injection Hrun as <- <-.
      cbn [m_loadedTextures m_textureIDs uploaded_state].
      rewrite length_insert. lia.
    + destruct (CreateGLTexture_unsupported s filename tag img Hf H3 H4)
        as (cs & Hrun' & _).
      rewrite Hrun' in Hrun. injection Hrun as <- <-.
      cbn [m_loadedTextures m_textureIDs with_calls]. lia.
  - rewrite (CreateGLTexture_undecodable s filename tag Hf) in Hrun.
    injection Hrun as <- <-. cbn [m_loadedTextures m_textureIDs with_calls]. lia.
Qed.

(** *** The handles of the registry: every registered handle is a texture
    name in use and no two entries hold the same one; loading keeps both,
    because [glGenTextures] gives a name that is not in use. *)

Lemma foldr_max_ge (l : list Z) (x : Z) : In x l -> x <= foldr Z.max 0 l.
Proof.
  induction l as [| a l IH]; cbn [foldr In]; [tauto |].
  intros [-> | H]; [lia |]. specialize (IH H). lia.
Qed.

Lemma fresh_texture_name_unused c :
  ~ In (fresh_texture_name c) (live_textures c).
Proof.
  unfold fresh_texture_name. intros H. apply foldr_max_ge in H. lia.
Qed.

Lemma uploaded_state_registered_inv s cs e i e' :
  in_capacity s ->
  registered (uploaded_state s cs e) i e' ->
  (i = m_loadedTextures s /\ e' = e) \/ registered s i e'.
Proof.
  intros [H0 H1] [Hi He]. cbn in Hi, He.
  destruct (Z.eq_dec i (m_loadedTextures s)) as [-> | Hne].
  - left. split; [reflexivity |].
    rewrite list_lookup_insert_eq in He by lia. congruence.
  - right. split; [lia |].
    rewrite list_lookup_insert_ne in He by lia. exact He.
Qed.

Lemma uploaded_state_keeps_handles s cs tag :
  in_capacity s -> handles_live s -> handles_distinct s ->
  let id :=
    fresh_texture_name (calls s ++ [stbi_set_flip_vertically_on_load true]) in
  live_textures cs = live_textures (calls s) ++ [id] ->
  handles_live (uploaded_state s cs (TEXTURE_INFO.mk id tag)) /\
  handles_distinct (uploaded_state s cs (TEXTURE_INFO.mk id tag)).
Proof.
  intros Hcap Hlive Hdist id Hcs.
  assert (Hfresh : ~ In id (live_textures (calls s))).
  { pose proof (fresh_texture_name_unused
                  (calls s ++ [stbi_set_flip_vertically_on_load true])) as H.
    now rewrite live_textures_snoc in H. }
  split.
  - intros i e R. cbn [calls uploaded_state]. rewrite Hcs. apply in_or_app.
    destruct (uploaded_state_registered_inv _ _ _ _ _ Hcap R) as [[-> ->] | R'].
    + right. now left.
    + left. exact (Hlive _ _ R').
  - intros i j ei ej Ri Rj Heq.
    destruct (uploaded_state_registered_inv _ _ _ _ _ Hcap Ri) as [[-> ->] | Ri'];
      destruct (uploaded_state_registered_inv _ _ _ _ _ Hcap Rj)
        as [[-> ->] | Rj'].
    + reflexivity.
    + exfalso. apply Hfresh. cbn [TEXTURE_INFO.ID] in Heq. rewrite Heq.
      exact (Hlive _ _ Rj').
    + exfalso. apply Hfresh. cbn [TEXTURE_INFO.ID] in Heq. rewrite <- Heq.
      exact (Hlive _ _ Ri').
    + exact (Hdist _ _ _ _ Ri' Rj' Heq).
Qed.

Lemma CreateGLTexture_keeps_handles s filename tag ok s' :
  in_capacity s -> handles_live s -> handles_distinct s ->
  CreateGLTexture filename tag s = Returns (ok, s') ->
  handles_live s' /\ handles_distinct s'.
Proof.
  intros Hcap Hlive Hdist Hrun.
  destruct (files s filename) as [img |] eqn:Hf.
  - destruct (Z.eq_dec (colorChannels img) 3) as [H3 | H3];
      [| destruct (Z.eq_dec (colorChannels img) 4) as [H4 | H4]].
    + destruct (CreateGLTexture_loaded s filename tag img Hcap Hf (or_introl H3))
        as (cs & Hrun' & Hcs).
      rewrite Hrun' in Hrun. injection Hrun as <- <-.
      now apply uploaded_state_keeps_handles.
    + destruct (CreateGLTexture_loaded s filename tag img Hcap Hf (or_intror H4))
        as (cs & Hrun' & Hcs).
      rewrite Hrun' in Hrun. injection Hrun as <- <-.
      now apply uploaded_state_keeps_handles.
    + destruct (CreateGLTexture_unsupported s filename tag img Hf H3 H4)
        as (cs & Hrun' & Hcs).
      rewrite Hrun' in Hrun. injection Hrun as <- <-. split.
      * intros i e R. cbn [calls with_calls]. rewrite Hcs. apply in_or_app.
        left. exact (Hlive _ _ R).
      * exact Hdist.
  - rewrite (CreateGLTexture_undecodable s filename tag Hf) in Hrun.
    injection Hrun as <- <-. split.
    + intros i e R. cbn [calls with_calls]. rewrite live_textures_snoc.
      exact (Hlive _ _ R).
    + exact Hdist.
Qed.

(** The scene's textures get the slots 0 to 8 in the order of their loads,
    when their files decode. *)
Example LoadSceneTexture_slots :
  value (LoadSceneTexture ;;;
         a <- FindTextureSlot "path" ;; b <- FindTextureSlot "grass" ;;
         c <- FindTextureSlot "skin" ;; d <- FindTextureSlot "bark" ;;
         e <- FindTextureSlot "leaves" ;; f <- FindTextureSlot "pond" ;;
         g <- FindTextureSlot "giraffe" ;; h <- FindTextureSlot "sky" ;;
         i <- FindTextureSlot "rock" ;; n <- get m_loadedTextures ;;
         ret [a; b; c; d; e; f; g; h; i; n])
        (initial 16 scene_files)
  = Some [0; 1; 2; 3; 4; 5; 6; 7; 8; 9].
Proof. vm_compute. reflexivity. Qed.

Lemma initial_in_capacity : in_capacity (initial 16 sample_files).
Proof. unfold in_capacity. cbn. lia. Defined.

Lemma CreateGLTexture_outcome_witness :
  in_capacity (initial 16 sample_files) /\
  exists ok s',
    CreateGLTexture "rgb.jpg" "a" (initial 16 sample_files) = Returns (ok, s') /\
    (ok = true <-> loadable (initial 16 sample_files) "rgb.jpg") /\
    (ok = true ->
       m_loadedTextures s' = m_loadedTextures (initial 16 sample_files) + 1 /\
       (exists id, registered s' (m_loadedTextures (initial 16 sample_files))
                              (TEXTURE_INFO.mk id "a")) /\
       (forall i e, registered (initial 16 sample_files) i e ->
                    registered s' i e)) /\
    (ok = false ->
       m_loadedTextures s' = m_loadedTextures (initial 16 sample_files) /\
       m_textureIDs s' = m_textureIDs (initial 16 sample_files) /\
       m_objectMaterials s' = m_objectMaterials (initial 16 sample_files)).
Proof.
  split.
  - exact initial_in_capacity.
  - apply (CreateGLTexture_outcome (initial 16 sample_files) "rgb.jpg" "a").
    exact initial_in_capacity.
Defined.

(** The outcomes of the specification's scenario, computed: the RGB and the
    RGBA image load into the slots 0 and 1, and the two-channel image and the
    missing file are refused with the counter left at 2. *)
Example CreateGLTexture_scenario :
  let s0 := initial 16 sample_files in
  value (a <- CreateGLTexture "rgb.jpg" "a" ;;
         b <- CreateGLTexture "rgba.png" "b" ;;
         c <- CreateGLTexture "grey.png" "c" ;;
         d <- CreateGLTexture "absent.png" "d" ;;
         n <- get m_loadedTextures ;;
         sa <- FindTextureSlot "a" ;;
         sb <- FindTextureSlot "b" ;;
         sc <- FindTextureSlot "c" ;;
         ret (a, b, c, d, n, sa, sb, sc)) s0
  = Some (true, true, false, false, 2, 0, 1, -1).
Proof. vm_compute. reflexivity. Qed.

(** ** Tearing the texture registry down *)

(** A property of the state that the condition and the body of a loop keep
    is kept by the loop. *)
Lemma while_invariant {V} (I : State -> Prop) (cond : V -> M bool)
    (body : V -> M V) :
  (forall v s b s', I s -> cond v s = Returns (b, s') -> I s') ->
  (forall v s v' s', I s -> body v s = Returns (v', s') -> I s') ->
  forall fuel v s v' s',
    I s -> while fuel cond body v s = Returns (v', s') -> I s'.
Proof.
  intros Hcond Hbody fuel.
  induction fuel as [| fuel IH]; intros v s v' s' Hs; cbn [while]; unfold bind;
    destruct (cond v s) as [[b s1] | |] eqn:Hc; try discriminate;
    pose proof (Hcond _ _ _ _ Hs Hc) as Hs1; destruct b.
  - discriminate.
  - intros [= <- <-]. exact Hs1.
  - destruct (body v s1) as [[v2 s2] | |] eqn:Hb; try discriminate.
    apply IH. exact (Hbody _ _ _ _ Hs1 Hb).
  - intros [= <- <-]. exact Hs1.
Qed.

(** Whatever the state, the calls that [DestroyGLTextures] adds are calls of
    [glGenTextures]. *)
Lemma DestroyGLTextures_calls s s' :
  DestroyGLTextures s = Returns (tt, s') ->
  exists names, calls s' = calls s ++ map glGenTextures names.
Proof.
  unfold DestroyGLTextures, for_loop, bind at 1, get at 1.
  unfold bind at 1.
  destruct (while _ _ _ _ s) as [[v s1] | |] eqn:Hw; try discriminate.
  intros [= <-].
  revert Hw. apply while_invariant with
    (I := fun st => exists names, calls st = calls s ++ map glGenTextures names).
  - intros v0 st b st' Hst. unfold bind, get, ret. intros [= _ <-]. exact Hst.
  - intros v0 st v1 st' (names & Hst). unfold bind.
    destruct (textureIDs_at v0 st) as [[e st1] | |] eqn:He; try discriminate.
    assert (st1 = st) as ->.
    { unfold textureIDs_at in He. destruct (v0 <? 0); [discriminate |].
      destruct (m_textureIDs st !! Z.to_nat v0); [| discriminate].
      now injection He as _ <-. }
    unfold get, call, modify, textureIDs_store. cbn [m_textureIDs with_calls].
    destruct ((0 <=? v0) && (v0 <? Z.of_nat (length (m_textureIDs st))));
      [| discriminate].
    unfold ret. intros [= _ <-]. cbn [calls with_textureIDs with_calls].
    exists (names ++ [fresh_texture_name (calls st)]).
    rewrite Hst, map_app, app_assoc. reflexivity.
  - exists []. cbn. now rewrite app_nil_r.
Qed.

Lemma DestroyGLTextures_releases_nothing s s' :
  DestroyGLTextures s = Returns (tt, s') ->
  existsb is_release (calls s') = existsb is_release (calls s).
Proof.
  intros H. destruct (DestroyGLTextures_calls s s' H) as (names & ->).
  rewrite existsb_app.
  replace (existsb is_release (map glGenTextures names)) with false.
  - apply orb_false_r.
  - induction names as [| n names IH]; [reflexivity | exact IH].
Qed.

(** The names in use before the teardown are in use after it. *)
Lemma live_textures_generated c names :
  live_textures (c ++ map glGenTextures names) = live_textures c ++ names.
Proof.
  unfold live_textures. rewrite fold_left_app.
  generalize (fold_left live_step c []). clear c.
  induction names as [| n names IH]; intros live; cbn [map fold_left live_step].
  - now rewrite app_nil_r.
  - rewrite IH, <- app_assoc. reflexivity.
Qed.

Lemma DestroyGLTextures_keeps_live s s' n :
  DestroyGLTextures s = Returns (tt, s') ->
  In n (live_textures (calls s)) -> In n (live_textures (calls s')).
Proof.
  intros H Hn. destruct (DestroyGLTextures_calls s s' H) as (names & ->).
  rewrite live_textures_generated. apply in_or_app. now left.
Qed.

(** The fuel of a [for] loop over the slots is enough when the body keeps
    the slot counter. *)
Lemma for_loop_fuel (body : Z -> M unit) :
  (forall i st u st',
      body i st = Returns (u, st') -> m_loadedTextures st' = m_loadedTextures st) ->
  (forall i st, body i st <> OutOfFuel) ->
  forall fuel i st,
    m_loadedTextures st - i <= Z.of_nat fuel ->
    while fuel (fun i => n <- get m_loadedTextures ;; ret (i <? n))
               (fun i => body i ;;; ret (i + 1)) i st <> OutOfFuel.
Proof.
  intros Hkeep Hbody fuel. induction fuel as [| fuel IH]; intros i st Hfuel.
  - rewrite while_exit; [discriminate |]. rewrite bind_get. unfold ret.
    replace (i <? m_loadedTextures st) with false; [reflexivity |].
    symmetry. apply Z.ltb_ge. lia.
  - cbn [while]. rewrite bind_bind, bind_get, bind_ret.
    destruct (i <? m_loadedTextures st); [| discriminate].
    rewrite bind_bind. unfold bind at 1.
    destruct (body i st) as [[u st'] | |] eqn:Hb.
    + rewrite bind_ret. apply IH. rewrite (Hkeep _ _ _ _ Hb). lia.
    + discriminate.
    + exfalso. exact (Hbody _ _ Hb).
Qed.

Lemma DestroyGLTextures_fuel s : DestroyGLTextures s <> OutOfFuel.
Proof.
  unfold DestroyGLTextures, for_loop. rewrite bind_get.
  unfold bind at 1.
  match goal with
  | |- context [while ?n ?c ?b 0 s] =>
      pose proof (for_loop_fuel
        (fun i =>
           e <- textureIDs_at i ;;
           name <- get (fun s => fresh_texture_name (calls s)) ;;
           call (glGenTextures name) ;;;
           textureIDs_store i (TEXTURE_INFO.mk name (TEXTURE_INFO.tag e)))) as H;
      destruct (while n c b 0 s) as [[v s'] | |] eqn:Hw
  end; try discriminate.
  exfalso. revert Hw. apply H.
  - intros i st u st'. unfold bind, textureIDs_at.
    destruct (i <? 0); [discriminate |].
    destruct (m_textureIDs st !! Z.to_nat i); [| discriminate].
    unfold get, call, modify, textureIDs_store. cbn [m_textureIDs with_calls].
    destruct ((0 <=? i) && (i <? Z.of_nat (length (m_textureIDs st))));
      [| discriminate].
    now intros [= _ <-].
  - intros i st. unfold bind, textureIDs_at.
    destruct (i <? 0); [discriminate |].
    destruct (m_textureIDs st !! Z.to_nat i); [| discriminate].
    unfold get, call, modify, textureIDs_store. cbn [m_textureIDs with_calls].
    destruct ((0 <=? i) && (i <? Z.of_nat (length (m_textureIDs st))));
      discriminate.
  - lia.
Qed.

(** With no texture loaded the teardown does nothing. *)
Lemma DestroyGLTextures_nothing_loaded s :
  m_loadedTextures s <= 0 -> DestroyGLTextures s = Returns (tt, s).
Proof.
  intros H. unfold DestroyGLTextures, for_loop, bind at 1, get at 1.
  unfold bind at 1. rewrite while_exit; [reflexivity |].
  unfold bind, get, ret. replace (0 <? m_loadedTextures s) with false;
    [reflexivity |]. symmetry. apply Z.ltb_ge. exact H.
Qed.

(** C7. Evaluation at the state with the two textures "a" and "b" loaded,
    whose names 1 and 2 are in use: [DestroyGLTextures] makes no call that
    releases a name; it generates the names 3 and 4, stores them in the two
    entries, and leaves all four names in use. *)
Theorem DestroyGLTextures_releases_no_handle :
  exists s',
    DestroyGLTextures two_textures = Returns (tt, s') /\
    live_textures (calls two_textures) = [1; 2] /\
    live_textures (calls s') = [1; 2; 3; 4] /\
    existsb is_release (calls s') = false /\
    map TEXTURE_INFO.ID (take 2 (m_textureIDs s')) = [3; 4].
Proof.
  eexists. split; [vm_compute; reflexivity |].
  repeat split; vm_compute; reflexivity.
Qed.

(** ** Uniform names *)

(** C8. Evaluation of [SetupSceneLights] with a shader manager that has
    received nothing: the ambient colour of the first light is written under
    the name lightSorces[0].ambientColor, which is not a name of the
    contract, and nothing is written under lightSources[0].ambientColor. *)
Theorem SetupSceneLights_misspells_uniform_name :
  exists s',
    SetupSceneLights (initial 16 sample_files) = Returns (tt, s') /\
    In "lightSorces[0].ambientColor" (uniform_names s') /\
    is_contract_name "lightSorces[0].ambientColor" = false /\
    ~ In "lightSources[0].ambientColor" (uniform_names s') /\
    In "lightSources[1].ambientColor" (uniform_names s').
Proof.
  eexists. split; [lazy; reflexivity |].
  split; [| split; [| split]].
  - cbv. tauto.
  - reflexivity.
  - cbv. intros H. repeat (destruct H as [H | H]; [discriminate H |]). exact H.
  - cbv. tauto.
Qed.

(** All the names [SetupSceneLights] writes, in order. *)
Example SetupSceneLights_names :
  option_map uniform_names (run SetupSceneLights (initial 16 sample_files))
  = Some
      ["bUseLighting"; "globalAmbientColor"; "lightSources[0].position";
       "lightSorces[0].ambientColor"; "lightSources[0].diffuseColor";
       "lightSources[0].specularColor"; "lightSources[0].focalStrength";
       "lightSources[0].specularIntensity"; "lightSources[1].position";
       "lightSources[1].ambientColor"; "lightSources[1].diffuseColor";
       "lightSources[1].specularColor"; "lightSources[1].focalStrength";
       "lightSources[1].specularIntensity"; "lightSources[2].position";
       "lightSources[2].diffuseColor"; "lightSources[2].specularColor";
       "lightSources[2].focalStrength"; "lightSources[2].specularIntensity";
       "lightSources[3].position"; "lightSources[3].diffuseColor";
       "lightSources[3].specularColor"; "lightSources[3].focalStrength";
       "lightSources[3].specularIntensity"].
Proof. lazy. reflexivity. Qed.

(** The names written by the uniform binder are names of the contract. *)
Lemma binder_names_in_contract :
  forallb is_contract_name
    [g_ModelName; g_ColorValueName; g_TextureValueName; g_UseTextureName;
     "UVscale"; "material.ambientColor"; "material.ambientStrength";
     "material.diffuseColor"; "material.specularColor"; "material.shininess"]
  = true.
Proof. reflexivity. Qed.

(** ** Transform composition *)

(** The matrix of the model is what the expression of [SetTransformations]
    gives in exact arithmetic; the lemmas of this section are about that
    matrix, which the matrix computed in binary32 approximates. *)

Section TransformFacts.
Import Transform.
Local Open Scope R_scope.

Ltac vec4_eq :=
  cbn [vec4.x vec4.y vec4.z vec4.w vec3.x vec3.y vec3.z
       mat4.c0 mat4.c1 mat4.c2 mat4.c3];
  f_equal; ring.

Ltac mat4_eq :=
  cbn [vec4.x vec4.y vec4.z vec4.w vec3.x vec3.y vec3.z
       mat4.c0 mat4.c1 mat4.c2 mat4.c3];
  f_equal; f_equal; ring.

Lemma translate_is_Translation p : glm.translate p = Translation p.
Proof.
  unfold glm.translate, glm.translate_m, glm.identity, Translation,
         glm.vec4_add, glm.vec4_scale.
  mat4_eq.
Qed.

Lemma scale_is_Scale k : glm.scale k = Scale k.
Proof.
  unfold glm.scale, glm.scale_m, glm.identity, Scale, glm.vec4_scale.
  mat4_eq.
Qed.

Lemma inversesqrt_1 : glm.inversesqrt 1 = 1.
Proof. unfold glm.inversesqrt. rewrite sqrt_1. field. Qed.

Lemma normalize_x : glm.normalize (vec3.mk 1 0 0) = vec3.mk 1 0 0.
Proof.
  unfold glm.normalize, glm.dot. cbn [vec3.x vec3.y vec3.z].
  replace (1 * 1 + 0 * 0 + 0 * 0) with 1 by ring.
  rewrite inversesqrt_1. f_equal; ring.
Qed.

Lemma normalize_y : glm.normalize (vec3.mk 0 1 0) = vec3.mk 0 1 0.
Proof.
  unfold glm.normalize, glm.dot. cbn [vec3.x vec3.y vec3.z].
  replace (0 * 0 + 1 * 1 + 0 * 0) with 1 by ring.
  rewrite inversesqrt_1. f_equal; ring.
Qed.

Lemma normalize_z : glm.normalize (vec3.mk 0 0 1) = vec3.mk 0 0 1.
Proof.
  unfold glm.normalize, glm.dot. cbn [vec3.x vec3.y vec3.z].
  replace (0 * 0 + 0 * 0 + 1 * 1) with 1 by ring.
  rewrite inversesqrt_1. f_equal; ring.
Qed.

Lemma rotate_x_is_RotationX a : glm.rotate a (vec3.mk 1 0 0) = RotationX a.
Proof.
  unfold glm.rotate, glm.rotate_m. rewrite normalize_x.
  unfold glm.identity, RotationX, glm.vec4_add, glm.vec4_scale.
  mat4_eq.
Qed.

Lemma rotate_y_is_RotationY a : glm.rotate a (vec3.mk 0 1 0) = RotationY a.
Proof.
  unfold glm.rotate, glm.rotate_m. rewrite normalize_y.
  unfold glm.identity, RotationY, glm.vec4_add, glm.vec4_scale.
  mat4_eq.
Qed.

Lemma rotate_z_is_RotationZ a : glm.rotate a (vec3.mk 0 0 1) = RotationZ a.
Proof.
  unfold glm.rotate, glm.rotate_m. rewrite normalize_z.
  unfold glm.identity, RotationZ, glm.vec4_add, glm.vec4_scale.
  mat4_eq.
Qed.

(** Applying a product is applying its factors, the right one first. *)
Lemma mul_vec_mul m1 m2 v :
  glm.mul_vec (glm.mul m1 m2) v = glm.mul_vec m1 (glm.mul_vec m2 v).
Proof.
  unfold glm.mul_vec, glm.mul, glm.mul_col, glm.vec4_add, glm.vec4_scale.
  vec4_eq.
Qed.

Lemma mul_vec_Translation p v : glm.mul_vec (Translation p) v = translated p v.
Proof.
  unfold glm.mul_vec, Translation, translated, glm.vec4_add, glm.vec4_scale.
  vec4_eq.
Qed.

Lemma mul_vec_RotationX a v : glm.mul_vec (RotationX a) v = rotatedX a v.
Proof.
  unfold glm.mul_vec, RotationX, rotatedX, glm.vec4_add, glm.vec4_scale.
  vec4_eq.
Qed.

Lemma mul_vec_RotationY a v : glm.mul_vec (RotationY a) v = rotatedY a v.
Proof.
  unfold glm.mul_vec, RotationY, rotatedY, glm.vec4_add, glm.vec4_scale.
  vec4_eq.
Qed.

Lemma mul_vec_RotationZ a v : glm.mul_vec (RotationZ a) v = rotatedZ a v.
Proof.
  unfold glm.mul_vec, RotationZ, rotatedZ, glm.vec4_add, glm.vec4_scale.
  vec4_eq.
Qed.

Lemma mul_vec_Scale k v : glm.mul_vec (Scale k) v = scaled k v.
Proof.
  unfold glm.mul_vec, Scale, scaled, glm.vec4_add, glm.vec4_scale.
  vec4_eq.
Qed.

Lemma modelView_factors scaleXYZ rx ry rz positionXYZ :
  modelView scaleXYZ rx ry rz positionXYZ =
  glm.mul
    (glm.mul
       (glm.mul (glm.mul (Translation positionXYZ)
                         (RotationZ (glm.radians rz)))
                (RotationY (glm.radians ry)))
       (RotationX (glm.radians rx)))
    (Scale scaleXYZ).
Proof.
  unfold modelView.
  now rewrite translate_is_Translation, scale_is_Scale, rotate_x_is_RotationX,
    rotate_y_is_RotationY, rotate_z_is_RotationZ.
Qed.

Lemma modelView_acts scaleXYZ rx ry rz positionXYZ :
  forall v : vec4.t,
    glm.mul_vec (modelView scaleXYZ rx ry rz positionXYZ) v =
    translated positionXYZ
      (rotatedZ (glm.radians rz)
         (rotatedY (glm.radians ry)
            (rotatedX (glm.radians rx) (scaled scaleXYZ v)))).
Proof.
  intros v. rewrite modelView_factors, !mul_vec_mul.
  now rewrite mul_vec_Scale, mul_vec_RotationX, mul_vec_RotationY,
    mul_vec_RotationZ, mul_vec_Translation.
Qed.

End TransformFacts.

(** * Further properties *)

(** ** The registry as a list *)

Lemma registered_registry s i e :
  registered s i e <-> 0 <= i /\ registry s !! Z.to_nat i = Some e.
Proof.
  unfold registered, registry. rewrite lookup_take_Some. split.
  - intros [Hi He]. split; [lia |]. split; [exact He | lia].
  - intros [Hi [He Hlt]]. split; [lia | exact He].
Qed.

Lemma position_shift tag tags i :
  position tag tags i = -1 \/
  exists k, position tag tags i = i + Z.of_nat k /\ (k < length tags)%nat.
Proof.
  revert i. induction tags as [| t tags IH]; intros i; cbn [position length].
  - now left.
  - destruct (String.eqb t tag).
    + right. exists 0%nat. split; lia.
    + destruct (IH (i + 1)) as [H | (k & H & Hk)]; [now left |].
      right. exists (S k). split; lia.
Qed.

Lemma position_first tag (l : list TEXTURE_INFO.t) (k : nat) e :
  l !! k = Some e -> TEXTURE_INFO.tag e = tag ->
  (forall j e', (j < k)%nat -> l !! j = Some e' -> TEXTURE_INFO.tag e' <> tag) ->
  forall i, position tag (map TEXTURE_INFO.tag l) i = i + Z.of_nat k.
Proof.
  revert k. induction l as [| a l IH]; intros k Hk Ht Hm i; [discriminate Hk |].
  cbn [map position]. destruct k as [| k].
  - cbn in Hk. injection Hk as ->. apply String.eqb_eq in Ht. rewrite Ht. lia.
  - assert (Ha : TEXTURE_INFO.tag a <> tag) by (apply (Hm 0%nat a); [lia | reflexivity]).
    apply String.eqb_neq in Ha. rewrite Ha.
    rewrite (IH k Hk Ht); [lia |].
    intros j e' Hj He'. apply (Hm (S j) e'); [lia | exact He'].
Qed.

Lemma position_none tag (l : list TEXTURE_INFO.t) :
  (forall j e', l !! j = Some e' -> TEXTURE_INFO.tag e' <> tag) ->
  forall i, position tag (map TEXTURE_INFO.tag l) i = -1.
Proof.
  induction l as [| a l IH]; intros Hm i; [reflexivity |].
  cbn [map position].
  assert (Ha : TEXTURE_INFO.tag a <> tag) by (apply (Hm 0%nat a); reflexivity).
  apply String.eqb_neq in Ha. rewrite Ha. apply IH.
  intros j e' He'. exact (Hm (S j) e' He').
Qed.

Lemma first_entry_first tag (l : list TEXTURE_INFO.t) (k : nat) e :
  l !! k = Some e -> TEXTURE_INFO.tag e = tag ->
  (forall j e', (j < k)%nat -> l !! j = Some e' -> TEXTURE_INFO.tag e' <> tag) ->
  first_entry tag l = Some e.
Proof.
  revert k. induction l as [| a l IH]; intros k Hk Ht Hm; [discriminate Hk |].
  cbn [first_entry]. destruct k as [| k].
  - cbn in Hk. injection Hk as ->. apply String.eqb_eq in Ht. now rewrite Ht.
  - assert (Ha : TEXTURE_INFO.tag a <> tag) by (apply (Hm 0%nat a); [lia | reflexivity]).
    apply String.eqb_neq in Ha. rewrite Ha. apply (IH k Hk Ht).
    intros j e' Hj He'. apply (Hm (S j) e'); [lia | exact He'].
Qed.

Lemma first_entry_none tag (l : list TEXTURE_INFO.t) :
  (forall j e', l !! j = Some e' -> TEXTURE_INFO.tag e' <> tag) ->
  first_entry tag l = None.
Proof.
  induction l as [| a l IH]; intros Hm; [reflexivity |].
  cbn [first_entry].
  assert (Ha : TEXTURE_INFO.tag a <> tag) by (apply (Hm 0%nat a); reflexivity).
  apply String.eqb_neq in Ha. rewrite Ha. apply IH.
  intros j e' He'. exact (Hm (S j) e' He').
Qed.

Lemma first_match_registry s tag k e :
  first_match s tag k e ->
  registry s !! Z.to_nat k = Some e /\ 0 <= k /\
  forall j e', (j < Z.to_nat k)%nat -> registry s !! j = Some e' ->
               TEXTURE_INFO.tag e' <> tag.
Proof.
  intros (R & T & Hm). apply registered_registry in R as [Hk He].
  split; [exact He |]. split; [exact Hk |].
  intros j e' Hj He'. apply (Hm (Z.of_nat j) e'); [| lia].
  apply registered_registry. split; [lia |]. now rewrite Nat2Z.id.
Qed.

Lemma unregistered_registry s tag :
  unregistered s tag ->
  forall j e', registry s !! j = Some e' -> TEXTURE_INFO.tag e' <> tag.
Proof.
  intros Hun j e' He'. apply (Hun (Z.of_nat j) e').
  apply registered_registry. split; [lia |]. now rewrite Nat2Z.id.
Qed.

(** The two lookups as functions of the registered entries. *)
Lemma FindTextureSlot_registry tag s :
  registry_ok s ->
  FindTextureSlot tag s = Returns (position tag (registry_tags s) 0, s).
Proof.
  intros Hok. unfold registry_tags.
  destruct (FindTextureSlot_cases tag s Hok) as [(k & e & Hfm & ->) | (Hun & ->)].
  - destruct (first_match_registry _ _ _ _ Hfm) as (He & Hk & Hm).
    destruct Hfm as (_ & T & _).
    rewrite (position_first tag _ _ _ He T Hm 0). do 2 f_equal. lia.
  - now rewrite (position_none tag _ (unregistered_registry _ _ Hun) 0).
Qed.

Lemma FindTextureID_registry tag s :
  registry_ok s ->
  FindTextureID tag s = Returns (handle_of tag (registry s), s).
Proof.
  intros Hok. unfold handle_of.
  destruct (FindTextureID_cases tag s Hok) as [(k & e & Hfm & ->) | (Hun & ->)].
  - destruct (first_match_registry _ _ _ _ Hfm) as (He & Hk & Hm).
    destruct Hfm as (_ & T & _).
    now rewrite (first_entry_first tag _ _ _ He T Hm).
  - now rewrite (first_entry_none tag _ (unregistered_registry _ _ Hun)).
Qed.

(** ** Lookups beyond the array *)

Lemma while_undefined {V} fuel (cond : V -> M bool) body (v : V) s :
  cond v s = Returns (true, s) -> body v s = Undefined ->
  while (S fuel) cond body v s = Undefined.
Proof. intros Hc Hb. cbn [while]. unfold bind. now rewrite Hc, Hb. Qed.

Lemma find_loop_past f tag s :
  Z.of_nat (length (m_textureIDs s)) < m_loadedTextures s ->
  (forall e, e ∈ m_textureIDs s -> TEXTURE_INFO.tag e <> tag) ->
  forall fuel i r,
    0 <= i <= Z.of_nat (length (m_textureIDs s)) ->
    m_loadedTextures s - i <= Z.of_nat fuel ->
    while fuel find_cond (find_body f tag) (mkLocals r i false) s = Undefined.
Proof.
  intros Hlen Hno fuel. induction fuel as [| fuel IH]; intros i r Hi Hfuel; [lia |].
  assert (Hlt : i < m_loadedTextures s) by lia.
  destruct (m_textureIDs s !! Z.to_nat i) as [e |] eqn:He.
  - assert (R : registered s i e) by (split; [lia | exact He]).
    assert (Hne : TEXTURE_INFO.tag e <> tag).
    { apply Hno. apply list_elem_of_lookup. eauto. }
    rewrite (while_step _ _ _ _ _ _ (find_cond_continue s r i Hlt)
                        (find_body_miss f tag s r i _ e R Hne)).
    apply IH; [| lia]. apply lookup_lt_Some in He. lia.
  - apply while_undefined; [now apply find_cond_continue |].
    unfold find_body, bind, textureIDs_at. cbn [index].
    replace (i <? 0) with false by (symmetry; apply Z.ltb_ge; lia).
    now rewrite He.
Qed.

(** X1. When the slot counter exceeds the size of [m_textureIDs] and no
    entry of the array bears the tag, both lookups read past the end of the
    array: neither checks the counter against the size. *)
Theorem lookups_read_past_the_array (s : State) (tag : string) :
  Z.of_nat (length (m_textureIDs s)) < m_loadedTextures s ->
  (forall e, e ∈ m_textureIDs s -> TEXTURE_INFO.tag e <> tag) ->
  FindTextureSlot tag s = Undefined /\ FindTextureID tag s = Undefined.
Proof.
  intros Hlen Hno. split.
  - change (FindTextureSlot tag s) with
      (match while (Z.to_nat (m_loadedTextures s)) find_cond
               (find_body (fun i _ => i) tag) (mkLocals (-1) 0 false) s with
       | Returns (v, s') => Returns (result v, s')
       | Undefined => Undefined
       | OutOfFuel => OutOfFuel
       end).
    rewrite (find_loop_past _ tag s Hlen Hno); [reflexivity | lia | lia].
  - change (FindTextureID tag s) with
      (match while (Z.to_nat (m_loadedTextures s)) find_cond
               (find_body (fun _ e => int_of_GLuint (TEXTURE_INFO.ID e)) tag)
               (mkLocals (-1) 0 false) s with
       | Returns (v, s') => Returns (result v, s')
       | Undefined => Undefined
       | OutOfFuel => OutOfFuel
       end).
    rewrite (find_loop_past _ tag s Hlen Hno); [reflexivity | lia | lia].
Qed.

(** A state whose counter says 2 while the array has one entry. *)
Lemma lookups_read_past_the_array_witness :
  let s := mkState None 2 [TEXTURE_INFO.mk 1 "a"] [] [] (fun _ => None) in
  FindTextureSlot "b" s = Undefined /\ FindTextureID "b" s = Undefined.
Proof.
  intros s. apply (lookups_read_past_the_array s "b").
  - cbn. lia.
  - intros e He. apply list_elem_of_In in He. destruct He as [<- | []].
    discriminate.
Defined.

(** ** Loading without room, and what a load returns *)

Lemma register_without_room s cs e :
  ~ in_capacity s ->
  bind (get m_loadedTextures)
    (fun n => bind (textureIDs_store n e)
    (fun _ => bind (modify (fun s => with_loadedTextures
                                       (m_loadedTextures s + 1) s))
    (fun _ => ret true))) (with_calls cs s)
  = Undefined.
Proof.
  intros Hno. rewrite bind_get, loadedTextures_with_calls.
  unfold bind at 1, textureIDs_store.
  change (m_textureIDs (with_calls cs s)) with (m_textureIDs s).
  destruct ((0 <=? m_loadedTextures s) &&
            (m_loadedTextures s <? Z.of_nat (length (m_textureIDs s)))) eqn:E;
    [| reflexivity].
  exfalso. apply Hno. apply andb_true_iff in E as [E1 E2].
  apply Z.leb_le in E1. apply Z.ltb_lt in E2. split; assumption.
Qed.

Lemma CreateGLTexture_without_room s filename tag img :
  ~ in_capacity s ->
  files s filename = Some img ->
  colorChannels img = 3 \/ colorChannels img = 4 ->
  CreateGLTexture filename tag s = Undefined.
Proof.
  intros Hno Hf Hc.
  unfold CreateGLTexture.
  rewrite bind_call, bind_get, files_with_calls, Hf.
  rewrite bind_get, calls_with_calls. step_calls.
  destruct Hc as [Hc | Hc]; rewrite Hc;
    lazymatch goal with
    | |- context [if ?a =? ?b then _ else _] =>
        change (a =? b) with true + change (a =? b) with false
    end; cbv iota.
  - rewrite bind_bind. step_calls. rewrite bind_ret. step_calls.
    now apply register_without_room.
  - lazymatch goal with
    | |- context [if ?a =? ?b then _ else _] => change (a =? b) with true
    end; cbv iota.
    rewrite bind_bind. step_calls. rewrite bind_ret. step_calls.
    now apply register_without_room.
Qed.

Lemma in_capacity_dec s : in_capacity s \/ ~ in_capacity s.
Proof. unfold in_capacity. lia. Qed.

Lemma is_loadable_spec s filename :
  is_loadable (files s) filename = true <-> loadable s filename.
Proof.
  unfold is_loadable, loadable. destruct (files s filename) as [img |].
  - rewrite orb_true_iff, !Z.eqb_eq. split.
    + intros H. exists img. split; [reflexivity | exact H].
    + intros (img' & [= <-] & H). exact H.
  - split; [discriminate |]. intros (img & Himg & _). discriminate Himg.
Qed.

(** The three ways a load can end. *)
Lemma CreateGLTexture_true_inv s filename tag s' :
  CreateGLTexture filename tag s = Returns (true, s') ->
  in_capacity s /\ loadable s filename /\
  exists cs,
    let id := fresh_texture_name
                (calls s ++ [stbi_set_flip_vertically_on_load true]) in
    s' = uploaded_state s cs (TEXTURE_INFO.mk id tag) /\
    live_textures cs = live_textures (calls s) ++ [id].
Proof.
  intros Hrun.
  destruct (files s filename) as [img |] eqn:Hf.
  - destruct (Z.eq_dec (colorChannels img) 3) as [H3 | H3];
      [| destruct (Z.eq_dec (colorChannels img) 4) as [H4 | H4]].
    1, 2: (assert (Hc : colorChannels img = 3 \/ colorChannels img = 4) by tauto;
           destruct (in_capacity_dec s) as [Hcap | Hno];
           [ destruct (CreateGLTexture_loaded s filename tag img Hcap Hf Hc)
               as (cs & Hrun' & Hcs);
             rewrite Hrun' in Hrun; injection Hrun as <-;
             split; [exact Hcap |]; split; [now exists img |];
             exists cs; split; [reflexivity | exact Hcs]
           | rewrite (CreateGLTexture_without_room s filename tag img Hno Hf Hc)
               in Hrun; discriminate Hrun ]).
    destruct (CreateGLTexture_unsupported s filename tag img Hf H3 H4)
      as (cs & Hrun' & _).
    rewrite Hrun' in Hrun. discriminate Hrun.
  - rewrite (CreateGLTexture_undecodable s filename tag Hf) in Hrun.
    discriminate Hrun.
Qed.

Lemma CreateGLTexture_false_inv s filename tag s' :
  CreateGLTexture filename tag s = Returns (false, s') ->
  ~ loadable s filename /\
  exists cs, s' = with_calls cs s /\
    forall n, In n (live_textures (calls s)) -> In n (live_textures cs).
Proof.
  intros Hrun.
  destruct (files s filename) as [img |] eqn:Hf.
  - destruct (Z.eq_dec (colorChannels img) 3) as [H3 | H3];
      [| destruct (Z.eq_dec (colorChannels img) 4) as [H4 | H4]].
    1, 2: (assert (Hc : colorChannels img = 3 \/ colorChannels img = 4) by tauto;
           destruct (in_capacity_dec s) as [Hcap | Hno];
           [ destruct (CreateGLTexture_loaded s filename tag img Hcap Hf Hc)
               as (cs & Hrun' & Hcs);
             rewrite Hrun' in Hrun; discriminate Hrun
           | rewrite (CreateGLTexture_without_room s filename tag img Hno Hf Hc)
               in Hrun; discriminate Hrun ]).
    destruct (CreateGLTexture_unsupported s filename tag img Hf H3 H4)
      as (cs & Hrun' & Hcs).
    rewrite Hrun' in Hrun. injection Hrun as <-. split.
    + intros (img' & Himg & Hc). rewrite Hf in Himg. injection Himg as <-. tauto.
    + exists cs. split; [reflexivity |]. intros n Hn. rewrite Hcs.
      apply in_or_app. now left.
  - rewrite (CreateGLTexture_undecodable s filename tag Hf) in Hrun.
    injection Hrun as <-. split.
    + intros (img & Himg & _). rewrite Hf in Himg. discriminate Himg.
    + eexists. split; [reflexivity |]. intros n Hn.
      now rewrite live_textures_snoc.
Qed.

(** X2. [CreateGLTexture] does not check the slot counter against the size of
    [m_textureIDs]: when the file decodes to an image with 3 or 4 channels
    and the counter designates no entry (the array is full, or the counter
    is negative), the store of the new entry is outside the array. *)
Theorem CreateGLTexture_stores_outside_full_array
    (s : State) (filename tag : string) :
  loadable s filename -> ~ in_capacity s ->
  CreateGLTexture filename tag s = Undefined.
Proof.
  intros (img & Hf & Hc) Hno.
  exact (CreateGLTexture_without_room s filename tag img Hno Hf Hc).
Qed.

(** A full array of two entries. *)
Lemma CreateGLTexture_stores_outside_full_array_witness :
  let s := mkState None 2 [TEXTURE_INFO.mk 1 "a"; TEXTURE_INFO.mk 2 "b"] [] []
                   sample_files in
  CreateGLTexture "rgb.jpg" "c" s = Undefined.
Proof.
  intros s. apply (CreateGLTexture_stores_outside_full_array s "rgb.jpg" "c").
  - exists (mkImage 64 32 3). split; [reflexivity | now left].
  - unfold in_capacity. cbn. lia.
Defined.

(** ** Loading, then looking up *)

Lemma position_found_ge tag tags i :
  0 <= i -> position tag tags i <> -1 -> i <= position tag tags i.
Proof.
  intros Hi Hne. destruct (position_shift tag tags i) as [H | (k & H & _)];
    [contradiction | lia].
Qed.

Lemma position_app tag l1 l2 i :
  0 <= i ->
  position tag (l1 ++ l2) i =
  if position tag l1 i =? -1
  then position tag l2 (i + Z.of_nat (length l1))
  else position tag l1 i.
Proof.
  revert i. induction l1 as [| t l1 IH]; intros i Hi; cbn [position app length].
  - cbn. now rewrite Z.add_0_r.
  - destruct (String.eqb t tag).
    + replace (i =? -1) with false by (symmetry; apply Z.eqb_neq; lia).
      reflexivity.
    + rewrite IH by lia. rewrite Nat2Z.inj_succ.
      now replace (i + 1 + Z.of_nat (length l1))
        with (i + Z.succ (Z.of_nat (length l1))) by lia.
Qed.

Lemma first_entry_app tag l1 l2 :
  first_entry tag (l1 ++ l2) =
  match first_entry tag l1 with
  | Some e => Some e
  | None => first_entry tag l2
  end.
Proof.
  induction l1 as [| a l1 IH]; cbn [first_entry app]; [reflexivity |].
  destruct (String.eqb (TEXTURE_INFO.tag a) tag); [reflexivity | exact IH].
Qed.

Lemma first_entry_position tag l i :
  0 <= i ->
  (first_entry tag l = None <-> position tag (map TEXTURE_INFO.tag l) i = -1).
Proof.
  revert i. induction l as [| a l IH]; intros i Hi; cbn [first_entry position map].
  - tauto.
  - destruct (String.eqb (TEXTURE_INFO.tag a) tag).
    + split; [discriminate | lia].
    + apply IH. lia.
Qed.

Lemma registry_length s :
  0 <= m_loadedTextures s -> registry_ok s ->
  Z.of_nat (length (registry s)) = m_loadedTextures s.
Proof.
  intros H0 Hok. unfold registry, registry_ok in *. rewrite length_take. lia.
Qed.

Lemma registry_uploaded_state s cs e :
  in_capacity s -> registry (uploaded_state s cs e) = registry s ++ [e].
Proof.
  intros [H0 H1]. unfold registry. cbn [m_loadedTextures m_textureIDs uploaded_state].
  replace (Z.to_nat (m_loadedTextures s + 1)) with (S (Z.to_nat (m_loadedTextures s)))
    by lia.
  rewrite (take_S_r _ _ e) by (apply list_lookup_insert_eq; lia).
  now rewrite take_insert_ge by lia.
Qed.

Lemma registry_ok_uploaded_state s cs e :
  in_capacity s -> registry_ok (uploaded_state s cs e).
Proof.
  intros [H0 H1]. unfold registry_ok.
  cbn [m_loadedTextures m_textureIDs uploaded_state]. rewrite length_insert. lia.
Qed.

Lemma registry_with_calls cs s : registry (with_calls cs s) = registry s.
Proof. reflexivity. Qed.

(** X3. After a load that returned [true]: one texture name has come into
    use, which was not in use before; the entry of the slot the counter
    gave holds this name with the loaded tag; a tag that no entry bore
    before is found at that slot, and [FindTextureID] returns this name for
    it, converted to [int]; a tag that an entry bore before, the loaded tag
    included, is still found at its earlier entry, so that the new entry of
    a tag loaded twice is never found; and the lookups of every other tag
    give what they gave. *)
Theorem lookups_after_load (s s' : State) (filename tag : string) :
  CreateGLTexture filename tag s = Returns (true, s') ->
  (exists id,
     live_textures (calls s') = live_textures (calls s) ++ [id] /\
     ~ In id (live_textures (calls s)) /\
     registered s' (m_loadedTextures s) (TEXTURE_INFO.mk id tag) /\
     (unregistered s tag ->
        value (FindTextureSlot tag) s' = Some (m_loadedTextures s) /\
        value (FindTextureID tag) s' = Some (int_of_GLuint id))) /\
  (forall k e, first_match s tag k e ->
     value (FindTextureSlot tag) s' = Some k /\
     value (FindTextureID tag) s' = Some (int_of_GLuint (TEXTURE_INFO.ID e))) /\
  (forall tag', tag' <> tag ->
     value (FindTextureSlot tag') s' = value (FindTextureSlot tag') s /\
     value (FindTextureID tag') s' = value (FindTextureID tag') s).
Proof.
  intros Hrun.
  destruct (CreateGLTexture_true_inv _ _ _ _ Hrun) as (Hcap & _ & cs & -> & Hcs).
  set (id := fresh_texture_name
               (calls s ++ [stbi_set_flip_vertically_on_load true])) in *.
  assert (Hok : registry_ok s) by (destruct Hcap; unfold registry_ok; lia).
  pose proof (registry_ok_uploaded_state s cs (TEXTURE_INFO.mk id tag) Hcap) as Hok'.
  assert (Hslot : forall t,
    value (FindTextureSlot t) (uploaded_state s cs (TEXTURE_INFO.mk id tag)) =
    Some (if position t (registry_tags s) 0 =? -1
          then position t [tag] (m_loadedTextures s)
          else position t (registry_tags s) 0)).
  { intros t. unfold value. rewrite (FindTextureSlot_registry _ _ Hok').
    unfold registry_tags. rewrite registry_uploaded_state by exact Hcap.
    rewrite map_app, position_app by lia. rewrite length_map.
    rewrite registry_length by (destruct Hcap; assumption || lia).
    reflexivity. }
  assert (Hid : forall t,
    value (FindTextureID t) (uploaded_state s cs (TEXTURE_INFO.mk id tag)) =
    Some (match first_entry t (registry s) with
          | Some e => int_of_GLuint (TEXTURE_INFO.ID e)
          | None => handle_of t [TEXTURE_INFO.mk id tag]
          end)).
  { intros t. unfold value. rewrite (FindTextureID_registry _ _ Hok').
    unfold handle_of. rewrite registry_uploaded_state by exact Hcap.
    rewrite first_entry_app. now destruct (first_entry t (registry s)). }
  split; [| split].
  - exists id. split; [exact Hcs |]. split.
    { pose proof (fresh_texture_name_unused
                    (calls s ++ [stbi_set_flip_vertically_on_load true])) as H.
      now rewrite live_textures_snoc in H. }
    split; [now apply uploaded_state_registered |].
    intros Hun. split.
    + rewrite Hslot. unfold registry_tags.
      rewrite (position_none tag _ (unregistered_registry _ _ Hun) 0).
      cbn. now rewrite String.eqb_refl.
    + rewrite Hid, (first_entry_none tag _ (unregistered_registry _ _ Hun)).
      unfold handle_of. cbn. now rewrite String.eqb_refl.
  - intros k e Hfm.
    destruct (first_match_registry _ _ _ _ Hfm) as (He & Hk & Hm).
    pose proof Hfm as (_ & T & _). split.
    + rewrite Hslot. unfold registry_tags.
      rewrite (position_first tag _ _ _ He T Hm 0).
      replace (0 + Z.of_nat (Z.to_nat k) =? -1) with false
        by (symmetry; apply Z.eqb_neq; lia).
      f_equal. lia.
    + now rewrite Hid, (first_entry_first tag _ _ _ He T Hm).
  - intros t Hne. split.
    + rewrite Hslot. unfold value. rewrite (FindTextureSlot_registry _ _ Hok).
      destruct (position t (registry_tags s) 0 =? -1) eqn:E; [| reflexivity].
      apply Z.eqb_eq in E. rewrite E. cbn.
      replace (String.eqb tag t) with false
        by (symmetry; apply String.eqb_neq; congruence).
      reflexivity.
    + rewrite Hid. unfold value. rewrite (FindTextureID_registry _ _ Hok).
      unfold handle_of. destruct (first_entry t (registry s)); [reflexivity |].
      cbn. replace (String.eqb tag t) with false
        by (symmetry; apply String.eqb_neq; congruence).
      reflexivity.
Qed.

Lemma lookups_after_load_witness :
  let s := initial 16 sample_files in
  let s' := default s (run (CreateGLTexture "rgb.jpg" "a") s) in
  (exists id,
     live_textures (calls s') = live_textures (calls s) ++ [id] /\
     ~ In id (live_textures (calls s)) /\
     registered s' (m_loadedTextures s) (TEXTURE_INFO.mk id "a") /\
     (unregistered s "a" ->
        value (FindTextureSlot "a") s' = Some (m_loadedTextures s) /\
        value (FindTextureID "a") s' = Some (int_of_GLuint id))) /\
  (forall k e, first_match s "a" k e ->
     value (FindTextureSlot "a") s' = Some k /\
     value (FindTextureID "a") s' = Some (int_of_GLuint (TEXTURE_INFO.ID e))) /\
  (forall tag', tag' <> "a" ->
     value (FindTextureSlot tag') s' = value (FindTextureSlot tag') s /\
     value (FindTextureID tag') s' = value (FindTextureID tag') s).
Proof.
  intros s s'.
  apply (lookups_after_load s s' "rgb.jpg" "a").
  vm_compute. reflexivity.
Defined.

(** The scan of the entries does not read the calls made so far. *)
Lemma find_cond_eq v st :
  find_cond v st =
  Returns ((index v <? m_loadedTextures st) && eqb (bFound v) false, st).
Proof. reflexivity. Qed.

Lemma find_body_with_calls f tag cs s v :
  find_body f tag v (with_calls cs s) =
  match find_body f tag v s with
  | Returns (v', _) => Returns (v', with_calls cs s)
  | Undefined => Undefined
  | OutOfFuel => OutOfFuel
  end.
Proof.
  unfold find_body, bind, textureIDs_at. cbn [m_textureIDs with_calls].
  destruct (index v <? 0); [reflexivity |].
  destruct (m_textureIDs s !! Z.to_nat (index v)) as [e |]; [| reflexivity].
  now destruct (compare (TEXTURE_INFO.tag e) tag =? 0).
Qed.

Lemma find_body_state f tag s v v' s' :
  find_body f tag v s = Returns (v', s') -> s' = s.
Proof.
  unfold find_body, bind, textureIDs_at.
  destruct (index v <? 0); [discriminate |].
  destruct (m_textureIDs s !! Z.to_nat (index v)) as [e |]; [| discriminate].
  destruct (compare (TEXTURE_INFO.tag e) tag =? 0); now intros [= _ <-].
Qed.

Lemma while_O_eq {V} (cond : V -> M bool) body (v : V) s :
  while 0 cond body v s =
  match cond v s with
  | Returns (b, s1) => if b then OutOfFuel else Returns (v, s1)
  | Undefined => Undefined
  | OutOfFuel => OutOfFuel
  end.
Proof.
  cbn [while]. unfold bind. now destruct (cond v s) as [[[] s1] | |].
Qed.

Lemma while_S_eq {V} fuel (cond : V -> M bool) body (v : V) s :
  while (S fuel) cond body v s =
  match cond v s with
  | Returns (b, s1) =>
      if b then
        match body v s1 with
        | Returns (v', s2) => while fuel cond body v' s2
        | Undefined => Undefined
        | OutOfFuel => OutOfFuel
        end
      else Returns (v, s1)
  | Undefined => Undefined
  | OutOfFuel => OutOfFuel
  end.
Proof.
  cbn [while]. unfold bind. now destruct (cond v s) as [[[] s1] | |].
Qed.

Lemma find_loop_with_calls f tag cs s :
  forall fuel v,
    while fuel find_cond (find_body f tag) v (with_calls cs s) =
    match while fuel find_cond (find_body f tag) v s with
    | Returns (v', _) => Returns (v', with_calls cs s)
    | Undefined => Undefined
    | OutOfFuel => OutOfFuel
    end.
Proof.
  intros fuel. induction fuel as [| fuel IH]; intros v.
  - rewrite !while_O_eq, !find_cond_eq.
    change (m_loadedTextures (with_calls cs s)) with (m_loadedTextures s).
    now destruct ((index v <? m_loadedTextures s) && eqb (bFound v) false).
  - rewrite !while_S_eq, !find_cond_eq.
    change (m_loadedTextures (with_calls cs s)) with (m_loadedTextures s).
    destruct ((index v <? m_loadedTextures s) && eqb (bFound v) false);
      [| reflexivity].
    rewrite find_body_with_calls.
    destruct (find_body f tag v s) as [[v' s1] | |] eqn:Hb; try reflexivity.
    apply find_body_state in Hb as ->. apply IH.
Qed.

Lemma lookups_with_calls cs s tag :
  value (FindTextureSlot tag) (with_calls cs s) = value (FindTextureSlot tag) s /\
  value (FindTextureID tag) (with_calls cs s) = value (FindTextureID tag) s.
Proof.
  unfold value. split.
  - change (FindTextureSlot tag (with_calls cs s)) with
      (match while (Z.to_nat (m_loadedTextures s)) find_cond
               (find_body (fun i _ => i) tag) (mkLocals (-1) 0 false)
               (with_calls cs s) with
       | Returns (v, s') => Returns (result v, s')
       | Undefined => Undefined
       | OutOfFuel => OutOfFuel
       end).
    change (FindTextureSlot tag s) with
      (match while (Z.to_nat (m_loadedTextures s)) find_cond
               (find_body (fun i _ => i) tag) (mkLocals (-1) 0 false) s with
       | Returns (v, s') => Returns (result v, s')
       | Undefined => Undefined
       | OutOfFuel => OutOfFuel
       end).
    rewrite find_loop_with_calls. now destruct (while _ _ _ _ s) as [[v st] | |].
  - change (FindTextureID tag (with_calls cs s)) with
      (match while (Z.to_nat (m_loadedTextures s)) find_cond
               (find_body (fun _ e => int_of_GLuint (TEXTURE_INFO.ID e)) tag)
               (mkLocals (-1) 0 false) (with_calls cs s) with
       | Returns (v, s') => Returns (result v, s')
       | Undefined => Undefined
       | OutOfFuel => OutOfFuel
       end).
    change (FindTextureID tag s) with
      (match while (Z.to_nat (m_loadedTextures s)) find_cond
               (find_body (fun _ e => int_of_GLuint (TEXTURE_INFO.ID e)) tag)
               (mkLocals (-1) 0 false) s with
       | Returns (v, s') => Returns (result v, s')
       | Undefined => Undefined
       | OutOfFuel => OutOfFuel
       end).
    rewrite find_loop_with_calls. now destruct (while _ _ _ _ s) as [[v st] | |].
Qed.

(** X4. A load that returned [false] found no loadable image, left the
    counter, the entries, the materials and the shader manager as they were,
    and so changed the result of no lookup. *)
Theorem failed_load_changes_no_lookup (s s' : State) (filename tag : string) :
  CreateGLTexture filename tag s = Returns (false, s') ->
  ~ loadable s filename /\
  m_loadedTextures s' = m_loadedTextures s /\
  m_textureIDs s' = m_textureIDs s /\
  m_objectMaterials s' = m_objectMaterials s /\
  m_pShaderManager s' = m_pShaderManager s /\
  forall tag',
    value (FindTextureSlot tag') s' = value (FindTextureSlot tag') s /\
    value (FindTextureID tag') s' = value (FindTextureID tag') s.
Proof.
  intros Hrun.
  destruct (CreateGLTexture_false_inv _ _ _ _ Hrun) as (Hno & cs & -> & _).
  split; [exact Hno |]. do 4 (split; [reflexivity |]).
  intros tag'. apply lookups_with_calls.
Qed.

Lemma failed_load_changes_no_lookup_witness :
  let s := two_textures in
  let s' := default s (run (CreateGLTexture "grey.png" "c") s) in
  ~ loadable s "grey.png" /\
  m_loadedTextures s' = m_loadedTextures s /\
  m_textureIDs s' = m_textureIDs s /\
  m_objectMaterials s' = m_objectMaterials s /\
  m_pShaderManager s' = m_pShaderManager s /\
  forall tag',
    value (FindTextureSlot tag') s' = value (FindTextureSlot tag') s /\
    value (FindTextureID tag') s' = value (FindTextureID tag') s.
Proof.
  intros s s'.
  apply (failed_load_changes_no_lookup s s' "grey.png" "c").
  vm_compute. reflexivity.
Defined.

(** ** The image with an unsupported number of channels *)

Lemma CreateGLTexture_unsupported_calls s filename tag img :
  files s filename = Some img ->
  colorChannels img <> 3 -> colorChannels img <> 4 ->
  let id := fresh_texture_name
              (calls s ++ [stbi_set_flip_vertically_on_load true]) in
  CreateGLTexture filename tag s =
  Returns (false,
    with_calls
      (calls s ++
       [stbi_set_flip_vertically_on_load true;
        glGenTextures id;
        glBindTexture GL_TEXTURE_2D id;
        glTexParameteri GL_TEXTURE_2D GL_TEXTURE_WRAP_S GL_REPEAT;
        glTexParameteri GL_TEXTURE_2D GL_TEXTURE_WRAP_T GL_REPEAT;
        glTexParameteri GL_TEXTURE_2D GL_TEXTURE_MIN_FILTER GL_LINEAR;
        glTexParameteri GL_TEXTURE_2D GL_TEXTURE_MAG_FILTER GL_LINEAR]) s).
Proof.
  intros Hf H3 H4 id. apply Z.eqb_neq in H3, H4.
  unfold CreateGLTexture.
  rewrite bind_call, bind_get, files_with_calls, Hf.
  rewrite bind_get, calls_with_calls. step_calls.
  rewrite H3, H4, bind_ret. unfold ret. do 2 f_equal. f_equal.
  repeat rewrite <- app_assoc. reflexivity.
Qed.

(** X5. When the file decodes to an image whose number of channels is
    neither 3 nor 4, [CreateGLTexture] returns [false] after it has generated
    a texture name: the name stays in use and no entry holds it, and neither
    [stbi_image_free] nor a call that releases a name is made. *)
Theorem unsupported_image_is_not_released
    (s : State) (filename tag : string) (img : Image) :
  files s filename = Some img ->
  colorChannels img <> 3 -> colorChannels img <> 4 ->
  exists added id,
    CreateGLTexture filename tag s =
      Returns (false, with_calls (calls s ++ added) s) /\
    In (glGenTextures id) added /\
    ~ In id (live_textures (calls s)) /\
    In id (live_textures (calls s ++ added)) /\
    ~ In (stbi_image_free img) added /\
    existsb is_release added = false /\
    (handles_live s ->
     forall i e, registered (with_calls (calls s ++ added) s) i e ->
                 TEXTURE_INFO.ID e <> id).
Proof.
  intros Hf H3 H4.
  pose proof (CreateGLTexture_unsupported_calls s filename tag img Hf H3 H4) as Hrun.
  cbv zeta in Hrun.
  set (id := fresh_texture_name
               (calls s ++ [stbi_set_flip_vertically_on_load true])) in *.
  assert (Hfresh : ~ In id (live_textures (calls s))).
  { pose proof (fresh_texture_name_unused
                  (calls s ++ [stbi_set_flip_vertically_on_load true])) as H.
    now rewrite live_textures_snoc in H. }
  eexists. exists id. split; [exact Hrun |].
  split; [right; now left |]. split; [exact Hfresh |]. split; [| split; [| split]].
  - unfold live_textures. rewrite fold_left_app. cbn [fold_left live_step].
    apply in_or_app. right. now left.
  - intros H. cbn in H.
    repeat (destruct H as [H | H]; [discriminate H |]). exact H.
  - reflexivity.
  - intros Hlive i e R Heq. apply Hfresh. rewrite <- Heq.
    exact (Hlive i e R).
Qed.

Lemma unsupported_image_is_not_released_witness :
  let s := two_textures in
  let img := mkImage 8 8 2 in
  exists added id,
    CreateGLTexture "grey.png" "c" s =
      Returns (false, with_calls (calls s ++ added) s) /\
    In (glGenTextures id) added /\
    ~ In id (live_textures (calls s)) /\
    In id (live_textures (calls s ++ added)) /\
    ~ In (stbi_image_free img) added /\
    existsb is_release added = false /\
    (handles_live s ->
     forall i e, registered (with_calls (calls s ++ added) s) i e ->
                 TEXTURE_INFO.ID e <> id).
Proof.
  intros s img.
  apply (unsupported_image_is_not_released s "grey.png" "c" img).
  - reflexivity.
  - cbn. lia.
  - cbn. lia.
Defined.

(** ** The invariant of the texture registry *)

Lemma initial_registry_inv capacity fs : registry_inv (initial capacity fs).
Proof.
  unfold registry_inv. cbn [m_loadedTextures m_textureIDs initial].
  split; [lia |]. split.
  - intros i e [Hi _]. cbn in Hi. lia.
  - intros i j ei ej [Hi _]. cbn in Hi. lia.
Defined.

(** X6. Every load that returns keeps the invariant of the texture
    registry: the slot counter stays within the array, every registered
    handle is a texture name in use, and no two entries hold the same
    handle.  The state without textures satisfies it. *)
Theorem CreateGLTexture_keeps_registry_inv
    (s s' : State) (filename tag : string) (ok : bool) :
  registry_inv s ->
  CreateGLTexture filename tag s = Returns (ok, s') ->
  registry_inv s'.
Proof.
  intros (Hn & Hlive & Hdist) Hrun. destruct ok.
  - destruct (CreateGLTexture_true_inv _ _ _ _ Hrun) as (Hcap & _ & cs & -> & Hcs).
    split.
    + destruct Hcap as [H0 H1].
      cbn [m_loadedTextures m_textureIDs uploaded_state]. rewrite length_insert. lia.
    + now apply uploaded_state_keeps_handles.
  - destruct (CreateGLTexture_false_inv _ _ _ _ Hrun) as (_ & cs & -> & Hcs).
    split; [exact Hn |]. split; [| exact Hdist].
    intros i e R. cbn [calls with_calls]. apply Hcs. exact (Hlive i e R).
Qed.

Lemma CreateGLTexture_keeps_registry_inv_witness :
  let s := initial 16 sample_files in
  registry_inv (default s (run (CreateGLTexture "rgb.jpg" "a") s)).
Proof.
  intros s.
  apply (CreateGLTexture_keeps_registry_inv s _ "rgb.jpg" "a" true).
  - apply initial_registry_inv.
  - vm_compute. reflexivity.
Defined.

(** ** Loops over the slots *)

(** A rule for [for (int i = 0; i < m_loadedTextures; i++)]: a property
    [I i] that holds before the iteration [i], implies that the counter is
    [n], and is carried by the body to [I (i + 1)], holds at the end for the
    number of iterations made. *)
Lemma slots_loop_rule (I : Z -> State -> Prop) (body : Z -> M unit) (n : Z) :
  (forall i st, I i st -> m_loadedTextures st = n) ->
  (forall i st, 0 <= i < n -> I i st ->
     exists st', body i st = Returns (tt, st') /\ I (i + 1) st') ->
  forall fuel i st,
    0 <= i -> n - i <= Z.of_nat fuel -> I i st ->
    exists j st',
      while fuel (fun i => k <- get m_loadedTextures ;; ret (i <? k))
                 (fun i => body i ;;; ret (i + 1)) i st = Returns (j, st') /\
      I (Z.max i n) st'.
Proof.
  intros Hn Hstep fuel. induction fuel as [| fuel IH]; intros i st Hi Hfuel HI.
  - exists i, st. rewrite while_O_eq, bind_get. unfold ret.
    rewrite (Hn _ _ HI).
    replace (i <? n) with false by (symmetry; apply Z.ltb_ge; lia).
    split; [reflexivity |]. now replace (Z.max i n) with i by lia.
  - rewrite while_S_eq, bind_get. unfold ret at 1. rewrite (Hn _ _ HI).
    destruct (Z.ltb_spec i n) as [Hlt | Hge].
    + destruct (Hstep i st (conj Hi Hlt) HI) as (st' & Hb & HI').
      unfold bind at 1. rewrite Hb. unfold ret at 1.
      destruct (IH (i + 1) st') as (j & st2 & Hw & HI2); [lia | lia | exact HI' |].
      exists j, st2. split; [exact Hw |].
      now replace (Z.max i n) with (Z.max (i + 1) n) by lia.
    + exists i, st. split; [reflexivity |].
      now replace (Z.max i n) with i by lia.
Qed.

Lemma registry_lookup s i :
  registry_ok s -> 0 <= i < m_loadedTextures s ->
  exists e, registry s !! Z.to_nat i = Some e /\
            m_textureIDs s !! Z.to_nat i = Some e.
Proof.
  intros Hok Hi. destruct (registered_lookup s i Hok Hi) as [e He].
  exists e. split; [| exact He].
  apply registered_registry. split; [lia | exact He].
Qed.

Lemma registry_take_all s :
  take (Z.to_nat (Z.max 0 (m_loadedTextures s))) (registry s) = registry s.
Proof.
  apply take_ge. unfold registry. rewrite length_take. lia.
Qed.

(** ** Binding the textures *)

Lemma bind_calls_snoc k l e :
  bind_calls k (l ++ [e]) =
  bind_calls k l ++
  [glActiveTexture (k + Z.of_nat (length l));
   glBindTexture GL_TEXTURE_2D (TEXTURE_INFO.ID e)].
Proof.
  revert k. induction l as [| a l IH]; intros k; cbn [bind_calls app length].
  - cbn. now rewrite Z.add_0_r.
  - rewrite IH. cbn [app].
    now replace (k + 1 + Z.of_nat (length l))
      with (k + Z.of_nat (S (length l))) by lia.
Qed.

Lemma BindGLTextures_result (s : State) :
  registry_ok s ->
  BindGLTextures s =
  Returns (tt, with_calls (calls s ++ bind_calls 0 (registry s)) s).
Proof.
  intros Hok. unfold BindGLTextures. rewrite bind_get. unfold for_loop.
  set (body := fun i : Z =>
       call (glActiveTexture i) ;;;
       e <- textureIDs_at i ;;
       call (glBindTexture GL_TEXTURE_2D (TEXTURE_INFO.ID e))).
  set (I := fun (i : Z) (st : State) =>
       i <= Z.max 0 (m_loadedTextures s) /\
       st = with_calls
              (calls s ++ bind_calls 0 (take (Z.to_nat i) (registry s))) s).
  destruct (slots_loop_rule I body (m_loadedTextures s)) with
    (fuel := Z.to_nat (m_loadedTextures s)) (i := 0) (st := s)
    as (j & st' & Hw & Hmax & ->).
  - intros i st [_ ->]. reflexivity.
  - intros i st Hi [_ ->].
    destruct (registry_lookup s i Hok Hi) as (e & Hreg & Harr).
    eexists. split.
    + unfold body. rewrite bind_call, calls_with_calls, with_calls_twice.
      unfold bind at 1, textureIDs_at. cbn [m_textureIDs with_calls].
      replace (i <? 0) with false by (symmetry; apply Z.ltb_ge; lia).
      rewrite Harr. unfold call, modify.
      rewrite with_calls_twice, calls_with_calls. reflexivity.
    + split; [lia |]. f_equal.
      replace (Z.to_nat (i + 1)) with (S (Z.to_nat i)) by lia.
      rewrite (take_S_r _ _ e Hreg), bind_calls_snoc.
      rewrite length_take_le by (apply lookup_lt_Some in Hreg; lia).
      rewrite <- !app_assoc. cbn [app].
      now replace (0 + Z.of_nat (Z.to_nat i)) with i by lia.
  - lia.
  - lia.
  - split; [lia |]. cbn. rewrite app_nil_r. now destruct s.
  - subst body. cbv beta in Hw. unfold bind at 1. rewrite Hw. unfold ret.
    now rewrite registry_take_all.
Qed.

(** X7. On a registry whose slot counter is within the array,
    [BindGLTextures] makes, for the registered entries in slot order and for
    nothing else, the two calls that select texture unit [i] and bind the
    handle of the entry of slot [i]; it changes nothing else, and with no
    texture loaded it does nothing. *)
Theorem BindGLTextures_binds_each_slot (s : State) :
  registry_ok s ->
  BindGLTextures s =
  Returns (tt, with_calls (calls s ++ bind_calls 0 (registry s)) s).
Proof. exact (BindGLTextures_result s). Qed.

Lemma BindGLTextures_binds_each_slot_witness :
  BindGLTextures two_textures =
  Returns (tt, with_calls (calls two_textures ++
                           bind_calls 0 (registry two_textures)) two_textures).
Proof.
  apply (BindGLTextures_binds_each_slot two_textures). exact two_textures_ok.
Defined.

(** ** What the teardown leaves *)

Lemma map_tag_insert (l : list TEXTURE_INFO.t) i name e :
  l !! i = Some e ->
  map TEXTURE_INFO.tag (<[i := TEXTURE_INFO.mk name (TEXTURE_INFO.tag e)]> l)
  = map TEXTURE_INFO.tag l.
Proof.
  revert i. induction l as [| a l IH]; intros i Hi; [discriminate Hi |].
  destruct i as [| i]; cbn in Hi |- *.
  - now injection Hi as ->.
  - f_equal. now apply IH.
Qed.

Lemma regenerated_step s i st :
  registry_ok s -> 0 <= i < m_loadedTextures s -> regenerated s i st ->
  exists st',
    (e <- textureIDs_at i ;;
     name <- get (fun s => fresh_texture_name (calls s)) ;;
     call (glGenTextures name) ;;;
     textureIDs_store i (TEXTURE_INFO.mk name (TEXTURE_INFO.tag e))) st
    = Returns (tt, st') /\
    regenerated s (i + 1) st'.
Proof.
  intros Hok Hi (Hmax & Hn & Hsm & Hmat & Hlen & Htags & names & Hcalls & Hids
                 & Hnd & Hnew).
  unfold registry_ok in Hok.
  destruct (lookup_lt_is_Some_2 (m_textureIDs st) (Z.to_nat i)) as [e He]; [lia |].
  set (name := fresh_texture_name (calls st)).
  exists (with_textureIDs
            (<[Z.to_nat i := TEXTURE_INFO.mk name (TEXTURE_INFO.tag e)]>
               (m_textureIDs st))
            (with_calls (calls st ++ [glGenTextures name]) st)).
  split.
  - unfold bind at 1, textureIDs_at.
    replace (i <? 0) with false by (symmetry; apply Z.ltb_ge; lia).
    rewrite He. rewrite bind_get, bind_call. fold name.
    unfold textureIDs_store. cbn [m_textureIDs with_calls].
    replace (0 <=? i) with true by (symmetry; apply Z.leb_le; lia).
    replace (i <? Z.of_nat (length (m_textureIDs st))) with true
      by (symmetry; apply Z.ltb_lt; lia).
    reflexivity.
  - assert (Hname : ~ In name (live_textures (calls s) ++ names)).
    { rewrite <- live_textures_generated, <- Hcalls.
      apply fresh_texture_name_unused. }
    unfold regenerated.
    cbn [m_loadedTextures m_pShaderManager m_objectMaterials m_textureIDs calls
         with_textureIDs with_calls].
    split; [lia |]. do 3 (split; [assumption |]).
    split; [now rewrite length_insert |].
    split; [now rewrite (map_tag_insert _ _ _ _ He) |].
    exists (names ++ [name]). split; [| split; [| split]].
    + rewrite Hcalls, map_app, app_assoc. reflexivity.
    + replace (Z.to_nat (i + 1)) with (S (Z.to_nat i)) by lia.
      rewrite (take_S_r _ _ (TEXTURE_INFO.mk name (TEXTURE_INFO.tag e)))
        by (apply list_lookup_insert_eq; lia).
      rewrite take_insert_ge by lia. rewrite map_app, Hids. reflexivity.
    + apply NoDup_app. split; [exact Hnd |]. split.
      * intros x Hx Hx'. apply list_elem_of_In in Hx.
        apply list_elem_of_In in Hx'. destruct Hx' as [<- | []].
        apply Hname. apply in_or_app. now right.
      * apply NoDup_singleton.
    + intros x Hx. apply in_app_or in Hx as [Hx | [<- | []]].
      * now apply Hnew.
      * intros H. apply Hname. apply in_or_app. now left.
Qed.

Lemma DestroyGLTextures_regenerated s :
  registry_ok s ->
  exists s',
    DestroyGLTextures s = Returns (tt, s') /\
    regenerated s (Z.max 0 (m_loadedTextures s)) s'.
Proof.
  intros Hok. unfold DestroyGLTextures. rewrite bind_get. unfold for_loop.
  destruct (slots_loop_rule (regenerated s)
              (fun i =>
                 e <- textureIDs_at i ;;
                 name <- get (fun s => fresh_texture_name (calls s)) ;;
                 call (glGenTextures name) ;;;
                 textureIDs_store i (TEXTURE_INFO.mk name (TEXTURE_INFO.tag e)))
              (m_loadedTextures s)) with
    (fuel := Z.to_nat (m_loadedTextures s)) (i := 0) (st := s)
    as (j & st' & Hw & HI).
  - intros i st (_ & Hn & _). exact Hn.
  - intros i st Hi HI. now apply regenerated_step.
  - lia.
  - lia.
  - unfold regenerated. split; [lia |]. do 5 (split; [reflexivity |]).
    exists []. cbn. rewrite app_nil_r. repeat split.
    + apply NoDup_nil_2.
    + intros x [].
  - exists st'. split; [| exact HI].
    cbv beta in Hw. unfold bind at 1. rewrite Hw. reflexivity.
Qed.

Lemma regenerated_registry s s' :
  regenerated s (Z.max 0 (m_loadedTextures s)) s' ->
  registry_tags s' = registry_tags s /\
  exists names,
    calls s' = calls s ++ map glGenTextures names /\
    map TEXTURE_INFO.ID (registry s') = names /\
    NoDup names /\
    forall x, In x names -> ~ In x (live_textures (calls s)).
Proof.
  intros (_ & Hn & _ & _ & _ & Htags & names & Hcalls & Hids & Hnd & Hnew).
  split.
  - unfold registry_tags, registry. rewrite Hn.
    now rewrite <- !firstn_map, Htags.
  - exists names. split; [exact Hcalls |]. split; [| split; assumption].
    rewrite <- Hids. unfold registry. rewrite Hn. f_equal. f_equal. lia.
Qed.

(** X8. On a registry whose slot counter is within the array,
    [DestroyGLTextures] returns and clears nothing: the slot counter, the
    tags of the entries, the materials and the shader manager are as before,
    and every tag is found at the slot where it was found before. *)
Theorem DestroyGLTextures_keeps_the_registry (s : State) :
  registry_ok s ->
  exists s',
    DestroyGLTextures s = Returns (tt, s') /\
    m_loadedTextures s' = m_loadedTextures s /\
    registry_tags s' = registry_tags s /\
    m_objectMaterials s' = m_objectMaterials s /\
    m_pShaderManager s' = m_pShaderManager s /\
    forall tag,
      FindTextureSlot tag s' = Returns (position tag (registry_tags s) 0, s') /\
      FindTextureSlot tag s = Returns (position tag (registry_tags s) 0, s).
Proof.
  intros Hok. destruct (DestroyGLTextures_regenerated s Hok) as (s' & Hrun & HI).
  destruct (regenerated_registry s s' HI) as (Htags & _).
  destruct HI as (_ & Hn & Hsm & Hmat & Hlen & _).
  exists s'. split; [exact Hrun |]. do 4 (split; [assumption |]).
  intros tag. split.
  - rewrite <- Htags. apply FindTextureSlot_registry.
    unfold registry_ok in *. rewrite Hn, Hlen. exact Hok.
  - now apply FindTextureSlot_registry.
Qed.

Lemma DestroyGLTextures_keeps_the_registry_witness :
  exists s',
    DestroyGLTextures two_textures = Returns (tt, s') /\
    m_loadedTextures s' = m_loadedTextures two_textures /\
    registry_tags s' = registry_tags two_textures /\
    m_objectMaterials s' = m_objectMaterials two_textures /\
    m_pShaderManager s' = m_pShaderManager two_textures /\
    forall tag,
      FindTextureSlot tag s' =
        Returns (position tag (registry_tags two_textures) 0, s') /\
      FindTextureSlot tag two_textures =
        Returns (position tag (registry_tags two_textures) 0, two_textures).
Proof.
  apply (DestroyGLTextures_keeps_the_registry two_textures).
  exact two_textures_ok.
Defined.

(** X9. On a registry whose slot counter is within the array and whose
    handles are texture names in use, [DestroyGLTextures] adds only calls of
    [glGenTextures]; each entry then holds a name that was not in use
    before, no two the same; and every handle an entry held before is still
    in use while no entry holds it any more. *)
Theorem DestroyGLTextures_orphans_the_handles (s : State) :
  registry_ok s -> handles_live s ->
  exists s' names,
    DestroyGLTextures s = Returns (tt, s') /\
    calls s' = calls s ++ map glGenTextures names /\
    map TEXTURE_INFO.ID (registry s') = names /\
    NoDup names /\
    (forall x, In x names -> ~ In x (live_textures (calls s))) /\
    forall i e, registered s i e ->
      In (TEXTURE_INFO.ID e) (live_textures (calls s')) /\
      forall j e', registered s' j e' -> TEXTURE_INFO.ID e' <> TEXTURE_INFO.ID e.
Proof.
  intros Hok Hlive.
  destruct (DestroyGLTextures_regenerated s Hok) as (s' & Hrun & HI).
  destruct (regenerated_registry s s' HI) as (_ & names & Hcalls & Hids & Hnd & Hnew).
  exists s', names. split; [exact Hrun |]. do 4 (split; [assumption |]).
  intros i e R. split.
  - rewrite Hcalls, live_textures_generated. apply in_or_app. left.
    exact (Hlive i e R).
  - intros j e' R' Heq. apply (Hnew (TEXTURE_INFO.ID e')).
    + rewrite <- Hids. apply in_map.
      apply registered_registry in R' as [_ R'].
      apply list_elem_of_In, list_elem_of_lookup. eauto.
    + rewrite Heq. exact (Hlive i e R).
Qed.

Lemma two_textures_handles_live : handles_live two_textures.
Proof.
  intros i e R.
  destruct (two_textures_registered i e R) as [[_ ->] | [_ ->]];
    vm_compute; tauto.
Defined.

Lemma DestroyGLTextures_orphans_the_handles_witness :
  exists s' names,
    DestroyGLTextures two_textures = Returns (tt, s') /\
    calls s' = calls two_textures ++ map glGenTextures names /\
    map TEXTURE_INFO.ID (registry s') = names /\
    NoDup names /\
    (forall x, In x names -> ~ In x (live_textures (calls two_textures))) /\
    forall i e, registered two_textures i e ->
      In (TEXTURE_INFO.ID e) (live_textures (calls s')) /\
      forall j e', registered s' j e' -> TEXTURE_INFO.ID e' <> TEXTURE_INFO.ID e.
Proof.
  apply (DestroyGLTextures_orphans_the_handles two_textures).
  - exact two_textures_ok.
  - exact two_textures_handles_live.
Defined.

(** ** Loading the textures of the scene *)

Lemma LoadSceneTexture_load_then :
  LoadSceneTexture = load_then scene_textures BindGLTextures.
Proof. reflexivity. Qed.

Lemma CreateGLTexture_not_loadable s filename tag :
  is_loadable (files s) filename = false ->
  exists cs, CreateGLTexture filename tag s = Returns (false, with_calls cs s).
Proof.
  unfold is_loadable. destruct (files s filename) as [img |] eqn:Hf.
  - intros H. apply orb_false_iff in H as [H3 H4].
    apply Z.eqb_neq in H3, H4.
    destruct (CreateGLTexture_unsupported s filename tag img Hf H3 H4)
      as (cs & Hrun & _).
    now exists cs.
  - intros _. eexists. exact (CreateGLTexture_undecodable s filename tag Hf).
Qed.

Lemma CreateGLTexture_is_loadable s filename tag :
  in_capacity s -> is_loadable (files s) filename = true ->
  exists cs id,
    CreateGLTexture filename tag s =
    Returns (true, uploaded_state s cs (TEXTURE_INFO.mk id tag)).
Proof.
  intros Hcap H. apply is_loadable_spec in H as (img & Hf & Hc).
  destruct (CreateGLTexture_loaded s filename tag img Hcap Hf Hc) as (cs & Hrun & _).
  eauto.
Qed.

Lemma registry_tags_uploaded_state s cs id tag :
  in_capacity s ->
  registry_tags (uploaded_state s cs (TEXTURE_INFO.mk id tag))
  = registry_tags s ++ [tag].
Proof.
  intros Hcap. unfold registry_tags.
  now rewrite registry_uploaded_state, map_app by exact Hcap.
Qed.

(** The loads of a list for which there is room. *)
Lemma load_then_room loads k :
  forall s,
    0 <= m_loadedTextures s ->
    m_loadedTextures s + Z.of_nat (length (loaded_of (files s) loads))
      <= Z.of_nat (length (m_textureIDs s)) ->
    exists s1,
      load_then loads k s = k s1 /\
      files s1 = files s /\
      m_pShaderManager s1 = m_pShaderManager s /\
      m_objectMaterials s1 = m_objectMaterials s /\
      length (m_textureIDs s1) = length (m_textureIDs s) /\
      m_loadedTextures s1 =
        m_loadedTextures s + Z.of_nat (length (loaded_of (files s) loads)) /\
      registry_tags s1 =
        registry_tags s ++ map snd (loaded_of (files s) loads).
Proof.
  induction loads as [| [filename tag] loads IH]; intros s H0 Hroom.
  - exists s. cbn. rewrite app_nil_r. repeat split; lia.
  - cbn [load_then loaded_of List.filter fst] in *.
    fold (loaded_of (files s) loads) in *.
    destruct (is_loadable (files s) filename) eqn:Hl.
    + cbn [length] in Hroom.
      assert (Hcap : in_capacity s) by (unfold in_capacity; lia).
      destruct (CreateGLTexture_is_loadable s filename tag Hcap Hl)
        as (cs & id & Hrun).
      set (s' := uploaded_state s cs (TEXTURE_INFO.mk id tag)) in *.
      destruct (IH s') as (s1 & Hk & Hf & Hsm & Hmat & Hlen & Hn & Htags).
      * cbn. lia.
      * cbn [files m_loadedTextures m_textureIDs uploaded_state s'].
        rewrite length_insert. lia.
      * exists s1. unfold bind at 1. rewrite Hrun. split; [exact Hk |].
        cbn [files m_pShaderManager m_objectMaterials m_loadedTextures
             m_textureIDs uploaded_state s'] in Hf, Hsm, Hmat, Hlen, Hn.
        rewrite length_insert in Hlen.
        do 4 (split; [assumption |]). split.
        { rewrite Hn. cbn [length]. lia. }
        { rewrite Htags. unfold s'.
          rewrite registry_tags_uploaded_state by exact Hcap.
          cbn [files uploaded_state map snd]. now rewrite <- app_assoc. }
    + destruct (CreateGLTexture_not_loadable s filename tag Hl) as (cs & Hrun).
      destruct (IH (with_calls cs s)) as (s1 & Hk & Hf & Hsm & Hmat & Hlen & Hn & Htags).
      * exact H0.
      * exact Hroom.
      * exists s1. unfold bind at 1. rewrite Hrun. split; [exact Hk |].
        repeat split; assumption.
Qed.

(** The loads of a list for which there is no room. *)
Lemma load_then_no_room loads k :
  forall s,
    0 <= m_loadedTextures s <= Z.of_nat (length (m_textureIDs s)) ->
    Z.of_nat (length (m_textureIDs s)) <
      m_loadedTextures s + Z.of_nat (length (loaded_of (files s) loads)) ->
    load_then loads k s = Undefined.
Proof.
  induction loads as [| [filename tag] loads IH]; intros s H0 Hroom.
  - cbn in Hroom. lia.
  - cbn [load_then loaded_of List.filter fst] in *.
    fold (loaded_of (files s) loads) in *.
    destruct (is_loadable (files s) filename) eqn:Hl.
    + cbn [length] in Hroom.
      destruct (in_capacity_dec s) as [Hcap | Hno].
      * destruct (CreateGLTexture_is_loadable s filename tag Hcap Hl)
          as (cs & id & Hrun).
        unfold bind at 1. rewrite Hrun. destruct Hcap as [Hc0 Hc1]. apply IH.
        { cbn [m_loadedTextures m_textureIDs uploaded_state].
          rewrite length_insert. lia. }
        { cbn [files m_loadedTextures m_textureIDs uploaded_state].
          rewrite length_insert. lia. }
      * apply is_loadable_spec in Hl as (img & Hf & Hc).
        unfold bind at 1.
        now rewrite (CreateGLTexture_without_room s filename tag img Hno Hf Hc).
    + destruct (CreateGLTexture_not_loadable s filename tag Hl) as (cs & Hrun).
      unfold bind at 1. rewrite Hrun. apply IH; assumption.
Qed.

(** The slot of the tag of a load among the loads that succeed. *)
Lemma position_among_loaded fs (loads : list (string * string)) :
  NoDup (map snd loads) ->
  forall k filename tag i,
    loads !! k = Some (filename, tag) ->
    is_loadable fs filename = true ->
    position tag (map snd (loaded_of fs loads)) i =
    i + Z.of_nat (length (loaded_of fs (take k loads))).
Proof.
  induction loads as [| [f0 t0] loads IH]; intros Hnd k filename tag i Hk Hl;
    [discriminate Hk |].
  cbn [map snd] in Hnd. apply NoDup_cons in Hnd as [Hnotin Hnd].
  destruct k as [| k].
  - cbn in Hk. injection Hk as -> ->.
    cbn [loaded_of List.filter fst take]. rewrite Hl.
    cbn [map snd position length]. rewrite String.eqb_refl. lia.
  - cbn in Hk.
    assert (Hne : t0 <> tag).
    { intros ->. apply Hnotin. apply list_elem_of_In.
      apply (in_map snd) with (x := (filename, tag)).
      apply list_elem_of_In, list_elem_of_lookup. eauto. }
    apply String.eqb_neq in Hne.
    cbn [loaded_of List.filter fst take].
    fold (loaded_of fs loads). fold (loaded_of fs (take k loads)).
    destruct (is_loadable fs f0).
    + cbn [map snd position length]. rewrite Hne.
      rewrite (IH Hnd k filename tag (i + 1) Hk Hl). lia.
    + exact (IH Hnd k filename tag i Hk Hl).
Qed.

Lemma scene_textures_NoDup : NoDup (map snd scene_textures).
Proof.
  cbn. repeat (apply NoDup_cons; split;
    [ intros H; apply list_elem_of_In in H; cbn in H;
      repeat (destruct H as [H | H]; [discriminate H |]); exact H |]).
  apply NoDup_nil_2.
Qed.

(** X10. When no texture is loaded yet and the array has room for the files
    of the scene that are loadable, [LoadSceneTexture] returns; the tags of
    the loadable files are registered in the order of the loads, a file that
    is not loadable leaving no gap: the tag of the load number [k] is found
    at the slot that counts the loadable files of the loads before it.  The
    last calls made bind the registered entries to their texture units. *)
Theorem LoadSceneTexture_assigns_slots_in_order (s : State) :
  m_loadedTextures s = 0 ->
  Z.of_nat (length (loaded_of (files s) scene_textures))
    <= Z.of_nat (length (m_textureIDs s)) ->
  exists s',
    LoadSceneTexture s = Returns (tt, s') /\
    registry_tags s' = map snd (loaded_of (files s) scene_textures) /\
    m_loadedTextures s' =
      Z.of_nat (length (loaded_of (files s) scene_textures)) /\
    (exists cs, calls s' = cs ++ bind_calls 0 (registry s')) /\
    forall k filename tag,
      scene_textures !! k = Some (filename, tag) ->
      is_loadable (files s) filename = true ->
      FindTextureSlot tag s' =
      Returns (Z.of_nat (length (loaded_of (files s) (take k scene_textures))),
               s').
Proof.
  intros Hn Hroom. rewrite LoadSceneTexture_load_then.
  destruct (load_then_room scene_textures BindGLTextures s)
    as (s1 & Hk & Hf & Hsm & Hmat & Hlen & Hn1 & Htags); [lia | lia |].
  assert (Hok1 : registry_ok s1) by (unfold registry_ok; lia).
  assert (Hempty : registry_tags s = []).
  { unfold registry_tags, registry. now rewrite Hn. }
  rewrite Hempty in Htags. cbn [app] in Htags. rewrite Hn, Z.add_0_l in Hn1.
  rewrite Hk, (BindGLTextures_result s1 Hok1).
  eexists. split; [reflexivity |].
  change (registry_tags (with_calls ?c s1)) with (registry_tags s1).
  cbn [m_loadedTextures calls with_calls].
  split; [exact Htags |]. split; [exact Hn1 |]. split; [eauto |].
  intros k filename tag Hload Hl.
  rewrite FindTextureSlot_registry by exact Hok1.
  change (registry_tags (with_calls ?c s1)) with (registry_tags s1).
  rewrite Htags.
  rewrite (position_among_loaded (files s) scene_textures scene_textures_NoDup
             k filename tag 0 Hload Hl).
  reflexivity.
Qed.

Lemma LoadSceneTexture_assigns_slots_in_order_witness :
  let s := initial 16 scene_files in
  exists s',
    LoadSceneTexture s = Returns (tt, s') /\
    registry_tags s' = map snd (loaded_of (files s) scene_textures) /\
    m_loadedTextures s' =
      Z.of_nat (length (loaded_of (files s) scene_textures)) /\
    (exists cs, calls s' = cs ++ bind_calls 0 (registry s')) /\
    forall k filename tag,
      scene_textures !! k = Some (filename, tag) ->
      is_loadable (files s) filename = true ->
      FindTextureSlot tag s' =
      Returns (Z.of_nat (length (loaded_of (files s) (take k scene_textures))),
               s').
Proof.
  intros s. apply (LoadSceneTexture_assigns_slots_in_order s).
  - reflexivity.
  - vm_compute. discriminate.
Defined.

(** X11. [LoadSceneTexture] does not check for room either: when the
    loadable files of the scene are more than the entries that are free, the
    load that finds the array full stores outside it. *)
Theorem LoadSceneTexture_overflows_without_room (s : State) :
  0 <= m_loadedTextures s <= Z.of_nat (length (m_textureIDs s)) ->
  Z.of_nat (length (m_textureIDs s)) <
    m_loadedTextures s +
    Z.of_nat (length (loaded_of (files s) scene_textures)) ->
  LoadSceneTexture s = Undefined.
Proof.
  intros H0 Hroom. rewrite LoadSceneTexture_load_then.
  now apply load_then_no_room.
Qed.

Lemma LoadSceneTexture_overflows_without_room_witness :
  LoadSceneTexture (initial 8 scene_files) = Undefined.
Proof.
  apply (LoadSceneTexture_overflows_without_room (initial 8 scene_files)).
  - cbn. lia.
  - vm_compute. reflexivity.
Defined.

(** ** Defining materials, then looking them up *)

Lemma first_with_tag_None_iff tag l :
  first_with_tag tag l = None <-> ~ In tag (map OBJECT_MATERIAL.tag l).
Proof.
  induction l as [| a l IH]; cbn [first_with_tag map In]; [tauto |].
  destruct (String.eqb_spec (OBJECT_MATERIAL.tag a) tag) as [Heq | Hne].
  - split; [discriminate | tauto].
  - rewrite IH. tauto.
Qed.

Lemma first_defined_first_with_tag s tag k e :
  first_defined s tag k e -> first_with_tag tag (m_objectMaterials s) = Some e.
Proof.
  intros Hfd.
  destruct (first_with_tag tag (m_objectMaterials s)) as [e' |] eqn:Ef.
  - apply first_with_tag_Some in Ef as (k' & Hk & Ht & Hm).
    assert (Hfd' : first_defined s tag k' e') by (repeat split; assumption).
    now destruct (first_defined_unique _ _ _ _ _ _ Hfd Hfd') as [_ <-].
  - exfalso. destruct Hfd as (Hd & Ht & _).
    exact (first_with_tag_None _ _ Ef _ _ Hd Ht).
Qed.

Lemma never_defined_first_with_tag s tag :
  never_defined s tag -> first_with_tag tag (m_objectMaterials s) = None.
Proof.
  intros Hnd.
  destruct (first_with_tag tag (m_objectMaterials s)) as [e |] eqn:Ef;
    [| reflexivity].
  exfalso. apply first_with_tag_Some in Ef as (k & Hk & Ht & _).
  exact (Hnd k e Hk Ht).
Qed.

(** X12. What [FindMaterial] does, in every state and for every tag: it
    changes no state; it returns [true] exactly when some material is
    defined, whether or not one bears the tag; it never assigns the tag of
    the referenced material; it assigns the five other fields from the first
    material defined with the tag, and nothing when there is none. *)
Theorem FindMaterial_contract
    (s : State) (tag : string) (material : OBJECT_MATERIAL.t) :
  exists found material',
    FindMaterial tag material s = Returns ((found, material'), s) /\
    (found = true <-> m_objectMaterials s <> []) /\
    OBJECT_MATERIAL.tag material' = OBJECT_MATERIAL.tag material /\
    (forall k e, first_defined s tag k e -> material' = assign_fields e material) /\
    (never_defined s tag -> material' = material).
Proof.
  rewrite FindMaterial_value. eexists. eexists. split; [reflexivity |].
  split; [| split; [| split]].
  - destruct (m_objectMaterials s); split; congruence.
  - now destruct (first_with_tag tag (m_objectMaterials s)).
  - intros k e Hfd. now rewrite (first_defined_first_with_tag _ _ _ _ Hfd).
  - intros Hnd. now rewrite (never_defined_first_with_tag _ _ Hnd).
Qed.

Lemma FindMaterial_contract_witness :
  exists found material',
    FindMaterial "x" (sample_material "" 0) defined_twice
    = Returns ((found, material'), defined_twice) /\
    (found = true <-> m_objectMaterials defined_twice <> []) /\
    OBJECT_MATERIAL.tag material' = OBJECT_MATERIAL.tag (sample_material "" 0) /\
    (forall k e, first_defined defined_twice "x" k e ->
                 material' = assign_fields e (sample_material "" 0)) /\
    (never_defined defined_twice "x" -> material' = sample_material "" 0).
Proof.
  exact (FindMaterial_contract defined_twice "x" (sample_material "" 0)).
Defined.

(** X13. After [push_back] of a material [m]: the lookup of its tag finds
    [m] when no material had the tag, and the earlier material when one had
    it; every tag found before is found as before; and the lookup of a tag
    that no material bears now returns [true] with the referenced material
    unchanged, whatever the registry was. *)
Theorem push_back_then_FindMaterial
    (s : State) (m material : OBJECT_MATERIAL.t) :
  let s' := with_objectMaterials (m_objectMaterials s ++ [m]) s in
  push_back m s = Returns (tt, s') /\
  (never_defined s (OBJECT_MATERIAL.tag m) ->
     FindMaterial (OBJECT_MATERIAL.tag m) material s'
     = Returns ((true, assign_fields m material), s')) /\
  (forall tag k e, first_defined s tag k e ->
     FindMaterial tag material s'
     = Returns ((true, assign_fields e material), s')) /\
  (forall tag, never_defined s tag -> tag <> OBJECT_MATERIAL.tag m ->
     FindMaterial tag material s' = Returns ((true, material), s')).
Proof.
  intros s'. split; [reflexivity |].
  assert (Hne : forall tag,
    FindMaterial tag material s' =
    Returns ((true,
              match first_with_tag tag (m_objectMaterials s ++ [m]) with
              | Some e => assign_fields e material
              | None => material
              end), s')).
  { intros tag. rewrite FindMaterial_value.
    cbn [m_objectMaterials with_objectMaterials s'].
    now destruct (m_objectMaterials s). }
  split; [| split].
  - intros Hnd. rewrite Hne, first_with_tag_app.
    rewrite (never_defined_first_with_tag _ _ Hnd). cbn [first_with_tag].
    now rewrite String.eqb_refl.
  - intros tag k e Hfd. rewrite Hne, first_with_tag_app.
    now rewrite (first_defined_first_with_tag _ _ _ _ Hfd).
  - intros tag Hnd Htag. rewrite Hne, first_with_tag_app.
    rewrite (never_defined_first_with_tag _ _ Hnd). cbn [first_with_tag].
    replace (String.eqb (OBJECT_MATERIAL.tag m) tag) with false
      by (symmetry; apply String.eqb_neq; congruence).
    reflexivity.
Qed.

Lemma push_back_then_FindMaterial_witness :
  let s := initial 16 sample_files in
  let m := sample_material "x" 1 in
  let material := sample_material "" 0 in
  let s' := with_objectMaterials (m_objectMaterials s ++ [m]) s in
  push_back m s = Returns (tt, s') /\
  (never_defined s (OBJECT_MATERIAL.tag m) ->
     FindMaterial (OBJECT_MATERIAL.tag m) material s'
     = Returns ((true, assign_fields m material), s')) /\
  (forall tag k e, first_defined s tag k e ->
     FindMaterial tag material s'
     = Returns ((true, assign_fields e material), s')) /\
  (forall tag, never_defined s tag -> tag <> OBJECT_MATERIAL.tag m ->
     FindMaterial tag material s' = Returns ((true, material), s')).
Proof.
  intros s m material.
  exact (push_back_then_FindMaterial s m material).
Defined.

(** ** The materials of the scene *)

Lemma DefineObjectMaterials_result grassMaterial woodMaterial s :
  DefineObjectMaterials grassMaterial woodMaterial s =
  Returns (tt, with_objectMaterials
                 (m_objectMaterials s ++ presets grassMaterial woodMaterial) s).
Proof.
  unfold DefineObjectMaterials, push_back. rewrite !bind_modify.
  unfold modify, with_objectMaterials. cbn [m_pShaderManager m_loadedTextures
    m_textureIDs m_objectMaterials calls files].
  repeat rewrite <- app_assoc. reflexivity.
Qed.

Lemma presets_tags grassMaterial woodMaterial :
  map OBJECT_MATERIAL.tag (presets grassMaterial woodMaterial)
  = ["shiny"; "grass"; "wood"; "sun"; "rough"; "shade"].
Proof. reflexivity. Qed.

(** X14. [DefineObjectMaterials] never assigns [ambientColor] and
    [ambientStrength] of its locals [grassMaterial] and [woodMaterial]: when
    no material had these tags, the lookups of "grass" and of "wood" that
    follow give, for these two fields, what the two locals held at their
    declaration, beside the diffuse colour, specular colour and shininess
    that the function assigns. *)
Theorem DefineObjectMaterials_leaves_ambient_unassigned
    (s : State) (grassMaterial woodMaterial material : OBJECT_MATERIAL.t) :
  never_defined s "grass" -> never_defined s "wood" ->
  exists s' grass wood,
    DefineObjectMaterials grassMaterial woodMaterial s = Returns (tt, s') /\
    FindMaterial "grass" material s' = Returns ((true, grass), s') /\
    FindMaterial "wood" material s' = Returns ((true, wood), s') /\
    OBJECT_MATERIAL.ambientColor grass = OBJECT_MATERIAL.ambientColor grassMaterial /\
    OBJECT_MATERIAL.ambientStrength grass
      = OBJECT_MATERIAL.ambientStrength grassMaterial /\
    OBJECT_MATERIAL.ambientColor wood = OBJECT_MATERIAL.ambientColor woodMaterial /\
    OBJECT_MATERIAL.ambientStrength wood
      = OBJECT_MATERIAL.ambientStrength woodMaterial /\
    OBJECT_MATERIAL.diffuseColor grass = vec3.mk 0.3 0.3 0.1 /\
    OBJECT_MATERIAL.specularColor grass = vec3.mk 0.0 0.0 0.0 /\
    OBJECT_MATERIAL.shininess grass = 0.1%R /\
    OBJECT_MATERIAL.diffuseColor wood = vec3.mk 0.3 0.3 0.3 /\
    OBJECT_MATERIAL.specularColor wood = vec3.mk 0.1 0.1 0.1 /\
    OBJECT_MATERIAL.shininess wood = 0.3%R.
Proof.
  intros Hg Hw. eexists. eexists. eexists.
  split; [apply DefineObjectMaterials_result |].
  rewrite !FindMaterial_value.
  cbn [m_objectMaterials with_objectMaterials].
  rewrite !first_with_tag_app.
  rewrite (never_defined_first_with_tag _ _ Hg), (never_defined_first_with_tag _ _ Hw).
  split; [| split].
  - destruct (m_objectMaterials s); reflexivity.
  - destruct (m_objectMaterials s); reflexivity.
  - repeat split.
Qed.

Lemma DefineObjectMaterials_leaves_ambient_unassigned_witness :
  let s := initial 16 sample_files in
  let g := sample_material "" 5 in
  let w := sample_material "" 6 in
  let material := sample_material "" 7 in
  exists s' grass wood,
    DefineObjectMaterials g w s = Returns (tt, s') /\
    FindMaterial "grass" material s' = Returns ((true, grass), s') /\
    FindMaterial "wood" material s' = Returns ((true, wood), s') /\
    OBJECT_MATERIAL.ambientColor grass = OBJECT_MATERIAL.ambientColor g /\
    OBJECT_MATERIAL.ambientStrength grass = OBJECT_MATERIAL.ambientStrength g /\
    OBJECT_MATERIAL.ambientColor wood = OBJECT_MATERIAL.ambientColor w /\
    OBJECT_MATERIAL.ambientStrength wood = OBJECT_MATERIAL.ambientStrength w /\
    OBJECT_MATERIAL.diffuseColor grass = vec3.mk 0.3 0.3 0.1 /\
    OBJECT_MATERIAL.specularColor grass = vec3.mk 0.0 0.0 0.0 /\
    OBJECT_MATERIAL.shininess grass = 0.1%R /\
    OBJECT_MATERIAL.diffuseColor wood = vec3.mk 0.3 0.3 0.3 /\
    OBJECT_MATERIAL.specularColor wood = vec3.mk 0.1 0.1 0.1 /\
    OBJECT_MATERIAL.shininess wood = 0.3%R.
Proof.
  intros s g w material.
  apply (DefineObjectMaterials_leaves_ambient_unassigned s g w material).
  - intros j e Hd. cbn in Hd. destruct j; discriminate Hd.
  - intros j e Hd. cbn in Hd. destruct j; discriminate Hd.
Defined.

(** X15. A second [DefineObjectMaterials] appends six materials that no
    lookup finds: after it, [FindMaterial] gives for every tag what it gave
    after the first, whatever the locals held either time. *)
Theorem DefineObjectMaterials_again_changes_no_lookup
    (s : State) (g w g' w' material : OBJECT_MATERIAL.t) (tag : string) :
  exists s1 s2,
    DefineObjectMaterials g w s = Returns (tt, s1) /\
    DefineObjectMaterials g' w' s1 = Returns (tt, s2) /\
    length (m_objectMaterials s2) = (length (m_objectMaterials s1) + 6)%nat /\
    value (FindMaterial tag material) s2 = value (FindMaterial tag material) s1.
Proof.
  eexists. eexists.
  split; [apply DefineObjectMaterials_result |].
  split; [apply DefineObjectMaterials_result |].
  cbn [m_objectMaterials with_objectMaterials].
  split.
  - rewrite (length_app _ (presets g' w')).
    change (length (presets g' w')) with 6%nat. reflexivity.
  - unfold value. rewrite !FindMaterial_value.
    cbn [m_objectMaterials with_objectMaterials].
    rewrite (first_with_tag_app tag (m_objectMaterials s ++ presets g w)).
    destruct (first_with_tag tag (m_objectMaterials s ++ presets g w)) as [e |] eqn:Ef.
    + now destruct (m_objectMaterials s).
    + replace (first_with_tag tag (presets g' w')) with (@None OBJECT_MATERIAL.t).
      * now destruct (m_objectMaterials s).
      * symmetry. apply first_with_tag_None_iff. rewrite presets_tags.
        rewrite <- (presets_tags g w).
        rewrite first_with_tag_app in Ef.
        destruct (first_with_tag tag (m_objectMaterials s)); [discriminate Ef |].
        now apply first_with_tag_None_iff.
Qed.

(** X16. With a shader manager attached, [SetShaderMaterial] for a tag that
    some material bears writes five uniforms and nothing else: the fields of
    the first material defined with the tag, whatever its local held. *)
Theorem SetShaderMaterial_writes_the_first_definition
    (s : State) (tag : string) (material : OBJECT_MATERIAL.t)
    (sm : ShaderManager) (k : nat) (e : OBJECT_MATERIAL.t) :
  m_pShaderManager s = Some sm ->
  first_defined s tag k e ->
  SetShaderMaterial tag material s =
  Returns (tt, with_shader (Some (sm ++ material_uniforms e)) s).
Proof. exact (SetShaderMaterial_resolved tag material s sm k e). Qed.

Lemma defined_twice_first : first_defined defined_twice "x" 0 (sample_material "x" 1).
Proof.
  split; [reflexivity |]. split; [reflexivity |]. intros j e' Hj. lia.
Defined.

Lemma SetShaderMaterial_writes_the_first_definition_witness :
  SetShaderMaterial "x" (sample_material "" 7) defined_twice =
  Returns (tt, with_shader
                 (Some ([] ++ material_uniforms (sample_material "x" 1)))
                 defined_twice).
Proof.
  apply (SetShaderMaterial_writes_the_first_definition defined_twice "x"
           (sample_material "" 7) [] 0 (sample_material "x" 1)).
  - reflexivity.
  - exact defined_twice_first.
Defined.

(** ** The binders and the shader manager *)

Lemma last_write_acc name ws :
  forall acc,
    fold_left (fun acc w => if String.eqb (fst w) name then Some (snd w) else acc)
              ws acc
    = match last_write name ws with
      | Some v => Some v
      | None => acc
      end.
Proof.
  unfold last_write.
  induction ws as [| w ws IH]; intros acc; [reflexivity |].
  cbn [fold_left]. destruct (String.eqb (fst w) name).
  - rewrite (IH (Some (snd w))).
    now destruct (fold_left _ ws None).
  - apply IH.
Qed.

Lemma last_write_app name sm ws :
  last_write name (sm ++ ws)
  = match last_write name ws with
    | Some v => Some v
    | None => last_write name sm
    end.
Proof.
  unfold last_write at 1. rewrite fold_left_app. apply last_write_acc.
Qed.

Lemma last_write_absent name ws :
  ~ In name (map fst ws) -> last_write name ws = None.
Proof.
  unfold last_write.
  induction ws as [| w ws IH]; intros Hn; [reflexivity |].
  cbn [fold_left]. cbn [map In] in Hn.
  destruct (String.eqb_spec (fst w) name) as [Heq | _]; [tauto |].
  apply IH. tauto.
Qed.

Lemma bound_written name sm ws s :
  bound name (with_shader (Some (sm ++ ws)) s)
  = match last_write name ws with
    | Some v => Some v
    | None => last_write name sm
    end.
Proof. unfold bound. cbn [m_pShaderManager with_shader]. apply last_write_app. Qed.

Lemma SetTransformations_result scaleXYZ rx ry rz positionXYZ s sm :
  m_pShaderManager s = Some sm ->
  SetTransformations scaleXYZ rx ry rz positionXYZ s =
  Returns (tt, with_shader
                 (Some (sm ++ [(g_ModelName,
                                UMat4 (modelView scaleXYZ rx ry rz positionXYZ))])) s).
Proof.
  intros Hsm. unfold SetTransformations. rewrite bind_get, Hsm.
  unfold setMat4Value, shader_set. now rewrite Hsm.
Qed.

Lemma SetShaderColor_result r g b a s sm :
  m_pShaderManager s = Some sm ->
  SetShaderColor r g b a s =
  Returns (tt, with_shader
                 (Some (sm ++ [(g_UseTextureName, UInt 0);
                               (g_ColorValueName, UVec4 (vec4.mk r g b a))])) s).
Proof.
  intros Hsm. unfold SetShaderColor. rewrite bind_get, Hsm.
  unfold setIntValue, setVec4Value, bind, shader_set. rewrite Hsm.
  cbn [m_pShaderManager with_shader]. unfold with_shader.
  cbn [m_pShaderManager m_loadedTextures m_textureIDs m_objectMaterials calls files].
  now rewrite <- app_assoc.
Qed.

Lemma SetShaderTexture_result tag s sm :
  m_pShaderManager s = Some sm ->
  registry_ok s ->
  SetShaderTexture tag s =
  Returns (tt, with_shader
                 (Some (sm ++ [(g_UseTextureName, UInt 1);
                               (g_TextureValueName,
                                USampler2D (position tag (registry_tags s) 0))])) s).
Proof.
  intros Hsm Hok. unfold SetShaderTexture. rewrite bind_get, Hsm.
  unfold setIntValue, bind at 1, shader_set at 1. rewrite Hsm.
  unfold bind.
  assert (Hok' : registry_ok
                   (with_shader (Some (sm ++ [(g_UseTextureName, UInt 1)])) s))
    by exact Hok.
  rewrite (FindTextureSlot_registry tag _ Hok').
  unfold setSampler2DValue, shader_set.
  cbn [m_pShaderManager with_shader]. unfold with_shader.
  cbn [m_pShaderManager m_loadedTextures m_textureIDs m_objectMaterials calls files].
  now rewrite <- app_assoc.
Qed.

Lemma SetTextureUVScale_result u v s sm :
  m_pShaderManager s = Some sm ->
  SetTextureUVScale u v s =
  Returns (tt, with_shader (Some (sm ++ [("UVscale", UVec2 (vec2.mk u v))])) s).
Proof.
  intros Hsm. unfold SetTextureUVScale. rewrite bind_get, Hsm.
  unfold setVec2Value, shader_set. now rewrite Hsm.
Qed.

Lemma SetupSceneLights_without_shader_manager s :
  m_pShaderManager s = None -> SetupSceneLights s = Undefined.
Proof.
  intros Hsm. unfold SetupSceneLights, bind at 1.
  unfold setBoolValue, shader_set at 1. now rewrite Hsm.
Qed.

(** X17. Without a shader manager, [SetTransformations], [SetShaderColor],
    [SetShaderTexture] and [SetTextureUVScale] return and change nothing,
    [SetShaderTexture] without looking the tag up; [SetupSceneLights], and
    [SetShaderMaterial] as soon as one material is defined, call a member
    function through the NULL pointer. *)
Theorem binders_without_shader_manager (s : State) :
  m_pShaderManager s = None ->
  (forall scaleXYZ rx ry rz positionXYZ,
     SetTransformations scaleXYZ rx ry rz positionXYZ s = Returns (tt, s)) /\
  (forall r g b a, SetShaderColor r g b a s = Returns (tt, s)) /\
  (forall tag, SetShaderTexture tag s = Returns (tt, s)) /\
  (forall u v, SetTextureUVScale u v s = Returns (tt, s)) /\
  SetupSceneLights s = Undefined /\
  (forall tag material,
     SetShaderMaterial tag material s =
     if decide (m_objectMaterials s = []) then Returns (tt, s) else Undefined).
Proof.
  intros Hsm. repeat split.
  - intros. unfold SetTransformations. now rewrite bind_get, Hsm.
  - intros. unfold SetShaderColor. now rewrite bind_get, Hsm.
  - intros. unfold SetShaderTexture. now rewrite bind_get, Hsm.
  - intros. unfold SetTextureUVScale. now rewrite bind_get, Hsm.
  - now apply SetupSceneLights_without_shader_manager.
  - intros. rewrite SetShaderMaterial_value, Hsm.
    now destruct (m_objectMaterials s).
Qed.

Lemma binders_without_shader_manager_witness :
  let s := with_shader None defined_twice in
  (forall scaleXYZ rx ry rz positionXYZ,
     SetTransformations scaleXYZ rx ry rz positionXYZ s = Returns (tt, s)) /\
  (forall r g b a, SetShaderColor r g b a s = Returns (tt, s)) /\
  (forall tag, SetShaderTexture tag s = Returns (tt, s)) /\
  (forall u v, SetTextureUVScale u v s = Returns (tt, s)) /\
  SetupSceneLights s = Undefined /\
  (forall tag material,
     SetShaderMaterial tag material s =
     if decide (m_objectMaterials s = []) then Returns (tt, s) else Undefined).
Proof.
  intros s. apply (binders_without_shader_manager s). reflexivity.
Defined.

(** X18. [SetShaderColor] and [SetShaderTexture] share the uniform
    bUseTexture, and the one called last decides it: after the texture and
    then the colour it is 0, after the colour and then the texture it is 1.
    In both orders the colour and the sampler of the two calls stay bound,
    the sampler to the slot of the first registered entry with the tag, or
    to -1. *)
Theorem last_of_color_and_texture_decides
    (s : State) (sm : ShaderManager) (tag : string) (r g b a : float) :
  m_pShaderManager s = Some sm ->
  registry_ok s ->
  let slot := position tag (registry_tags s) 0 in
  (exists s1 s2,
     SetShaderTexture tag s = Returns (tt, s1) /\
     SetShaderColor r g b a s1 = Returns (tt, s2) /\
     bound "bUseTexture" s2 = Some (UInt 0) /\
     bound "objectTexture" s2 = Some (USampler2D slot) /\
     bound "objectColor" s2 = Some (UVec4 (vec4.mk r g b a))) /\
  (exists s1 s2,
     SetShaderColor r g b a s = Returns (tt, s1) /\
     SetShaderTexture tag s1 = Returns (tt, s2) /\
     bound "bUseTexture" s2 = Some (UInt 1) /\
     bound "objectTexture" s2 = Some (USampler2D slot) /\
     bound "objectColor" s2 = Some (UVec4 (vec4.mk r g b a))).
Proof.
  intros Hsm Hok slot. split.
  - eexists. eexists.
    split; [apply (SetShaderTexture_result tag s sm Hsm Hok) |].
    split; [now apply SetShaderColor_result |].
    rewrite !bound_written, !last_write_app. repeat split.
  - eexists. eexists.
    split; [apply (SetShaderColor_result r g b a s sm Hsm) |].
    split; [apply SetShaderTexture_result; [reflexivity | exact Hok] |].
    rewrite !bound_written, !last_write_app. repeat split.
Qed.

Lemma last_of_color_and_texture_decides_witness :
  let s := two_textures in
  let slot := position "b" (registry_tags s) 0 in
  (exists s1 s2,
     SetShaderTexture "b" s = Returns (tt, s1) /\
     SetShaderColor 1 1 1 1 s1 = Returns (tt, s2) /\
     bound "bUseTexture" s2 = Some (UInt 0) /\
     bound "objectTexture" s2 = Some (USampler2D slot) /\
     bound "objectColor" s2 = Some (UVec4 (vec4.mk 1 1 1 1))) /\
  (exists s1 s2,
     SetShaderColor 1 1 1 1 s = Returns (tt, s1) /\
     SetShaderTexture "b" s1 = Returns (tt, s2) /\
     bound "bUseTexture" s2 = Some (UInt 1) /\
     bound "objectTexture" s2 = Some (USampler2D slot) /\
     bound "objectColor" s2 = Some (UVec4 (vec4.mk 1 1 1 1))).
Proof.
  intros s.
  apply (last_of_color_and_texture_decides s [] "b" 1 1 1 1).
  - reflexivity.
  - exact two_textures_ok.
Defined.

(** X19. With a shader manager attached, each binder returns and leaves
    every uniform other than its own bound as it was: [SetTransformations]
    writes model only; [SetShaderColor] bUseTexture and objectColor;
    [SetShaderTexture] bUseTexture and objectTexture; [SetTextureUVScale]
    UVscale; [SetShaderMaterial] the five fields of material.  None changes
    the texture registry, the materials or the calls made. *)
Theorem binders_keep_the_other_uniforms
    (s : State) (sm : ShaderManager) (name : string) :
  m_pShaderManager s = Some sm ->
  registry_ok s ->
  let kept (names : list string) (c : M unit) :=
    ~ In name names ->
    exists s', c s = Returns (tt, s') /\
               bound name s' = bound name s /\
               with_shader (m_pShaderManager s) s' = s in
  (forall scaleXYZ rx ry rz positionXYZ,
     kept ["model"] (SetTransformations scaleXYZ rx ry rz positionXYZ)) /\
  (forall r g b a,
     kept ["bUseTexture"; "objectColor"] (SetShaderColor r g b a)) /\
  (forall tag,
     kept ["bUseTexture"; "objectTexture"] (SetShaderTexture tag)) /\
  (forall u v, kept ["UVscale"] (SetTextureUVScale u v)) /\
  (forall tag material,
     kept ["material.ambientColor"; "material.ambientStrength";
           "material.diffuseColor"; "material.specularColor";
           "material.shininess"] (SetShaderMaterial tag material)).
Proof.
  intros Hsm Hok kept.
  assert (Hkept : forall ws names c,
    map fst ws = names ->
    c s = Returns (tt, with_shader (Some (sm ++ ws)) s) -> kept names c).
  { intros ws names c Hnames Hc Hn. eexists. split; [exact Hc |]. split.
    - rewrite bound_written, last_write_absent by now rewrite Hnames.
      unfold bound. now rewrite Hsm.
    - destruct s. cbn in Hsm. now subst. }
  split; [| split; [| split; [| split]]].
  - intros. eapply Hkept; [| now apply SetTransformations_result]. reflexivity.
  - intros. eapply Hkept; [| now apply SetShaderColor_result]. reflexivity.
  - intros. eapply Hkept; [| now apply SetShaderTexture_result]. reflexivity.
  - intros. eapply Hkept; [| now apply SetTextureUVScale_result]. reflexivity.
  - intros tag material.
    destruct (m_objectMaterials s) as [| m l] eqn:El.
    + intros _. exists s.
      split; [now rewrite SetShaderMaterial_value, El |].
      split; [reflexivity |].
      destruct s. cbn in Hsm. now subst.
    + eapply Hkept;
        [| rewrite SetShaderMaterial_value, El, Hsm; reflexivity].
      reflexivity.
Qed.

Lemma binders_keep_the_other_uniforms_witness :
  let s := two_textures in
  let name := "bUseLighting" in
  let kept (names : list string) (c : M unit) :=
    ~ In name names ->
    exists s', c s = Returns (tt, s') /\
               bound name s' = bound name s /\
               with_shader (m_pShaderManager s) s' = s in
  (forall scaleXYZ rx ry rz positionXYZ,
     kept ["model"] (SetTransformations scaleXYZ rx ry rz positionXYZ)) /\
  (forall r g b a,
     kept ["bUseTexture"; "objectColor"] (SetShaderColor r g b a)) /\
  (forall tag,
     kept ["bUseTexture"; "objectTexture"] (SetShaderTexture tag)) /\
  (forall u v, kept ["UVscale"] (SetTextureUVScale u v)) /\
  (forall tag material,
     kept ["material.ambientColor"; "material.ambientStrength";
           "material.diffuseColor"; "material.specularColor";
           "material.shininess"] (SetShaderMaterial tag material)).
Proof.
  intros s name.
  apply (binders_keep_the_other_uniforms s [] name).
  - reflexivity.
  - exact two_textures_ok.
Defined.

(** ** The geometry of the model matrix *)

Section ModelMatrixFacts.
Import Transform.
Local Open Scope R_scope.

(** X20. The matrix of [SetTransformations] carries the origin of the mesh
    to [positionXYZ], whatever the scale and the angles, moves no direction
    (a vector with w = 0) by the position, and leaves the fourth coordinate
    of every vector as it is. *)
Theorem modelView_places_the_origin
    (scaleXYZ : vec3.t) (rx ry rz : float) (positionXYZ : vec3.t) :
  let model := modelView scaleXYZ rx ry rz positionXYZ in
  glm.mul_vec model (vec4.mk 0 0 0 1)
  = vec4.mk (vec3.x positionXYZ) (vec3.y positionXYZ) (vec3.z positionXYZ) 1 /\
  (forall x y z,
     glm.mul_vec model (vec4.mk x y z 0)
     = glm.mul_vec (modelView scaleXYZ rx ry rz (vec3.mk 0 0 0))
                   (vec4.mk x y z 0)) /\
  (forall v, vec4.w (glm.mul_vec model v) = vec4.w v).
Proof.
  intros model. subst model. split; [| split].
  - rewrite modelView_acts.
    unfold translated, rotatedZ, rotatedY, rotatedX, scaled.
    cbn [vec4.x vec4.y vec4.z vec4.w vec3.x vec3.y vec3.z].
    f_equal; ring.
  - intros x y z. rewrite !modelView_acts.
    unfold translated, rotatedZ, rotatedY, rotatedX, scaled.
    cbn [vec4.x vec4.y vec4.z vec4.w vec3.x vec3.y vec3.z].
    f_equal; ring.
  - intros v. rewrite modelView_acts. reflexivity.
Qed.

End ModelMatrixFacts.

(** * The scene *)

(** ** Sequencing *)

Lemma hoare_seq (P Q R : Scene -> Prop) (c1 c2 : SM unit) :
  hoare P c1 Q -> hoare Q c2 R -> hoare P (sbind c1 (fun _ => c2)) R.
Proof.
  intros H1 H2 sc HP. destruct (H1 sc HP) as (sc1 & E1 & HQ).
  destruct (H2 sc1 HQ) as (sc2 & E2 & HR).
  exists sc2. split; [| exact HR]. unfold sbind. now rewrite E1.
Qed.

(** ** What a write keeps bound *)

Lemma last_write_app_other name log new :
  last_write name new = None ->
  last_write name (log ++ new) = last_write name log.
Proof. intros H. now rewrite last_write_app, H. Qed.

Lemma count_writes_app name ws new :
  count_writes name (ws ++ new)
  = (count_writes name ws + count_writes name new)%nat.
Proof. unfold count_writes. now rewrite List.filter_app, length_app. Qed.

Lemma model_bound_keep log new :
  last_write g_ModelName new = None ->
  model_bound log -> model_bound (log ++ new).
Proof.
  intros Hn (m & Hm). exists m. now rewrite last_write_app_other.
Qed.

Lemma surface_bound_keep s log new :
  last_write g_UseTextureName new = None ->
  last_write g_TextureValueName new = None ->
  last_write g_ColorValueName new = None ->
  surface_bound s log -> surface_bound s (log ++ new).
Proof.
  intros Hu Ht Hc [(Hm & tag & Htag & Hs) | (Hm & c & Hcol)].
  - left. rewrite !last_write_app_other by assumption. eauto.
  - right. rewrite !last_write_app_other by assumption. eauto.
Qed.

Lemma material_uniforms_names m :
  map fst (material_uniforms m) = material_names.
Proof. reflexivity. Qed.

Lemma material_bound_keep s log new :
  forallb (fun name => match last_write name new with
                       | None => true
                       | Some _ => false
                       end) material_names = true ->
  material_bound s log -> material_bound s (log ++ new).
Proof.
  intros Hn Hb Hne. destruct (Hb Hne) as (tag & material & Htag & Hall).
  exists tag, material. split; [exact Htag |].
  rewrite List.Forall_forall in Hall |- *. intros w Hw.
  rewrite last_write_app_other; [exact (Hall w Hw) |].
  rewrite forallb_forall in Hn.
  specialize (Hn (fst w)).
  destruct (last_write (fst w) new); [| reflexivity].
  assert (Hin : In (fst w) material_names).
  { rewrite <- (material_uniforms_names (resolved s tag material)).
    now apply in_map. }
  specialize (Hn Hin). discriminate Hn.
Qed.

Lemma material_bound_written s log tag material :
  is_preset_tag tag = true ->
  material_bound s (log ++ material_uniforms (resolved s tag material)).
Proof.
  intros Htag _. exists tag, material. split; [exact Htag |].
  set (m := resolved s tag material).
  unfold material_uniforms.
  repeat constructor; cbn [fst snd]; rewrite last_write_app; reflexivity.
Qed.

(** ** The steps of a draw *)

Section Steps.
Variable s : State.
Variable sm : ShaderManager.
Variable ms : list MeshCall.
Hypothesis Hok : registry_ok s.

Lemma lift_at (c : M unit) (s' : State) (sc : Scene) :
  c (manager sc) = Returns (tt, s') ->
  lift c sc = Returns (tt, mkScene s' (m_basicMeshes sc) (stack sc)).
Proof. intros H. unfold lift. now rewrite H. Qed.

(** The scene after the writes [new]. *)
Lemma rendering_writes n tr mo tr' mo' ma' ws ds new st :
  length ds = n ->
  Forall (specified s sm) ds ->
  count_writes g_ModelName ws = (n + Nat.b2n tr)%nat ->
  count_writes g_UseTextureName ws = (n + Nat.b2n mo)%nat ->
  Forall (fun w => is_render_name (fst w) = true) ws ->
  (count_writes g_ModelName new + Nat.b2n tr = Nat.b2n tr')%nat ->
  (count_writes g_UseTextureName new + Nat.b2n mo = Nat.b2n mo')%nat ->
  Forall (fun w => is_render_name (fst w) = true) new ->
  (tr' = true -> model_bound (ws ++ new)) ->
  (mo' = true -> surface_bound s (ws ++ new)) ->
  (ma' = true -> material_bound s (ws ++ new)) ->
  rendering s sm ms n tr' mo' ma'
    (mkScene (with_shader (Some ((sm ++ ws) ++ new)) s) (ms ++ ds) st).
Proof.
  intros Hlen Hds Hcm Hcs Hnames Hcm' Hcs' Hnames' Htr Hmo Hma.
  exists (ws ++ new), ds. cbn [manager m_basicMeshes].
  rewrite app_assoc. split; [reflexivity |]. split; [reflexivity |].
  split; [exact Hlen |]. split; [exact Hds |].
  rewrite !count_writes_app.
  split; [lia |]. split; [lia |].
  split; [now apply Forall_app |].
  now repeat split.
Qed.

Lemma step_SetTransformations n mo ma scaleXYZ rx ry rz positionXYZ :
  hoare (rendering s sm ms n false mo ma)
        (lift (SetTransformations scaleXYZ rx ry rz positionXYZ))
        (rendering s sm ms n true mo ma).
Proof.
  intros sc (ws & ds & Hman & Hms & Hlen & Hds & Hcm & Hcs & Hnames
             & _ & Hmo & Hma).
  eexists. split.
  - apply lift_at. rewrite Hman. now apply SetTransformations_result.
  - rewrite Hms.
    apply (rendering_writes n false mo true mo ma ws ds); try assumption.
    + reflexivity.
    + reflexivity.
    + now repeat constructor.
    + intros _. eexists. rewrite last_write_app. reflexivity.
    + intros H. apply surface_bound_keep; auto.
    + intros H. apply material_bound_keep; auto.
Qed.

Lemma step_SetShaderColor n tr ma r g b a :
  hoare (rendering s sm ms n tr false ma)
        (lift (SetShaderColor r g b a))
        (rendering s sm ms n tr true ma).
Proof.
  intros sc (ws & ds & Hman & Hms & Hlen & Hds & Hcm & Hcs & Hnames
             & Htr & _ & Hma).
  eexists. split.
  - apply lift_at. rewrite Hman. now apply SetShaderColor_result.
  - rewrite Hms.
    apply (rendering_writes n tr false tr true ma ws ds); try assumption.
    + reflexivity.
    + reflexivity.
    + now repeat constructor.
    + intros H. apply model_bound_keep; auto.
    + intros _. right. rewrite !last_write_app. split; [reflexivity | eauto].
    + intros H. apply material_bound_keep; auto.
Qed.

Lemma step_SetShaderTexture n tr ma tag :
  is_scene_tag tag = true ->
  hoare (rendering s sm ms n tr false ma)
        (lift (SetShaderTexture tag))
        (rendering s sm ms n tr true ma).
Proof.
  intros Htag sc (ws & ds & Hman & Hms & Hlen & Hds & Hcm & Hcs & Hnames
                  & Htr & _ & Hma).
  eexists. split.
  - apply lift_at. rewrite Hman.
    apply (SetShaderTexture_result tag (with_shader (Some (sm ++ ws)) s)
             (sm ++ ws)); [reflexivity | exact Hok].
  - rewrite Hms.
    change (registry_tags (with_shader (Some (sm ++ ws)) s))
      with (registry_tags s).
    apply (rendering_writes n tr false tr true ma ws ds); try assumption.
    + reflexivity.
    + reflexivity.
    + now repeat constructor.
    + intros H. apply model_bound_keep; auto.
    + intros _. left. rewrite !last_write_app. split; [reflexivity |].
      exists tag. split; [exact Htag | reflexivity].
    + intros H. apply material_bound_keep; auto.
Qed.

Lemma step_SetShaderMaterial n tr mo ma tag :
  is_preset_tag tag = true ->
  hoare (rendering s sm ms n tr mo ma)
        (local_material (SetShaderMaterial tag))
        (rendering s sm ms n tr mo true).
Proof.
  intros Htag sc (ws & ds & Hman & Hms & Hlen & Hds & Hcm & Hcs & Hnames
                  & Htr & Hmo & Hma).
  unfold local_material, sbind, declare.
  set (material := stack sc 0%nat).
  destruct (m_objectMaterials s) as [| m0 l0] eqn:El.
  - eexists. split.
    + apply lift_at. cbn [manager]. rewrite Hman.
      rewrite SetShaderMaterial_value.
      cbn [m_objectMaterials with_shader]. rewrite El. reflexivity.
    + cbn [m_basicMeshes stack]. rewrite Hms.
      exists ws, ds. cbn [manager m_basicMeshes].
      do 7 (split; [first [reflexivity | assumption] |]).
      split; [exact Htr |]. split; [exact Hmo |].
      intros _ Hne. now rewrite El in Hne.
  - eexists. split.
    + apply lift_at. cbn [manager]. rewrite Hman.
      rewrite SetShaderMaterial_value.
      cbn [m_objectMaterials m_pShaderManager with_shader]. rewrite El.
      reflexivity.
    + cbn [m_basicMeshes stack]. rewrite Hms.
      change (with_shader ?x (with_shader ?y s)) with (with_shader x s).
      rewrite <- El.
      change (match first_with_tag tag (m_objectMaterials s) with
              | Some e => assign_fields e material
              | None => material
              end) with (resolved s tag material).
      apply (rendering_writes n tr mo tr mo true ws ds); try assumption.
      * reflexivity.
      * reflexivity.
      * now repeat constructor.
      * intros H. apply model_bound_keep; auto.
      * intros H. apply surface_bound_keep; auto.
      * intros _. now apply material_bound_written.
Qed.

Lemma step_draw n mesh :
  hoare (rendering s sm ms n true true true)
        (draw mesh)
        (rendering s sm ms (S n) false false true).
Proof.
  intros sc (ws & ds & Hman & Hms & Hlen & Hds & Hcm & Hcs & Hnames
             & Htr & Hmo & Hma).
  eexists. split; [reflexivity |].
  exists ws, (ds ++ [DrawMesh mesh (Some (sm ++ ws))]).
  cbn [manager m_basicMeshes]. rewrite Hman, Hms.
  cbn [m_pShaderManager with_shader].
  split; [reflexivity |]. split; [now rewrite app_assoc |].
  split; [rewrite length_app; cbn [length]; lia |].
  split.
  { apply Forall_app. split; [exact Hds |]. constructor; [| constructor].
    cbn [specified]. exists ws. auto 6. }
  cbn [Nat.b2n] in *.
  split; [lia |]. split; [lia |]. split; [exact Hnames |].
  split; [discriminate |]. split; [discriminate |].
  intros _. now apply Hma.
Qed.

End Steps.

Ltac render_step :=
  first
    [ apply step_SetTransformations
    | apply step_SetShaderColor
    | apply step_SetShaderTexture; first [assumption | reflexivity]
    | apply step_SetShaderMaterial; reflexivity
    | apply step_draw ].

Ltac render_steps :=
  cbv zeta;
  repeat (eapply hoare_seq; [render_step |]);
  render_step.

Lemma RenderSun_rendering s sm ms n ma :
  hoare (rendering s sm ms n false false ma) RenderSun
        (rendering s sm ms (1 + n) false false true).
Proof. unfold RenderSun. render_steps. Qed.

Lemma RenderPond_rendering s sm ms n ma :
  registry_ok s ->
  hoare (rendering s sm ms n false false ma) RenderPond
        (rendering s sm ms (1 + n) false false true).
Proof. intros Hok. unfold RenderPond. render_steps. Qed.

Lemma RenderElephant_rendering s sm ms n ma :
  registry_ok s ->
  hoare (rendering s sm ms n false false ma) RenderElephant
        (rendering s sm ms (22 + n) false false true).
Proof. intros Hok. unfold RenderElephant. render_steps. Qed.

Lemma RenderBabyElephant_rendering s sm ms n ma :
  registry_ok s ->
  hoare (rendering s sm ms n false false ma) RenderBabyElephant
        (rendering s sm ms (20 + n) false false true).
Proof. intros Hok. unfold RenderBabyElephant. render_steps. Qed.

Lemma RenderTree_rendering s sm ms n ma :
  registry_ok s ->
  hoare (rendering s sm ms n false false ma) RenderTree
        (rendering s sm ms (40 + n) false false true).
Proof. intros Hok. unfold RenderTree. render_steps. Qed.

(** The first draws of [RenderGiraffe] are made with the material that is
    bound when it is called. *)
Lemma RenderGiraffe_rendering s sm ms n :
  registry_ok s ->
  hoare (rendering s sm ms n false false true) RenderGiraffe
        (rendering s sm ms (22 + n) false false true).
Proof. intros Hok. unfold RenderGiraffe. render_steps. Qed.

Lemma RenderRocks_rendering s sm ms n ma :
  registry_ok s ->
  hoare (rendering s sm ms n false false ma) RenderRocks
        (rendering s sm ms (5 + n) false false true).
Proof. intros Hok. unfold RenderRocks. render_steps. Qed.

(** The objects that [RenderScene] draws after its four planes. *)
Ltac render_objects :=
  eapply hoare_seq; [now apply RenderElephant_rendering |];
  eapply hoare_seq; [now apply RenderBabyElephant_rendering |];
  eapply hoare_seq; [now apply RenderTree_rendering |];
  eapply hoare_seq; [apply RenderSun_rendering |];
  eapply hoare_seq; [now apply RenderPond_rendering |];
  eapply hoare_seq; [now apply RenderGiraffe_rendering |];
  now apply RenderRocks_rendering.

Lemma RenderScene_rendering s sm ms ma :
  registry_ok s ->
  hoare (rendering s sm ms 0 false false ma) RenderScene
        (rendering s sm ms 115 false false true).
Proof.
  intros Hok. unfold RenderScene. cbv zeta.
  repeat (eapply hoare_seq; [render_step |]).
  render_objects.
Qed.

(** ** The draws of the scene *)

Lemma with_shader_same s sm :
  m_pShaderManager s = Some sm -> with_shader (Some (sm ++ [])) s = s.
Proof. intros H. rewrite app_nil_r. destruct s. cbn in H. now subst. Qed.

Lemma rendering_initial sc sm :
  m_pShaderManager (manager sc) = Some sm ->
  rendering (manager sc) sm (m_basicMeshes sc) 0 false false false sc.
Proof.
  intros Hsm. exists [], [].
  split; [symmetry; now apply with_shader_same |].
  split; [now rewrite app_nil_r |]. split; [reflexivity |].
  split; [constructor |].
  split; [reflexivity |]. split; [reflexivity |]. split; [constructor |].
  repeat split; discriminate.
Qed.

Lemma RenderScene_run sc sm :
  m_pShaderManager (manager sc) = Some sm ->
  registry_ok (manager sc) ->
  exists sc',
    RenderScene sc = Returns (tt, sc') /\
    rendering (manager sc) sm (m_basicMeshes sc) 115 false false true sc'.
Proof.
  intros Hsm Hok.
  exact (RenderScene_rendering (manager sc) sm (m_basicMeshes sc) false Hok sc
           (rendering_initial sc sm Hsm)).
Qed.

Lemma count_writes_other name ws :
  is_render_name name = false ->
  Forall (fun w => is_render_name (fst w) = true) ws ->
  count_writes name ws = 0%nat.
Proof.
  intros Hname Hall. unfold count_writes.
  induction Hall as [| w ws Hw _ IH]; [reflexivity |].
  cbn [List.filter]. destruct (String.eqb_spec (fst w) name) as [Heq | _].
  - rewrite Heq, Hname in Hw. discriminate Hw.
  - exact IH.
Qed.

Lemma last_write_other name sm ws :
  is_render_name name = false ->
  Forall (fun w => is_render_name (fst w) = true) ws ->
  last_write name (sm ++ ws) = last_write name sm.
Proof.
  intros Hname Hall. apply last_write_app_other, last_write_absent.
  intros Hin. apply in_map_iff in Hin as (w & Hw & Hin).
  rewrite List.Forall_forall in Hall. specialize (Hall w Hin).
  rewrite Hw, Hname in Hall. discriminate Hall.
Qed.

(** X22. With a shader manager attached and the slot counter within the
    array, [RenderScene] returns after 115 draws and changes nothing of the
    manager but the uniforms.  It writes the model matrix 115 times and the
    texture mode 115 times, once for each draw, and no uniform other than
    the model matrix, the texture mode, the colour, the sampler and the five
    fields of the material: never UVscale.  Each draw is made with a model
    matrix, a surface and a material that were written since [RenderScene]
    was called, so that no draw uses a uniform left from before: the
    material (when one is defined) is the one written for one of the six
    tags of [DefineObjectMaterials], and the surface is a colour in the
    colour mode, or in the texture mode the slot that [FindTextureSlot]
    gives for one of the nine tags of [LoadSceneTexture]. *)
Theorem RenderScene_binds_a_state_for_each_draw (sc : Scene) (sm : ShaderManager) :
  m_pShaderManager (manager sc) = Some sm ->
  registry_ok (manager sc) ->
  exists sc' ws ds,
    RenderScene sc = Returns (tt, sc') /\
    manager sc' = with_shader (Some (sm ++ ws)) (manager sc) /\
    m_basicMeshes sc' = m_basicMeshes sc ++ ds /\
    length ds = 115%nat /\
    Forall (specified (manager sc) sm) ds /\
    count_writes "model" ws = 115%nat /\
    count_writes "bUseTexture" ws = 115%nat /\
    count_writes "UVscale" ws = 0%nat /\
    Forall (fun w => is_render_name (fst w) = true) ws.
Proof.
  intros Hsm Hok.
  destruct (RenderScene_run sc sm Hsm Hok)
    as (sc' & Hrun & ws & ds & Hman & Hms & Hlen & Hds & Hcm & Hcs & Hnames & _).
  exists sc', ws, ds. cbn [Nat.b2n] in Hcm, Hcs.
  rewrite Nat.add_0_r in Hcm, Hcs.
  repeat (split; [assumption |]).
  split; [| exact Hnames].
  now apply count_writes_other.
Qed.

Lemma RenderScene_binds_a_state_for_each_draw_witness :
  exists sc' ws ds,
    RenderScene fresh_scene = Returns (tt, sc') /\
    manager sc' = with_shader (Some ([] ++ ws)) (manager fresh_scene) /\
    m_basicMeshes sc' = m_basicMeshes fresh_scene ++ ds /\
    length ds = 115%nat /\
    Forall (specified (manager fresh_scene) []) ds /\
    count_writes "model" ws = 115%nat /\
    count_writes "bUseTexture" ws = 115%nat /\
    count_writes "UVscale" ws = 0%nat /\
    Forall (fun w => is_render_name (fst w) = true) ws.
Proof.
  apply (RenderScene_binds_a_state_for_each_draw fresh_scene []).
  - reflexivity.
  - unfold registry_ok. cbn. lia.
Defined.

(** ** Draws with every tag resolved *)

Lemma position_in tag tags :
  In tag tags ->
  forall i, i <= position tag tags i < i + Z.of_nat (length tags).
Proof.
  induction tags as [| t tags IH]; intros Hin i; [destruct Hin |].
  cbn [position length]. destruct (String.eqb_spec t tag) as [Heq | Hne].
  - lia.
  - destruct Hin as [Heq | Hin]; [contradiction |].
    specialize (IH Hin (i + 1)). lia.
Qed.

Lemma registry_tags_length s :
  registry_ok s ->
  registry_tags s <> [] ->
  Z.of_nat (length (registry_tags s)) = m_loadedTextures s.
Proof.
  intros Hok Hne. unfold registry_tags in *. rewrite length_map.
  destruct (Z_lt_le_dec (m_loadedTextures s) 0) as [Hneg | Hpos].
  - exfalso. apply Hne. unfold registry.
    replace (Z.to_nat (m_loadedTextures s)) with 0%nat by lia. reflexivity.
  - now apply registry_length.
Qed.

Lemma is_scene_tag_In tag : is_scene_tag tag = true -> In tag scene_tags.
Proof.
  unfold is_scene_tag. rewrite existsb_exists.
  intros (t & Hin & Heq). apply String.eqb_eq in Heq. now subst.
Qed.

Lemma is_preset_tag_In tag : is_preset_tag tag = true -> In tag preset_tags.
Proof.
  unfold is_preset_tag. rewrite existsb_exists.
  intros (t & Hin & Heq). apply String.eqb_eq in Heq. now subst.
Qed.

Lemma surface_bound_resolved s log :
  registry_ok s ->
  (forall tag, In tag scene_tags -> In tag (registry_tags s)) ->
  surface_bound s log -> surface_resolved s log.
Proof.
  intros Hok Hreg [(Hm & tag & Htag & Hs) | H]; [| now right].
  left. split; [exact Hm |]. eexists. split; [exact Hs |].
  assert (Hin : In tag (registry_tags s))
    by now apply Hreg, is_scene_tag_In.
  pose proof (position_in tag (registry_tags s) Hin 0) as Hpos.
  rewrite registry_tags_length in Hpos; [lia | exact Hok |].
  intros Hnil. rewrite Hnil in Hin. destruct Hin.
Qed.

Lemma material_bound_resolved s log :
  (forall tag, In tag preset_tags ->
               In tag (map OBJECT_MATERIAL.tag (m_objectMaterials s))) ->
  material_bound s log -> material_resolved s log.
Proof.
  intros Hdef Hb.
  assert (Hne : m_objectMaterials s <> []).
  { intros Hnil. specialize (Hdef "shiny"). rewrite Hnil in Hdef.
    apply Hdef. cbn. now left. }
  destruct (Hb Hne) as (tag & material & Htag & Hall).
  unfold resolved in Hall.
  destruct (first_with_tag tag (m_objectMaterials s)) as [e |] eqn:Ef.
  - apply first_with_tag_Some in Ef as (k & Hk & Ht & Hmin).
    exists tag, k, e. split; [| exact Hall].
    repeat split; assumption.
  - exfalso. apply first_with_tag_None_iff in Ef. apply Ef.
    now apply Hdef, is_preset_tag_In.
Qed.

Lemma last_write_since name sm ws v :
  last_write name ws = Some v -> last_write name (sm ++ ws) = Some v.
Proof. intros H. now rewrite last_write_app, H. Qed.

Lemma model_bound_since sm ws : model_bound ws -> model_bound (sm ++ ws).
Proof. intros (m & H). exists m. now apply last_write_since. Qed.

Lemma surface_resolved_since s sm ws :
  surface_resolved s ws -> surface_resolved s (sm ++ ws).
Proof.
  intros [(Hm & slot & Hs & Hr) | (Hm & c & Hc)].
  - left. split; [now apply last_write_since |].
    exists slot. split; [now apply last_write_since | exact Hr].
  - right. split; [now apply last_write_since |].
    exists c. now apply last_write_since.
Qed.

Lemma material_resolved_since s sm ws :
  material_resolved s ws -> material_resolved s (sm ++ ws).
Proof.
  intros (tag & k & e & Hfd & Hall). exists tag, k, e. split; [exact Hfd |].
  rewrite List.Forall_forall in Hall |- *. intros w Hw.
  now apply last_write_since, Hall.
Qed.

(** X23. When, besides, the nine tags of [LoadSceneTexture] are registered
    and the six tags of [DefineObjectMaterials] are defined, every tag that
    [RenderScene] and the functions it calls pass resolves: each of the 115
    draws is made in the colour mode, or in the texture mode with the slot
    of a registered texture, never with -1, and with the fields of the first
    material defined with a tag. *)
Theorem RenderScene_resolves_every_tag (sc : Scene) (sm : ShaderManager) :
  m_pShaderManager (manager sc) = Some sm ->
  registry_ok (manager sc) ->
  (forall tag, In tag scene_tags -> In tag (registry_tags (manager sc))) ->
  (forall tag, In tag preset_tags ->
     In tag (map OBJECT_MATERIAL.tag (m_objectMaterials (manager sc)))) ->
  exists sc' ds,
    RenderScene sc = Returns (tt, sc') /\
    m_basicMeshes sc' = m_basicMeshes sc ++ ds /\
    length ds = 115%nat /\
    forall c, In c ds ->
      exists mesh log,
        c = DrawMesh mesh (Some log) /\
        surface_resolved (manager sc) log /\
        material_resolved (manager sc) log.
Proof.
  intros Hsm Hok Hreg Hdef.
  destruct (RenderScene_run sc sm Hsm Hok)
    as (sc' & Hrun & ws & ds & Hman & Hms & Hlen & Hds & _).
  exists sc', ds. do 3 (split; [assumption |]).
  intros c Hc. rewrite List.Forall_forall in Hds. specialize (Hds c Hc).
  destruct c as [mesh | mesh [log |]]; try contradiction.
  destruct Hds as (ws' & -> & _ & _ & Hsurf & Hmat).
  eexists mesh, _. split; [reflexivity |]. split.
  - now apply surface_resolved_since, surface_bound_resolved.
  - now apply material_resolved_since, material_bound_resolved.
Qed.

Lemma prepared_scene_shader :
  m_pShaderManager (manager prepared_scene) = Some scene_lights.
Proof. vm_compute. reflexivity. Defined.

Lemma prepared_scene_ok : registry_ok (manager prepared_scene).
Proof. vm_compute. discriminate. Defined.

Lemma prepared_scene_tags tag :
  In tag scene_tags -> In tag (registry_tags (manager prepared_scene)).
Proof. intros H. vm_compute. vm_compute in H. exact H. Defined.

Lemma prepared_scene_materials tag :
  In tag preset_tags ->
  In tag (map OBJECT_MATERIAL.tag (m_objectMaterials (manager prepared_scene))).
Proof. intros H. vm_compute. vm_compute in H. exact H. Defined.

Lemma RenderScene_resolves_every_tag_witness :
  exists sc' ds,
    RenderScene prepared_scene = Returns (tt, sc') /\
    m_basicMeshes sc' = m_basicMeshes prepared_scene ++ ds /\
    length ds = 115%nat /\
    forall c, In c ds ->
      exists mesh log,
        c = DrawMesh mesh (Some log) /\
        surface_resolved (manager prepared_scene) log /\
        material_resolved (manager prepared_scene) log.
Proof.
  apply (RenderScene_resolves_every_tag prepared_scene scene_lights).
  - exact prepared_scene_shader.
  - exact prepared_scene_ok.
  - exact prepared_scene_tags.
  - exact prepared_scene_materials.
Defined.

(** ** Setting the scene up *)

Lemma sbind_returns {A B} (c : SM A) (k : A -> SM B) sc a sc1 :
  c sc = Returns (a, sc1) -> sbind c k sc = k a sc1.
Proof. intros H. unfold sbind. now rewrite H. Qed.

Lemma sbind_undefined {A B} (c : SM A) (k : A -> SM B) sc :
  c sc = Undefined -> sbind c k sc = Undefined.
Proof. intros H. unfold sbind. now rewrite H. Qed.

Lemma lift_returns {A} (c : M A) (a : A) (s' : State) (sc : Scene) :
  c (manager sc) = Returns (a, s') ->
  lift c sc = Returns (a, mkScene s' (m_basicMeshes sc) (stack sc)).
Proof. intros H. unfold lift. now rewrite H. Qed.

Lemma lift_undefined {A} (c : M A) (sc : Scene) :
  c (manager sc) = Undefined -> lift c sc = Undefined.
Proof. intros H. unfold lift. now rewrite H. Qed.

Lemma bind_shader_set {B} name v (k : unit -> M B) s log :
  bind (shader_set name v) k (with_shader (Some log) s)
  = k tt (with_shader (Some (log ++ [(name, v)])) s).
Proof. reflexivity. Qed.

Lemma shader_set_attached name v s log :
  shader_set name v (with_shader (Some log) s)
  = Returns (tt, with_shader (Some (log ++ [(name, v)])) s).
Proof. reflexivity. Qed.

Lemma with_shader_attached s sm :
  m_pShaderManager s = Some sm -> s = with_shader (Some sm) s.
Proof. intros H. destruct s. cbn in H. now subst. Qed.

Lemma SetupSceneLights_attached s log :
  SetupSceneLights (with_shader (Some log) s)
  = Returns (tt, with_shader (Some (log ++ scene_lights)) s).
Proof.
  unfold SetupSceneLights, setBoolValue, setVec3Value3, setVec3Value,
    setFloatValue.
  rewrite !bind_shader_set, shader_set_attached.
  repeat rewrite <- app_assoc. cbn [app].
  apply (f_equal (fun l => Returns (tt, with_shader (Some (log ++ l)) s))).
  lazy. reflexivity.
Qed.

Lemma SetupSceneLights_result s sm :
  m_pShaderManager s = Some sm ->
  SetupSceneLights s = Returns (tt, with_shader (Some (sm ++ scene_lights)) s).
Proof.
  intros Hsm. rewrite (with_shader_attached s sm Hsm) at 1.
  apply SetupSceneLights_attached.
Qed.

Lemma LoadSceneTexture_result s :
  m_loadedTextures s = 0 ->
  Z.of_nat (length (loaded_of (files s) scene_textures))
    <= Z.of_nat (length (m_textureIDs s)) ->
  exists s',
    LoadSceneTexture s = Returns (tt, s') /\
    registry_tags s' = map snd (loaded_of (files s) scene_textures) /\
    registry_ok s' /\
    m_pShaderManager s' = m_pShaderManager s /\
    m_objectMaterials s' = m_objectMaterials s /\
    m_loadedTextures s' =
      Z.of_nat (length (loaded_of (files s) scene_textures)) /\
    length (m_textureIDs s') = length (m_textureIDs s) /\
    files s' = files s.
Proof.
  intros Hn Hroom. rewrite LoadSceneTexture_load_then.
  destruct (load_then_room scene_textures BindGLTextures s)
    as (s1 & Hk & Hf & Hsm & Hmat & Hlen & Hn1 & Htags); [lia | lia |].
  assert (Hok1 : registry_ok s1) by (unfold registry_ok; lia).
  assert (Hempty : registry_tags s = []).
  { unfold registry_tags, registry. now rewrite Hn. }
  rewrite Hempty in Htags. cbn [app] in Htags.
  rewrite Hk, (BindGLTextures_result s1 Hok1).
  eexists. split; [reflexivity |].
  change (registry_tags (with_calls ?c s1)) with (registry_tags s1).
  split; [exact Htags |]. split; [exact Hok1 |].
  split; [exact Hsm |]. split; [exact Hmat |].
  cbn [m_loadedTextures m_textureIDs files with_calls].
  split; [lia |]. split; [exact Hlen | exact Hf].
Qed.

Lemma PrepareScene_run sc sm :
  m_pShaderManager (manager sc) = Some sm ->
  m_loadedTextures (manager sc) = 0 ->
  Z.of_nat (length (loaded_of (files (manager sc)) scene_textures))
    <= Z.of_nat (length (m_textureIDs (manager sc))) ->
  exists sc',
    PrepareScene sc = Returns (tt, sc') /\
    registry_tags (manager sc')
    = map snd (loaded_of (files (manager sc)) scene_textures) /\
    registry_ok (manager sc') /\
    m_objectMaterials (manager sc')
    = m_objectMaterials (manager sc)
      ++ presets (stack sc 0%nat) (stack sc 1%nat) /\
    m_pShaderManager (manager sc') = Some (sm ++ scene_lights) /\
    m_basicMeshes sc' = m_basicMeshes sc ++ map LoadMesh scene_meshes /\
    m_loadedTextures (manager sc') =
      Z.of_nat (length (loaded_of (files (manager sc)) scene_textures)) /\
    length (m_textureIDs (manager sc')) = length (m_textureIDs (manager sc)) /\
    files (manager sc') = files (manager sc).
Proof.
  intros Hsm Hn Hroom.
  destruct (LoadSceneTexture_result (manager sc) Hn Hroom)
    as (s1 & Hload & Htags & Hok1 & Hsm1 & Hmat1 & Hcount1 & Hlen1 & Hfiles1).
  unfold PrepareScene.
  rewrite (sbind_returns _ _ sc tt _ (lift_returns _ _ _ _ Hload)).
  rewrite (sbind_returns _ _ _ tt
             (mkScene (with_objectMaterials
                         (m_objectMaterials s1
                          ++ presets (stack sc 0%nat) (stack sc 1%nat)) s1)
                      (m_basicMeshes sc) (fun n => stack sc (S (S n))))).
  2:{ unfold sbind, declare, lift. cbn [manager m_basicMeshes stack].
      now rewrite DefineObjectMaterials_result. }
  rewrite (sbind_returns _ _ _ tt
             (mkScene (with_shader (Some (sm ++ scene_lights))
                         (with_objectMaterials
                            (m_objectMaterials s1
                             ++ presets (stack sc 0%nat) (stack sc 1%nat)) s1))
                      (m_basicMeshes sc) (fun n => stack sc (S (S n))))).
  2:{ unfold lift. cbn [manager m_basicMeshes stack].
      rewrite (SetupSceneLights_result _ sm); [reflexivity |].
      cbn [m_pShaderManager with_objectMaterials]. now rewrite Hsm1. }
  eexists. split; [reflexivity |].
  cbn [manager m_basicMeshes].
  split; [exact Htags |]. split; [exact Hok1 |].
  split; [cbn [m_objectMaterials with_shader with_objectMaterials];
          now rewrite Hmat1 |].
  split; [reflexivity |].
  split; [repeat rewrite <- app_assoc; reflexivity |].
  cbn [m_loadedTextures m_textureIDs files with_shader with_objectMaterials].
  split; [exact Hcount1 |]. split; [exact Hlen1 | exact Hfiles1].
Qed.

Lemma presets_written_out grass wood :
  presets grass wood = scene_materials grass wood.
Proof. reflexivity. Qed.

Lemma scene_lights_written_out : scene_lights = scene_light_uniforms.
Proof. reflexivity. Qed.

(** X24. When a shader manager is attached, no texture is loaded yet and
    the array has room for the files of the scene that are loadable,
    [PrepareScene] returns.  The tags of the loadable files are registered
    in the order of [LoadSceneTexture] and the slot counter is their number.
    Six materials are appended, which are "shiny", "grass", "wood", "sun",
    "rough" and "shade" with the values of [scene_materials], "grass" and
    "wood" having the ambient colour and strength that the first and the
    second uninitialised local held.  The twenty-four uniforms of
    [scene_light_uniforms] are written after those already there, in this
    order.  The seven meshes are loaded last, in the order plane, sphere,
    cylinder, cone, tapered cylinder, box, prism. *)
Theorem PrepareScene_sets_the_scene_up (sc : Scene) (sm : ShaderManager) :
  m_pShaderManager (manager sc) = Some sm ->
  m_loadedTextures (manager sc) = 0 ->
  Z.of_nat (length (loaded_of (files (manager sc)) scene_textures))
    <= Z.of_nat (length (m_textureIDs (manager sc))) ->
  exists sc',
    PrepareScene sc = Returns (tt, sc') /\
    registry_tags (manager sc')
    = map snd (loaded_of (files (manager sc)) scene_textures) /\
    registry_ok (manager sc') /\
    m_objectMaterials (manager sc')
    = m_objectMaterials (manager sc)
      ++ scene_materials (stack sc 0%nat) (stack sc 1%nat) /\
    m_pShaderManager (manager sc') = Some (sm ++ scene_light_uniforms) /\
    m_basicMeshes sc' = m_basicMeshes sc ++ map LoadMesh scene_meshes /\
    m_loadedTextures (manager sc') =
      Z.of_nat (length (loaded_of (files (manager sc)) scene_textures)) /\
    length (m_textureIDs (manager sc')) = length (m_textureIDs (manager sc)) /\
    files (manager sc') = files (manager sc).
Proof.
  intros Hsm Hn Hroom.
  destruct (PrepareScene_run sc sm Hsm Hn Hroom) as (sc' & H).
  exists sc'.
  now rewrite <- presets_written_out, <- scene_lights_written_out.
Qed.

Lemma PrepareScene_sets_the_scene_up_witness :
  exists sc',
    PrepareScene fresh_scene = Returns (tt, sc') /\
    registry_tags (manager sc')
    = map snd (loaded_of (files (manager fresh_scene)) scene_textures) /\
    registry_ok (manager sc') /\
    m_objectMaterials (manager sc')
    = m_objectMaterials (manager fresh_scene)
      ++ scene_materials (stack fresh_scene 0%nat) (stack fresh_scene 1%nat) /\
    m_pShaderManager (manager sc') = Some ([] ++ scene_light_uniforms) /\
    m_basicMeshes sc' = m_basicMeshes fresh_scene ++ map LoadMesh scene_meshes /\
    m_loadedTextures (manager sc') =
      Z.of_nat (length (loaded_of (files (manager fresh_scene)) scene_textures)) /\
    length (m_textureIDs (manager sc'))
    = length (m_textureIDs (manager fresh_scene)) /\
    files (manager sc') = files (manager fresh_scene).
Proof.
  apply (PrepareScene_sets_the_scene_up fresh_scene []).
  - reflexivity.
  - reflexivity.
  - vm_compute. discriminate.
Defined.

(** ** Without a shader manager *)

Lemma SetTransformations_unattached scaleXYZ rx ry rz positionXYZ s :
  m_pShaderManager s = None ->
  SetTransformations scaleXYZ rx ry rz positionXYZ s = Returns (tt, s).
Proof. intros H. unfold SetTransformations. now rewrite bind_get, H. Qed.

Lemma SetShaderTexture_unattached tag s :
  m_pShaderManager s = None -> SetShaderTexture tag s = Returns (tt, s).
Proof. intros H. unfold SetShaderTexture. now rewrite bind_get, H. Qed.

(** X25. Without a shader manager the scene cannot be made: [PrepareScene]
    loads the textures and defines the materials, then calls a member
    function through the NULL pointer in [SetupSceneLights], before any
    mesh is loaded; and [RenderScene], as soon as one material is defined,
    does so in its first [SetShaderMaterial], before any draw. *)
Theorem scene_without_shader_manager (sc : Scene) :
  m_pShaderManager (manager sc) = None ->
  (m_loadedTextures (manager sc) = 0 ->
   Z.of_nat (length (loaded_of (files (manager sc)) scene_textures))
     <= Z.of_nat (length (m_textureIDs (manager sc))) ->
   PrepareScene sc = Undefined) /\
  (m_objectMaterials (manager sc) <> [] -> RenderScene sc = Undefined).
Proof.
  intros Hsm. split.
  - intros Hn Hroom.
    destruct (LoadSceneTexture_result (manager sc) Hn Hroom)
      as (s1 & Hload & Htags & Hok1 & Hsm1 & Hmat1 & Hcount1 & Hlen1 & Hfiles1).
    unfold PrepareScene.
    rewrite (sbind_returns _ _ sc tt _ (lift_returns _ _ _ _ Hload)).
    rewrite (sbind_returns _ _ _ tt
               (mkScene (with_objectMaterials
                           (m_objectMaterials s1
                            ++ presets (stack sc 0%nat) (stack sc 1%nat)) s1)
                        (m_basicMeshes sc) (fun n => stack sc (S (S n))))).
    2:{ unfold sbind, declare, lift. cbn [manager m_basicMeshes stack].
        now rewrite DefineObjectMaterials_result. }
    apply sbind_undefined, lift_undefined. cbn [manager].
    apply SetupSceneLights_without_shader_manager.
    cbn [m_pShaderManager with_objectMaterials]. now rewrite Hsm1.
  - intros Hne. unfold RenderScene. cbv zeta.
    erewrite sbind_returns
      by (apply lift_returns, SetTransformations_unattached; exact Hsm).
    erewrite sbind_returns
      by (apply lift_returns, SetShaderTexture_unattached; exact Hsm).
    apply sbind_undefined.
    unfold local_material, sbind, declare. apply lift_undefined.
    cbn [manager]. rewrite SetShaderMaterial_value, Hsm.
    now destruct (m_objectMaterials (manager sc)).
Qed.

Lemma scene_without_shader_manager_witness :
  (m_loadedTextures (manager unattached_scene) = 0 ->
   Z.of_nat (length (loaded_of (files (manager unattached_scene)) scene_textures))
     <= Z.of_nat (length (m_textureIDs (manager unattached_scene))) ->
   PrepareScene unattached_scene = Undefined) /\
  (m_objectMaterials (manager unattached_scene) <> [] ->
   RenderScene unattached_scene = Undefined).
Proof.
  apply (scene_without_shader_manager unattached_scene). reflexivity.
Defined.

(** ** From the set-up to the draws *)

Lemma loaded_of_all fs :
  all_loadable fs = true -> loaded_of fs scene_textures = scene_textures.
Proof.
  unfold all_loadable, loaded_of. intros H.
  rewrite forallb_forall in H.
  induction scene_textures as [| r l IH]; [reflexivity |].
  cbn [List.filter]. rewrite (H r) by now left.
  f_equal. apply IH. intros x Hx. apply H. now right.
Qed.

(** X26. From a manager with a shader manager attached, no texture loaded,
    room for nine textures and files that all decode, [PrepareScene] and
    then [RenderScene] return; after the seven loads of meshes come 115
    draws, each of a mesh that was loaded, in the colour mode or with the
    slot of a registered texture, and with a model matrix and the fields of
    a defined material.  At every draw bUseLighting is true, and the
    uniforms UVscale and lightSources[0].ambientColor are as they were
    before [PrepareScene], which the scene manager never writes. *)
Theorem PrepareScene_then_RenderScene (sc : Scene) (sm : ShaderManager) :
  m_pShaderManager (manager sc) = Some sm ->
  m_loadedTextures (manager sc) = 0 ->
  all_loadable (files (manager sc)) = true ->
  (9 <= length (m_textureIDs (manager sc)))%nat ->
  exists sc1 sc2 ds,
    PrepareScene sc = Returns (tt, sc1) /\
    RenderScene sc1 = Returns (tt, sc2) /\
    m_basicMeshes sc2 = m_basicMeshes sc ++ map LoadMesh scene_meshes ++ ds /\
    length ds = 115%nat /\
    forall c, In c ds ->
      exists mesh log,
        c = DrawMesh mesh (Some log) /\
        In (LoadMesh mesh) (m_basicMeshes sc1) /\
        model_bound log /\
        surface_resolved (manager sc1) log /\
        material_resolved (manager sc1) log /\
        last_write "bUseLighting" log = Some (UBool true) /\
        last_write "UVscale" log = last_write "UVscale" sm /\
        last_write "lightSources[0].ambientColor" log
        = last_write "lightSources[0].ambientColor" sm.
Proof.
  intros Hsm Hn Hall Hcap.
  pose proof (loaded_of_all _ Hall) as Hloaded.
  destruct (PrepareScene_run sc sm Hsm Hn) as
    (sc1 & Hprep & Htags & Hok1 & Hmat1 & Hsm1 & Hms1 & Hcount1 & Hlen1 & Hfiles1).
  { rewrite Hloaded. cbn [scene_textures length]. lia. }
  rewrite Hloaded in Htags.
  destruct (RenderScene_run sc1 _ Hsm1 Hok1)
    as (sc2 & Hrun & ws & ds & Hman & Hms & Hlen & Hds & _).
  exists sc1, sc2, ds. split; [exact Hprep |]. split; [exact Hrun |].
  split; [now rewrite Hms, Hms1, <- app_assoc |].
  split; [exact Hlen |].
  intros c Hc. rewrite List.Forall_forall in Hds. specialize (Hds c Hc).
  destruct c as [mesh | mesh [log |]]; try contradiction.
  destruct Hds as (ws' & Hlog & Hnames & Hmodel & Hsurf & Hmat).
  exists mesh, log. split; [reflexivity |].
  split.
  { rewrite Hms1. apply in_or_app. right. destruct mesh; cbn; auto 10. }
  rewrite Hlog.
  split; [now apply model_bound_since |].
  split.
  { apply surface_resolved_since, surface_bound_resolved;
      [exact Hok1 | | exact Hsurf].
    intros tag Htag. now rewrite Htags. }
  split.
  { apply material_resolved_since, material_bound_resolved; [| exact Hmat].
    intros tag Htag. rewrite Hmat1, map_app, presets_tags.
    apply in_or_app. now right. }
  rewrite (last_write_other "bUseLighting" _ ws' eq_refl Hnames).
  rewrite (last_write_other "UVscale" _ ws' eq_refl Hnames).
  rewrite (last_write_other "lightSources[0].ambientColor" _ ws' eq_refl Hnames).
  rewrite !last_write_app.
  repeat split.
Qed.

Lemma PrepareScene_then_RenderScene_witness :
  exists sc1 sc2 ds,
    PrepareScene fresh_scene = Returns (tt, sc1) /\
    RenderScene sc1 = Returns (tt, sc2) /\
    m_basicMeshes sc2
    = m_basicMeshes fresh_scene ++ map LoadMesh scene_meshes ++ ds /\
    length ds = 115%nat /\
    forall c, In c ds ->
      exists mesh log,
        c = DrawMesh mesh (Some log) /\
        In (LoadMesh mesh) (m_basicMeshes sc1) /\
        model_bound log /\
        surface_resolved (manager sc1) log /\
        material_resolved (manager sc1) log /\
        last_write "bUseLighting" log = Some (UBool true) /\
        last_write "UVscale" log = last_write "UVscale" [] /\
        last_write "lightSources[0].ambientColor" log
        = last_write "lightSources[0].ambientColor" [].
Proof.
  apply (PrepareScene_then_RenderScene fresh_scene []).
  - reflexivity.
  - reflexivity.
  - vm_compute. reflexivity.
  - cbn. lia.
Defined.

(** ** The first draw *)

Lemma hoare_exact (c : SM unit) sc sc' :
  c sc = Returns (tt, sc') -> hoare (eq sc) c (eq sc').
Proof. intros H ? <-. now exists sc'. Qed.

Lemma hoare_pre (P P' Q : Scene -> Prop) c :
  (forall sc, P sc -> P' sc) -> hoare P' c Q -> hoare P c Q.
Proof. intros HP H sc Hsc. exact (H sc (HP sc Hsc)). Qed.

Lemma rendering_start s sm ms sc :
  manager sc = with_shader (Some sm) s ->
  m_basicMeshes sc = ms ->
  rendering s sm ms 0 false false false sc.
Proof.
  intros Hman Hms. exists [], []. rewrite !app_nil_r.
  split; [exact Hman |]. split; [exact Hms |]. split; [reflexivity |].
  split; [constructor |]. split; [reflexivity |]. split; [reflexivity |].
  split; [constructor |]. repeat split; discriminate.
Qed.

Lemma local_SetShaderMaterial_result tag sc log :
  m_pShaderManager (manager sc) = Some log ->
  m_objectMaterials (manager sc) <> [] ->
  local_material (SetShaderMaterial tag) sc =
  Returns (tt,
    mkScene (with_shader
               (Some (log ++ material_uniforms
                               (resolved (manager sc) tag (stack sc 0%nat))))
               (manager sc))
            (m_basicMeshes sc) (fun n => stack sc (S n))).
Proof.
  intros Hsm Hne. unfold local_material, sbind, declare, lift.
  cbn [manager m_basicMeshes stack].
  rewrite SetShaderMaterial_value, Hsm. unfold resolved.
  now destruct (m_objectMaterials (manager sc)).
Qed.

(** The first draw of [RenderScene], and the draws after it. *)
Lemma RenderScene_first_draw sc sm :
  m_pShaderManager (manager sc) = Some sm ->
  registry_ok (manager sc) ->
  m_objectMaterials (manager sc) <> [] ->
  exists sc' m ds,
    RenderScene sc = Returns (tt, sc') /\
    m_basicMeshes sc' =
      m_basicMeshes sc
      ++ DrawMesh PlaneMesh
           (Some (((sm ++ [(g_ModelName, UMat4 m)])
                   ++ [(g_UseTextureName, UInt 1);
                       (g_TextureValueName,
                        USampler2D
                          (position "path" (registry_tags (manager sc)) 0))])
                  ++ material_uniforms
                       (resolved (manager sc) "grass" (stack sc 0%nat))))
         :: ds.
Proof.
  intros Hsm Hok Hne.
  set (m := modelView (vec3.mk 20.0 1.0 10.0) 0.0 90.0 0.0 (vec3.mk 0.0 0.0 0.0)).
  set (log := ((sm ++ [(g_ModelName, UMat4 m)])
               ++ [(g_UseTextureName, UInt 1);
                   (g_TextureValueName,
                    USampler2D (position "path" (registry_tags (manager sc)) 0))])
              ++ material_uniforms
                   (resolved (manager sc) "grass" (stack sc 0%nat))).
  assert (H : hoare (eq sc) RenderScene
                (rendering (manager sc) log
                   (m_basicMeshes sc ++ [DrawMesh PlaneMesh (Some log)])
                   114 false false true)).
  { unfold RenderScene. cbv zeta.
    eapply hoare_seq;
      [apply hoare_exact, lift_returns, SetTransformations_result; exact Hsm |].
    eapply hoare_seq;
      [apply hoare_exact, lift_returns, SetShaderTexture_result;
       [reflexivity | exact Hok] |].
    eapply hoare_seq;
      [apply hoare_exact, local_SetShaderMaterial_result;
       [reflexivity | exact Hne] |].
    eapply hoare_seq; [apply hoare_exact; reflexivity |].
    eapply (hoare_pre _
              (rendering (manager sc) log
                 (m_basicMeshes sc ++ [DrawMesh PlaneMesh (Some log)])
                 0 false false false));
      [intros ? <-; apply rendering_start; reflexivity |].
    repeat (eapply hoare_seq; [render_step |]).
    render_objects. }
  destruct (H sc eq_refl) as (sc' & Hrun & ws & ds & _ & Hms & _).
  exists sc', m, ds. split; [exact Hrun |].
  rewrite Hms, <- app_assoc. reflexivity.
Qed.

Lemma first_with_tag_grass g w :
  first_with_tag "grass" (presets g w)
  = Some (OBJECT_MATERIAL.mk (OBJECT_MATERIAL.ambientColor g)
                             (OBJECT_MATERIAL.ambientStrength g)
                             (vec3.mk 0.3 0.3 0.1) (vec3.mk 0.0 0.0 0.0) 0.1
                             "grass").
Proof. reflexivity. Qed.

(** X27. From a manager with a shader manager attached, no texture loaded,
    room for nine textures, files that all decode and no material "grass",
    [PrepareScene] and then [RenderScene] return, and the first draw, the
    plane of the path, is made with the texture of slot 0 and with the
    material "grass": its ambient colour and ambient strength are what the
    local [grassMaterial] of [DefineObjectMaterials] held at its declaration,
    which no statement assigns. *)
Theorem first_plane_is_lit_with_unassigned_ambient
    (sc : Scene) (sm : ShaderManager) :
  m_pShaderManager (manager sc) = Some sm ->
  m_loadedTextures (manager sc) = 0 ->
  all_loadable (files (manager sc)) = true ->
  (9 <= length (m_textureIDs (manager sc)))%nat ->
  never_defined (manager sc) "grass" ->
  exists sc1 sc2 log ds,
    PrepareScene sc = Returns (tt, sc1) /\
    RenderScene sc1 = Returns (tt, sc2) /\
    m_basicMeshes sc2 = m_basicMeshes sc1 ++ DrawMesh PlaneMesh (Some log) :: ds /\
    last_write "bUseTexture" log = Some (UInt 1) /\
    last_write "objectTexture" log = Some (USampler2D 0) /\
    last_write "material.ambientColor" log
    = Some (UVec3 (OBJECT_MATERIAL.ambientColor (stack sc 0%nat))) /\
    last_write "material.ambientStrength" log
    = Some (UFloat (OBJECT_MATERIAL.ambientStrength (stack sc 0%nat))) /\
    last_write "material.diffuseColor" log = Some (UVec3 (vec3.mk 0.3 0.3 0.1)).
Proof.
  intros Hsm Hn Hall Hcap Hgrass.
  pose proof (loaded_of_all _ Hall) as Hloaded.
  destruct (PrepareScene_run sc sm Hsm Hn) as
    (sc1 & Hprep & Htags & Hok1 & Hmat1 & Hsm1 & Hms1 & Hcount1 & Hlen1 & Hfiles1).
  { rewrite Hloaded. cbn [scene_textures length]. lia. }
  rewrite Hloaded in Htags.
  assert (Hne : m_objectMaterials (manager sc1) <> []).
  { rewrite Hmat1. intros Hnil. apply app_eq_nil in Hnil as [_ Hnil].
    discriminate Hnil. }
  destruct (RenderScene_first_draw sc1 _ Hsm1 Hok1 Hne)
    as (sc2 & m & ds & Hrun & Hms).
  exists sc1, sc2. eexists. exists ds.
  split; [exact Hprep |]. split; [exact Hrun |]. split; [exact Hms |].
  assert (Hres : resolved (manager sc1) "grass" (stack sc1 0%nat)
                 = assign_fields
                     (OBJECT_MATERIAL.mk
                        (OBJECT_MATERIAL.ambientColor (stack sc 0%nat))
                        (OBJECT_MATERIAL.ambientStrength (stack sc 0%nat))
                        (vec3.mk 0.3 0.3 0.1) (vec3.mk 0.0 0.0 0.0) 0.1
                        "grass")
                     (stack sc1 0%nat)).
  { unfold resolved. rewrite Hmat1, first_with_tag_app.
    rewrite (never_defined_first_with_tag _ _ Hgrass).
    now rewrite first_with_tag_grass. }
  rewrite Hres, Htags.
  rewrite !last_write_app. repeat split.
Qed.

Lemma fresh_scene_no_grass : never_defined (manager fresh_scene) "grass".
Proof. intros j e Hd. destruct j; discriminate Hd. Defined.

Lemma first_plane_is_lit_with_unassigned_ambient_witness :
  exists sc1 sc2 log ds,
    PrepareScene fresh_scene = Returns (tt, sc1) /\
    RenderScene sc1 = Returns (tt, sc2) /\
    m_basicMeshes sc2 = m_basicMeshes sc1 ++ DrawMesh PlaneMesh (Some log) :: ds /\
    last_write "bUseTexture" log = Some (UInt 1) /\
    last_write "objectTexture" log = Some (USampler2D 0) /\
    last_write "material.ambientColor" log
    = Some (UVec3 (OBJECT_MATERIAL.ambientColor (stack fresh_scene 0%nat))) /\
    last_write "material.ambientStrength" log
    = Some (UFloat (OBJECT_MATERIAL.ambientStrength (stack fresh_scene 0%nat))) /\
    last_write "material.diffuseColor" log = Some (UVec3 (vec3.mk 0.3 0.3 0.1)).
Proof.
  apply (first_plane_is_lit_with_unassigned_ambient fresh_scene []).
  - reflexivity.
  - reflexivity.
  - vm_compute. reflexivity.
  - cbn. lia.
  - exact fresh_scene_no_grass.
Defined.

(** ** Files that do not decode *)

Lemma position_absent tag tags :
  ~ In tag tags -> forall i, position tag tags i = -1.
Proof.
  induction tags as [| t tags IH]; intros Hn i; [reflexivity |].
  cbn [position]. destruct (String.eqb_spec t tag) as [-> | _].
  - exfalso. apply Hn. now left.
  - apply IH. intros H. apply Hn. now right.
Qed.

Lemma loaded_of_In fs loads filename tag :
  In (filename, tag) (loaded_of fs loads) <->
  In (filename, tag) loads /\ is_loadable fs filename = true.
Proof. unfold loaded_of. now rewrite filter_In. Qed.

Lemma position_not_loaded fs (loads : list (string * string)) :
  NoDup (map snd loads) ->
  forall filename tag i,
    In (filename, tag) loads ->
    is_loadable fs filename = false ->
    position tag (map snd (loaded_of fs loads)) i = -1.
Proof.
  intros Hnd filename tag i Hin Hl. apply position_absent.
  intros Htag. apply in_map_iff in Htag as ([f' t'] & Heq & Hin').
  cbn in Heq. subst t'. apply loaded_of_In in Hin' as [Hin' Hl'].
  assert (f' = filename); [| congruence].
  clear Hl Hl'. induction loads as [| [f0 t0] loads IH]; [destruct Hin |].
  cbn [map snd] in Hnd. apply NoDup_cons in Hnd as [Hnotin Hnd].
  assert (Hfresh : forall f, In (f, tag) loads -> t0 <> tag).
  { intros f Hf ->. apply Hnotin, list_elem_of_In.
    now apply (in_map snd) with (x := (f, tag)). }
  destruct Hin as [Heq | Hin], Hin' as [Heq' | Hin'].
  - congruence.
  - injection Heq as -> ->. now destruct (Hfresh f' Hin').
  - injection Heq' as -> ->. now destruct (Hfresh filename Hin).
  - now apply IH.
Qed.

Lemma loaded_of_length fs loads :
  (length (loaded_of fs loads) <= length loads)%nat.
Proof.
  unfold loaded_of. induction loads as [| r l IH]; [reflexivity |].
  cbn [List.filter length]. destruct (is_loadable fs (fst r)); cbn [length]; lia.
Qed.

(** X28. A file of the scene that does not decode stops neither the set-up
    nor the draws: from a manager with a shader manager attached, no texture
    loaded and room for nine textures, [PrepareScene] and then [RenderScene]
    return after 115 draws, whatever files decode.  After the set-up, for
    each of the nine loads of [LoadSceneTexture], [FindTextureSlot] returns
    for its tag the number of the decoded files of the loads before it when
    its own file decoded, and -1 when it did not; [SetShaderTexture] for the
    tag writes the texture mode 1 and this value as the sampler in both
    cases, so that a missing file leaves the texture mode enabled with the
    sampler -1. *)
Theorem scene_survives_missing_files (sc : Scene) (sm : ShaderManager) :
  m_pShaderManager (manager sc) = Some sm ->
  m_loadedTextures (manager sc) = 0 ->
  (9 <= length (m_textureIDs (manager sc)))%nat ->
  exists sc1 sc2 ds log1,
    PrepareScene sc = Returns (tt, sc1) /\
    RenderScene sc1 = Returns (tt, sc2) /\
    m_basicMeshes sc2 = m_basicMeshes sc1 ++ ds /\
    length ds = 115%nat /\
    m_pShaderManager (manager sc1) = Some log1 /\
    m_loadedTextures (manager sc1)
    = Z.of_nat (length (loaded_of (files (manager sc)) scene_textures)) /\
    forall k filename tag,
      scene_textures !! k = Some (filename, tag) ->
      let slot :=
        if is_loadable (files (manager sc)) filename
        then Z.of_nat (length (loaded_of (files (manager sc))
                                         (take k scene_textures)))
        else -1 in
      FindTextureSlot tag (manager sc1) = Returns (slot, manager sc1) /\
      SetShaderTexture tag (manager sc1) =
      Returns (tt,
        with_shader (Some (log1 ++ [("bUseTexture", UInt 1);
                                    ("objectTexture", USampler2D slot)]))
                    (manager sc1)).
Proof.
  intros Hsm Hn Hcap.
  destruct (PrepareScene_run sc sm Hsm Hn) as
    (sc1 & Hprep & Htags & Hok1 & Hmat1 & Hsm1 & Hms1 & Hcount1 & Hlen1 & Hfiles1).
  { pose proof (loaded_of_length (files (manager sc)) scene_textures) as Hle.
    change (length scene_textures) with 9%nat in Hle. lia. }
  destruct (RenderScene_run sc1 _ Hsm1 Hok1)
    as (sc2 & Hrun & ws & ds & Hman & Hms & Hlen & Hds & _).
  exists sc1, sc2, ds, (sm ++ scene_lights).
  do 6 (split; [assumption |]).
  intros k filename tag Hk slot.
  assert (Hpos : position tag (registry_tags (manager sc1)) 0 = slot).
  { rewrite Htags. subst slot.
    destruct (is_loadable (files (manager sc)) filename) eqn:Hl.
    - now rewrite (position_among_loaded _ _ scene_textures_NoDup
                     k filename tag 0 Hk Hl).
    - apply (position_not_loaded _ _ scene_textures_NoDup filename);
        [| exact Hl].
      apply list_elem_of_In, list_elem_of_lookup. now exists k. }
  split.
  - now rewrite (FindTextureSlot_registry tag _ Hok1), Hpos.
  - now rewrite (SetShaderTexture_result tag _ _ Hsm1 Hok1), Hpos.
Qed.

Lemma scene_survives_missing_files_witness :
  let sc := mkScene (initial 16 scene_files_without_rock) []
                    (fun _ => sample_material "" 0) in
  exists sc1 sc2 ds log1,
    PrepareScene sc = Returns (tt, sc1) /\
    RenderScene sc1 = Returns (tt, sc2) /\
    m_basicMeshes sc2 = m_basicMeshes sc1 ++ ds /\
    length ds = 115%nat /\
    m_pShaderManager (manager sc1) = Some log1 /\
    m_loadedTextures (manager sc1)
    = Z.of_nat (length (loaded_of (files (manager sc)) scene_textures)) /\
    forall k filename tag,
      scene_textures !! k = Some (filename, tag) ->
      let slot :=
        if is_loadable (files (manager sc)) filename
        then Z.of_nat (length (loaded_of (files (manager sc))
                                         (take k scene_textures)))
        else -1 in
      FindTextureSlot tag (manager sc1) = Returns (slot, manager sc1) /\
      SetShaderTexture tag (manager sc1) =
      Returns (tt,
        with_shader (Some (log1 ++ [("bUseTexture", UInt 1);
                                    ("objectTexture", USampler2D slot)]))
                    (manager sc1)).
Proof.
  intros sc. apply (scene_survives_missing_files sc []).
  - reflexivity.
  - reflexivity.
  - cbn. lia.
Defined.

(** ** Setting the scene up again *)

(** X29. [PrepareScene] can be run once: when the array has room for the
    loadable files of the scene but not for twice as many, the first run
    returns and a second run stores outside the array, in the load that
    finds it full.  With sixteen entries and the nine files of the scene
    decoding, this is the eighth load of the second run. *)
Theorem PrepareScene_again_overflows (sc : Scene) (sm : ShaderManager) :
  m_pShaderManager (manager sc) = Some sm ->
  m_loadedTextures (manager sc) = 0 ->
  Z.of_nat (length (loaded_of (files (manager sc)) scene_textures))
    <= Z.of_nat (length (m_textureIDs (manager sc))) ->
  Z.of_nat (length (m_textureIDs (manager sc)))
    < 2 * Z.of_nat (length (loaded_of (files (manager sc)) scene_textures)) ->
  exists sc1,
    PrepareScene sc = Returns (tt, sc1) /\ PrepareScene sc1 = Undefined.
Proof.
  intros Hsm Hn Hroom Hfull.
  destruct (PrepareScene_run sc sm Hsm Hn Hroom) as
    (sc1 & Hprep & Htags & Hok1 & Hmat1 & Hsm1 & Hms1 & Hcount1 & Hlen1 & Hfiles1).
  exists sc1. split; [exact Hprep |].
  unfold PrepareScene. apply sbind_undefined, lift_undefined.
  rewrite LoadSceneTexture_load_then. apply load_then_no_room.
  - rewrite Hcount1, Hlen1. lia.
  - rewrite Hcount1, Hlen1, Hfiles1. lia.
Qed.

Lemma PrepareScene_again_overflows_witness :
  exists sc1,
    PrepareScene fresh_scene = Returns (tt, sc1) /\
    PrepareScene sc1 = Undefined.
Proof.
  apply (PrepareScene_again_overflows fresh_scene []).
  - reflexivity.
  - reflexivity.
  - vm_compute. discriminate.
  - vm_compute. reflexivity.
Defined.
